(** * mern-server-setup: the scaffolding generator, embedded and verified

    The repository holds two variants of one generator script:
    [src/index.js] (module [IndexJs] below) and a longer variant kept in
    [src/unnamed/part_000] (module [Part000]).  Both read one line at a
    prompt, create a directory tree, write literal templates, rewrite the
    manifest that [npm init -y] produced, install dependencies and launch
    the generated server.

    The embedding follows the scripts statement by statement.  What is not
    code of the repository is a parameter of the model: the line typed by
    the operator, the working directory, the initial file system and the
    behaviour of every subprocess are fields of a [world]. *)

From Stdlib Require Import ZArith NArith List Ascii String Lia.
From stdpp Require Import gmap list.

Local Open Scope N_scope.

(** ** JavaScript strings

    A JavaScript string is a sequence of UTF-16 code units.  Literals of
    the scripts are written as Rocq strings (UTF-8 bytes) and decoded by
    [js]. *)

Module JsString.

Definition jsstring := list N.

(** One decoded UTF-8 sequence becomes one or two UTF-16 code units. *)
Definition utf16_units (cp : N) : jsstring :=
  if cp <? 0x10000 then [cp]
  else
    let v := cp - 0x10000 in
    [0xD800 + N.shiftr v 10; 0xDC00 + N.land v 0x3FF].

(** [utf8_decode pending acc bytes]: [pending] continuation bytes are
    still expected for the code point accumulated in [acc]. *)
Fixpoint utf8_decode (pending : nat) (acc : N) (bytes : list N) : jsstring :=
  match bytes with
  | [] => []
  | b :: rest =>
      match pending with
      | O =>
          if b <? 0x80 then b :: utf8_decode 0 0 rest
          else if b <? 0xC0 then 0xFFFD :: utf8_decode 0 0 rest
          else if b <? 0xE0 then utf8_decode 1 (N.land b 0x1F) rest
          else if b <? 0xF0 then utf8_decode 2 (N.land b 0x0F) rest
          else utf8_decode 3 (N.land b 0x07) rest
      | S O =>
          utf16_units (acc * 64 + N.land b 0x3F) ++ utf8_decode 0 0 rest
      | S p =>
          utf8_decode p (acc * 64 + N.land b 0x3F) rest
      end
  end.

(** A literal of the source. *)
Definition js (s : string) : jsstring :=
  utf8_decode 0 0 (map N_of_ascii (list_ascii_of_string s)).

(** The double quote, which a Rocq literal cannot hold. *)
Definition dq : jsstring := [34].

Definition eqb (a b : jsstring) : bool := bool_decide (a = b).

(** ECMAScript WhiteSpace and LineTerminator code points: the characters
    [String.prototype.trim] removes. *)
Definition isWhiteSpace (c : N) : bool :=
  (c =? 0x09) || (c =? 0x0A) || (c =? 0x0B) || (c =? 0x0C) || (c =? 0x0D)
  || (c =? 0x20) || (c =? 0xA0) || (c =? 0x1680)
  || ((0x2000 <=? c) && (c <=? 0x200A))
  || (c =? 0x2028) || (c =? 0x2029) || (c =? 0x202F) || (c =? 0x205F)
  || (c =? 0x3000) || (c =? 0xFEFF).

Fixpoint trimStart (s : jsstring) : jsstring :=
  match s with
  | [] => []
  | c :: rest => if isWhiteSpace c then trimStart rest else s
  end.

Definition trimEnd (s : jsstring) : jsstring := rev (trimStart (rev s)).

(** [String.prototype.trim] *)
Definition trim (s : jsstring) : jsstring := trimEnd (trimStart s).

(** [a || b] on strings: the empty string is the only falsy string. *)
Definition or_else (a b : jsstring) : jsstring :=
  match a with
  | [] => b
  | _ :: _ => a
  end.

(** [Array.prototype.join] *)
Fixpoint join (sep : jsstring) (parts : list jsstring) : jsstring :=
  match parts with
  | [] => []
  | [p] => p
  | p :: rest => p ++ sep ++ join sep rest
  end.

(** The lines of a template literal, joined by line feeds. *)
Definition lines (ls : list jsstring) : jsstring := join [10] ls.

End JsString.

Import JsString.

(** ** Node's [path] module, POSIX flavour

    [path.resolve] and [path.join] belong to the platform.  They are
    transcribed from Node's [lib/path.js]; [normalizeString] is given by
    its effect on the segments between separators. *)

Module Path.

Definition slash : N := 47.
Definition dot : jsstring := [46].
Definition dotdot : jsstring := [46; 46].

Definition isAbsolute (p : jsstring) : bool :=
  match p with
  | c :: _ => c =? slash
  | [] => false
  end.

Definition endsWithSlash (p : jsstring) : bool :=
  match rev p with
  | c :: _ => c =? slash
  | [] => false
  end.

(** [p.split('/')] *)
Fixpoint split (p : jsstring) : list jsstring :=
  match p with
  | [] => [[]]
  | c :: rest =>
      if c =? slash then [] :: split rest
      else
        match split rest with
        | seg :: segs => (c :: seg) :: segs
        | [] => [[c]]
        end
  end.

(** One segment pushed on the (reversed) stack of kept segments. *)
Definition push (allowAboveRoot : bool) (acc : list jsstring) (seg : jsstring)
  : list jsstring :=
  if eqb seg [] || eqb seg dot then acc
  else if eqb seg dotdot then
    match acc with
    | top :: below =>
        if eqb top dotdot then (if allowAboveRoot then dotdot :: acc else acc)
        else below
    | [] => if allowAboveRoot then [dotdot] else []
    end
  else seg :: acc.

Definition segments (allowAboveRoot : bool) (p : jsstring) : list jsstring :=
  rev (fold_left (push allowAboveRoot) (split p) []).

Definition normalizeString (p : jsstring) (allowAboveRoot : bool) : jsstring :=
  join [slash] (segments allowAboveRoot p).

(** [path.normalize] *)
Definition normalize (p : jsstring) : jsstring :=
  match p with
  | [] => dot
  | _ :: _ =>
      let n := normalizeString p (negb (isAbsolute p)) in
      match n with
      | [] =>
          if isAbsolute p then [slash]
          else if endsWithSlash p then dot ++ [slash] else dot
      | _ :: _ =>
          let n' := if endsWithSlash p then n ++ [slash] else n in
          if isAbsolute p then slash :: n' else n'
      end
  end.

(** [arg.length > 0] *)
Definition nonEmpty (arg : jsstring) : bool :=
  match arg with
  | [] => false
  | _ :: _ => true
  end.

(** [path.join(...args)] *)
Definition join_args (args : list jsstring) : jsstring :=
  match List.filter nonEmpty args with
  | [] => dot
  | parts => normalize (join [slash] parts)
  end.

(** The loop of [path.resolve]: arguments are taken from the last to the
    first, then the working directory, until an absolute one is met. *)
Fixpoint resolve_loop (cwd : jsstring) (rargs : list jsstring)
  (resolvedPath : jsstring) : jsstring * bool :=
  match rargs with
  | [] =>
      match cwd with
      | [] => (resolvedPath, false)
      | _ :: _ => (cwd ++ [slash] ++ resolvedPath, isAbsolute cwd)
      end
  | p :: before =>
      match p with
      | [] => resolve_loop cwd before resolvedPath
      | _ :: _ =>
          let r := p ++ [slash] ++ resolvedPath in
          if isAbsolute p then (r, true) else resolve_loop cwd before r
      end
  end.

(** [path.resolve(...args)], with [cwd] what [process.cwd()] returns. *)
Definition resolve (cwd : jsstring) (args : list jsstring) : jsstring :=
  let '(resolvedPath, resolvedAbsolute) := resolve_loop cwd (rev args) [] in
  let n := normalizeString resolvedPath (negb resolvedAbsolute) in
  if resolvedAbsolute then slash :: n
  else match n with [] => dot | _ :: _ => n end.

End Path.

(** ** JSON values and JavaScript objects

    [JSON.parse] and [JSON.stringify] are the platform's.  A parsed value
    is an element of [json]; an object keeps its properties in insertion
    order.  A number is kept as the text writes it, [JNumber m e] for
    m x 10^e, and stands for what [JSON.parse] reads: the double nearest
    to it, or an infinity when it is out of the range of the doubles.
    Equal elements of [json] stand for values that [===] and a deep
    comparison find equal; the sign of a zero is not kept apart. *)

Module Json.

#[warnings="-register-all"]
Inductive json :=
| JNull
| JBool (b : bool)
| JNumber (mantissa exponent : Z)
| JString (s : jsstring)
| JArray (items : list json)
| JObject (props : list (jsstring * json)).

(** [obj[k]] on the own properties of an object. *)
Fixpoint get (k : jsstring) (props : list (jsstring * json)) : option json :=
  match props with
  | [] => None
  | (k', v) :: rest => if eqb k' k then Some v else get k rest
  end.

(** [obj[k] = v]: an existing property keeps its place, a new one is
    added last. *)
Fixpoint set (k : jsstring) (v : json) (props : list (jsstring * json))
  : list (jsstring * json) :=
  match props with
  | [] => [(k, v)]
  | (k', v') :: rest =>
      if eqb k' k then (k', v) :: rest else (k', v') :: set k v rest
  end.

(** The member [k] of a JSON text's value, if that value is an object
    holding one. *)
Definition member (k : jsstring) (j : json) : option json :=
  match j with
  | JObject props => get k props
  | _ => None
  end.

Definition keys (props : list (jsstring * json)) : list jsstring :=
  map fst props.

(** A number that [JSON.parse] reads as an infinity: its magnitude
    reaches 2^1024 - 2^970, half way between the largest double and
    2^1024. *)
Definition out_of_range (mantissa exponent : Z) : bool :=
  let limit := (2 ^ 1024 - 2 ^ 970)%Z in
  if (0 <=? exponent)%Z then (limit <=? Z.abs mantissa * 10 ^ exponent)%Z
  else (limit * 10 ^ (- exponent) <=? Z.abs mantissa)%Z.

(** The value [JSON.parse] reads back from what [JSON.stringify] writes
    for a value: an infinity is written as [null], in arrays and objects
    as well; every other value is read back as it was. *)
Fixpoint written (j : json) : json :=
  match j with
  | JNumber m e => if out_of_range m e then JNull else j
  | JArray items => JArray (map written items)
  | JObject props => JObject (map (fun '(k, x) => (k, written x)) props)
  | JNull | JBool _ | JString _ => j
  end.

(** No number of the value is out of range. *)
Fixpoint in_range (j : json) : bool :=
  match j with
  | JNumber m e => negb (out_of_range m e)
  | JArray items => forallb in_range items
  | JObject props => forallb (fun '(_, x) => in_range x) props
  | JNull | JBool _ | JString _ => true
  end.

End Json.

Import Json.

(** ** Errors, events and the file system *)

Inductive error :=
| ENOENT (path : jsstring)
| ENOTDIR (path : jsstring)
| EISDIR (path : jsstring)
| EEXIST (path : jsstring)
| SyntaxError
| TypeError
| CommandFailed (cmd : jsstring) (status : option Z).

(** What a [console.error] call is given. *)
Inductive printed :=
| PString (s : jsstring)
| PMessage (e : error)
| PError (e : error).

(** What a run does that the operator can observe, in order. *)
Inductive event :=
| Question (prompt : jsstring)
| ConsoleLog (msg : jsstring)
| ConsoleError (args : list printed)
| ExecSync (cmd : jsstring) (status : option Z).

(** The content of a file: text, or a JSON text standing for the value
    [JSON.parse] gives for it, so that two JSON texts read as the same
    value are one content.  A [Text] is not a JSON text. *)
Inductive content :=
| Text (s : jsstring)
| JsonText (j : json).

Inductive node :=
| Dir
| File (c : content).

Inductive result (A : Type) :=
| Ok (a : A)
| Err (e : error).
Arguments Ok {A} a.
Arguments Err {A} e.

(** The file system maps a normalised absolute path, given by its
    segments, to what is there.  The root is always a directory.

    A call fails here for what lies at its path or above it: nothing, a
    file, a directory.  The failures of a platform that depend on more than
    that (a name too long, a missing permission, a full disk) are not
    described, so a return here is no promise of a return there: what is
    proved of the calls is what they do when they return, and that they
    throw in the cases described. *)
Module Files.

Abbreviation t := (gmap (list jsstring) node).

(** The place a path names, for a process whose working directory is
    [cwd]. *)
Definition key (cwd p : jsstring) : list jsstring :=
  Path.segments false (if Path.isAbsolute p then p else cwd ++ [Path.slash] ++ p).

Definition is_dir (m : t) (k : list jsstring) : bool :=
  match k with
  | [] => true
  | _ :: _ => match m !! k with Some Dir => true | _ => false end
  end.

(** [mkdir -p]: every missing directory from [above] down is created;
    a file in the way is an error. *)
Fixpoint mkdirp (p : jsstring) (above below : list jsstring) (m : t) : result t :=
  match below with
  | [] => Ok m
  | seg :: rest =>
      let d := above ++ [seg] in
      match m !! d with
      | None => mkdirp p d rest (<[d := Dir]> m)
      | Some Dir => mkdirp p d rest m
      | Some (File _) =>
          match rest with
          | [] => Err (EEXIST p)
          | _ :: _ => Err (ENOTDIR p)
          end
      end
  end.

Definition parent (k : list jsstring) : list jsstring := removelast k.

(** Opening a path for writing with flag [w]: the file is created or
    truncated, then filled. *)
Definition write (p : jsstring) (k : list jsstring) (c : content) (m : t) : result t :=
  match k with
  | [] => Err (EISDIR p)
  | _ :: _ =>
      if is_dir m (parent k) then
        match m !! k with
        | Some Dir => Err (EISDIR p)
        | _ => Ok (<[k := File c]> m)
        end
      else
        match m !! parent k with
        | Some (File _) => Err (ENOTDIR p)
        | _ => Err (ENOENT p)
        end
  end.

Definition read (p : jsstring) (k : list jsstring) (m : t) : result content :=
  match k with
  | [] => Err (EISDIR p)
  | _ :: _ =>
      match m !! k with
      | Some (File c) => Ok c
      | Some Dir => Err (EISDIR p)
      | None => Err (ENOENT p)
      end
  end.

End Files.

(** ** The world a run happens in *)

Record world := {
(** the line the operator types at the prompt *)
answer : jsstring;
(** [process.cwd()] when the script starts *)
initial_cwd : jsstring;
initial_files : gmap (list jsstring) node;
(** a subprocess: command line, working directory and file system give
    the exit status ([None] when a signal ended it) and the file system
    it leaves *)
subprocess : jsstring -> jsstring -> gmap (list jsstring) node
             -> option Z * gmap (list jsstring) node
}.

(** ** The process monad: state, exceptions and [process.exit] *)

Record state := {
  files : gmap (list jsstring) node;
  cwd : jsstring;
  out : list event
}.

Inductive outcome (A : Type) :=
| Return (a : A)
| Throw (e : error)
| Exit (code : Z).
Arguments Return {A} a.
Arguments Throw {A} e.
Arguments Exit {A} code.

Definition proc (A : Type) : Type := state -> outcome A * state.

Definition ret {A} (a : A) : proc A := fun s => (Return a, s).

Definition bind {A B} (m : proc A) (k : A -> proc B) : proc B :=
  fun s =>
    match m s with
    | (Return a, s') => k a s'
    | (Throw e, s') => (Throw e, s')
    | (Exit c, s') => (Exit c, s')
    end.

Definition throw {A} (e : error) : proc A := fun s => (Throw e, s).

(** [try { body } catch (error) { handler }] *)
Definition try_catch {A} (body : proc A) (handler : error -> proc A) : proc A :=
  fun s =>
    match body s with
    | (Throw e, s') => handler e s'
    | other => other
    end.

Declare Scope proc_scope.
Delimit Scope proc_scope with proc.
Bind Scope proc_scope with proc.
Notation "x <- m ;; k" := (bind m (fun x => k))
  (at level 100, m at next level, right associativity) : proc_scope.
Notation "m ;; k" := (bind m (fun _ => k))
  (at level 100, right associativity) : proc_scope.

Definition emit (e : event) : proc unit :=
  fun s => (Return tt, {| files := files s; cwd := cwd s; out := out s ++ [e] |}).

Definition lift_files {A} (f : state -> result (A * gmap (list jsstring) node)) : proc A :=
  fun s =>
    match f s with
    | Ok (a, m) => (Return a, {| files := m; cwd := cwd s; out := out s |})
    | Err e => (Throw e, s)
    end.

(** [list.forEach(f)] *)
Fixpoint forEach {A} (l : list A) (f : A -> proc unit) : proc unit :=
  match l with
  | [] => ret tt
  | x :: rest => bind (f x) (fun _ => forEach rest f)
  end.

Module Console.
Definition log (msg : jsstring) : proc unit := emit (ConsoleLog msg).
Definition error (args : list printed) : proc unit := emit (ConsoleError args).
End Console.

(** [fs-extra] and [fs], as far as the scripts use them. *)
Module Fs.

Definition mkdirs (p : jsstring) : proc unit :=
  lift_files (fun s =>
    match Files.mkdirp p [] (Files.key (cwd s) p) (files s) with
    | Ok m => Ok (tt, m)
    | Err e => Err e
    end).

(** [fs.ensureDir(dir)] *)
Definition ensureDir (p : jsstring) : proc unit := mkdirs p.

(** [fs.mkdirSync(dir, { recursive: true })] *)
Definition mkdirSync_recursive (p : jsstring) : proc unit := mkdirs p.

(** [fs.writeFile(file, data)] *)
Definition writeFile (p : jsstring) (c : content) : proc unit :=
  lift_files (fun s =>
    match Files.write p (Files.key (cwd s) p) c (files s) with
    | Ok m => Ok (tt, m)
    | Err e => Err e
    end).

(** [fs.readFile(file, 'utf-8')] *)
Definition readFile (p : jsstring) : proc content :=
  lift_files (fun s =>
    match Files.read p (Files.key (cwd s) p) (files s) with
    | Ok c => Ok (c, files s)
    | Err e => Err e
    end).

End Fs.

Module Process.

(** [process.cwd()] *)
Definition get_cwd : proc jsstring := fun s => (Return (cwd s), s).

(** [process.chdir(dir)] *)
Definition chdir (p : jsstring) : proc unit :=
  fun s =>
    let k := Files.key (cwd s) p in
    if Files.is_dir (files s) k then
      (Return tt,
       {| files := files s; cwd := Path.slash :: join [Path.slash] k; out := out s |})
    else (Throw (ENOENT p), s).

(** [process.exit(code)] *)
Definition exit {A} (code : Z) : proc A := fun s => (Exit code, s).

End Process.

(** [JSON.parse(text)] *)
Definition JSON_parse (c : content) : proc json :=
  match c with
  | JsonText j => ret j
  | Text _ => throw SyntaxError
  end.

(** [JSON.stringify(value, null, 2)]: an array keeps its elements only,
    so a property assigned to it by name is not written; a number that
    was read as an infinity is written as [null]. *)
Definition JSON_stringify (j : json) : content := JsonText (Json.written j).

(** [obj.k = v] in a module (strict mode), for a name [k] that is not an
    array index. *)
Definition assign (o : json) (k : jsstring) (v : json) : proc json :=
  match o with
  | JObject props => ret (JObject (Json.set k v props))
  | JArray items => ret (JArray items)
  | JNull | JBool _ | JNumber _ _ | JString _ => throw TypeError
  end.

Section Platform.

Variable w : world.

(** [rl.question(prompt, callback)]: the callback gets the line typed. *)
Definition rl_question (prompt : jsstring) : proc jsstring :=
  bind (emit (Question prompt)) (fun _ => ret (answer w)).

(** [execSync(cmd, { stdio: 'inherit' })] throws unless the exit status
    is zero. *)
Definition execSync (cmd : jsstring) : proc unit :=
  fun s =>
    let '(status, m) := subprocess w cmd (cwd s) (files s) in
    let s' := {| files := m; cwd := cwd s; out := out s ++ [ExecSync cmd status] |} in
    match status with
    | Some 0%Z => (Return tt, s')
    | _ => (Throw (CommandFailed cmd status), s')
    end.

(** Both scripts prompt in the same way ([getUserFolder], lines 14-26). *)
Definition getUserFolder : proc jsstring :=
  (answer <- rl_question (js "📁 Enter folder name for your project (default: server): ") ;;
   ret (or_else (trim answer) (js "server")))%proc.

End Platform.

(** The state a run starts in. *)
Definition start (w : world) : state :=
  {| files := initial_files w; cwd := initial_cwd w; out := [] |}.

(** The last line of both scripts, [createServerSetup().catch(console.error)]:
    a rejection is printed and the process ends, when nothing is left to
    do, with exit code 0; [process.exit(code)] ends it with [code]. *)
Definition settle (r : outcome unit * state) : Z * state :=
  match r with
  | (Return _, s) => (0%Z, s)
  | (Throw e, s) =>
      (0%Z, {| files := files s; cwd := cwd s;
               out := out s ++ [ConsoleError [PError e]] |})
  | (Exit code, s) => (code, s)
  end.

(** Command lines both scripts run. *)
Definition npm_init : jsstring := js "npm init -y".
Definition npm_check_updates : jsstring := js "npx npm-check-updates -u".
Definition npm_install : jsstring := js "npm install".
Definition npm_run_dev : jsstring := js "npm run dev".

(** The warning of the optional update step, in both scripts. *)
Definition update_warning : jsstring :=
  js "⚠️ Package update check failed, continuing...".

(** ** The generator of [src/index.js] *)

Module IndexJs.

(** [.env], src/index.js line 42 *)
Definition dot_env : jsstring :=
  lines [
    js "PORT=5000";
    js "MONGO_URI=mongodb://localhost:27017/mern_app";
    js "JWT_SECRET=supersecretkey"
  ].

(** [.gitignore], src/index.js line 43 *)
Definition dot_gitignore : jsstring :=
  lines [
    js "node_modules";
    js ".env"
  ].

(** [config/db.js], src/index.js line 45 *)
Definition config_db_js : jsstring :=
  trim (lines [
    js "";
    js "import mongoose from 'mongoose';";
    js "";
    js "const connectDB = async () => {";
    js "    try {";
    js "        await mongoose.connect(process.env.MONGO_URI);";
    js "        console.log('MongoDB connected');";
    js "    } catch (error) {";
    js "        console.error('MongoDB connection failed:', error);";
    js "        process.exit(1);";
    js "    }";
    js "};";
    js "";
    js "export default connectDB;";
    js "    "
  ]).

(** [models/itemModel.js], src/index.js line 61 *)
Definition models_itemModel_js : jsstring :=
  trim (lines [
    js "";
    js "import mongoose from 'mongoose';";
    js "";
    js "const itemSchema = new mongoose.Schema({";
    js "    name: { type: String, required: true },";
    js "    quantity: { type: Number, required: true },";
    js "});";
    js "";
    js "export default mongoose.model('Item', itemSchema);";
    js "    "
  ]).

(** [controllers/itemController.js], src/index.js line 72 *)
Definition controllers_itemController_js : jsstring :=
  trim (lines [
    js "";
    js "import Item from '../models/itemModel.js';";
    js "";
    js "export const createItem = async (req, res) => {";
    js "    try {";
    js "        const newItem = new Item(req.body);";
    js "        await newItem.save();";
    js "        res.status(201).json(newItem);";
    js "    } catch (error) {";
    js "        res.status(400).json({ error: error.message });";
    js "    }";
    js "};";
    js "";
    js "export const getItems = async (req, res) => {";
    js "    try {";
    js "        const items = await Item.find();";
    js "        res.json(items);";
    js "    } catch (error) {";
    js "        res.status(500).json({ error: error.message });";
    js "    }";
    js "};";
    js "    "
  ]).

(** [middlewares/authMiddleware.js], src/index.js line 95 *)
Definition middlewares_authMiddleware_js : jsstring :=
  trim (lines [
    js "";
    js "import jwt from 'jsonwebtoken';";
    js "";
    js "const authMiddleware = (req, res, next) => {";
    js "    const token = req.headers.authorization?.split(' ')[1];";
    js "    if (!token) return res.status(401).json({ error: 'No token provided' });";
    js "";
    js "    jwt.verify(token, process.env.JWT_SECRET, (err, decoded) => {";
    js "        if (err) return res.status(401).json({ error: 'Invalid token' });";
    js "        req.user = decoded;";
    js "        next();";
    js "    });";
    js "};";
    js "";
    js "export default authMiddleware;";
    js "    "
  ]).

(** [routes/itemRoutes.js], src/index.js line 112 *)
Definition routes_itemRoutes_js : jsstring :=
  trim (lines [
    js "";
    js "import express from 'express';";
    js "import { createItem, getItems } from '../controllers/itemController.js';";
    js "";
    js "const router = express.Router();";
    js "";
    js "router.post('/', createItem);";
    js "router.get('/', getItems);";
    js "";
    js "export default router;";
    js "    "
  ]).

(** [utils/generateToken.js], src/index.js line 124 *)
Definition utils_generateToken_js : jsstring :=
  trim (lines [
    js "";
    js "import jwt from 'jsonwebtoken';";
    js "";
    js "export function generateToken(payload) {";
    js "    return jwt.sign(payload, process.env.JWT_SECRET, { expiresIn: '1d' });";
    js "}";
    js "    "
  ]).

(** [server.js], src/index.js line 132 *)
Definition server_js : jsstring :=
  trim (lines [
    js "";
    js "import express from 'express';";
    js "import dotenv from 'dotenv';";
    js "import connectDB from './config/db.js';";
    js "import cors from 'cors';";
    js "import itemRoutes from './routes/itemRoutes.js';";
    js "";
    js "dotenv.config();";
    js "const app = express();";
    js "";
    js "connectDB();";
    js "app.use(cors());";
    js "app.use(express.json());";
    js "app.use('/api/items', itemRoutes);";
    js "";
    js "app.get('/', (req, res) => {";
    js "    res.json({ message: 'MERN Server is running!' });";
    js "});";
    js "";
    js "const PORT = process.env.PORT || 5000;";
    js "app.listen(PORT, () => console.log(`Server running on port ${PORT}`));";
    js "    "
  ]).

Definition folders : list jsstring :=
  [js "config"; js "controllers"; js "middlewares"; js "models"; js "routes"; js "utils"].

Definition npm_install_runtime : jsstring :=
  js "npm install express mongoose dotenv cors jsonwebtoken".
Definition npm_install_dev : jsstring := js "npm install -D nodemon".

(** The object literal of lines 167-170. *)
Definition scripts : json :=
  JObject [
    (js "start", JString (js "node server.js"));
    (js "dev", JString (js "nodemon server.js"))
  ].

(** Lines 165-172: the fields set on the parsed manifest. *)
Definition setManifestFields (packageJson : json) : proc json :=
  (packageJson <- assign packageJson (js "type") (JString (js "module")) ;;
   packageJson <- assign packageJson (js "scripts") scripts ;;
   packageJson <- assign packageJson (js "description")
     (JString (js "MERN backend server with ESM modules")) ;;
   assign packageJson (js "keywords")
     (JArray [JString (js "mern"); JString (js "express"); JString (js "mongodb");
              JString (js "nodejs"); JString (js "backend")]))%proc.

(** The files [writeStarterFiles] writes, in order: path under the target
    directory and content. *)
Definition starterFiles : list (jsstring * jsstring) :=
  [(js ".env", dot_env);
   (js ".gitignore", dot_gitignore);
   (js "config/db.js", config_db_js);
   (js "models/itemModel.js", models_itemModel_js);
   (js "controllers/itemController.js", controllers_itemController_js);
   (js "middlewares/authMiddleware.js", middlewares_authMiddleware_js);
   (js "routes/itemRoutes.js", routes_itemRoutes_js);
   (js "utils/generateToken.js", utils_generateToken_js);
   (js "server.js", server_js)].

Section Script.

Variable w : world.

(** Lines 33-39. *)
Definition createFolders (userFolder baseDir : jsstring) : proc unit :=
  (Fs.ensureDir baseDir ;;
   Console.log (js "🚀 Creating MERN backend in folder: " ++ userFolder) ;;
   Console.log (js "🚀 Creating folder structure...") ;;
   forEach folders (fun folder =>
     Fs.mkdirSync_recursive (Path.join_args [baseDir; folder])))%proc.

(** Lines 41-153. *)
Definition writeStarterFiles (baseDir : jsstring) : proc unit :=
  (Console.log (js "📄 Creating starter files...") ;;
   Fs.writeFile (Path.join_args [baseDir; js ".env"]) (Text dot_env) ;;
   Fs.writeFile (Path.join_args [baseDir; js ".gitignore"]) (Text dot_gitignore) ;;
   Fs.writeFile (Path.join_args [baseDir; js "config/db.js"]) (Text config_db_js) ;;
   Fs.writeFile (Path.join_args [baseDir; js "models/itemModel.js"])
     (Text models_itemModel_js) ;;
   Fs.writeFile (Path.join_args [baseDir; js "controllers/itemController.js"])
     (Text controllers_itemController_js) ;;
   Fs.writeFile (Path.join_args [baseDir; js "middlewares/authMiddleware.js"])
     (Text middlewares_authMiddleware_js) ;;
   Fs.writeFile (Path.join_args [baseDir; js "routes/itemRoutes.js"])
     (Text routes_itemRoutes_js) ;;
   Fs.writeFile (Path.join_args [baseDir; js "utils/generateToken.js"])
     (Text utils_generateToken_js) ;;
   Fs.writeFile (Path.join_args [baseDir; js "server.js"]) (Text server_js))%proc.

(** Lines 155-159. *)
Definition initProject (baseDir : jsstring) : proc unit :=
  (Process.chdir baseDir ;;
   Console.log (js "⚡ Initializing npm project...") ;;
   execSync w npm_init)%proc.

(** Lines 161-174. *)
Definition rewriteManifest (baseDir : jsstring) : proc unit :=
  (Console.log (js "🔧 Updating package.json with module type and scripts...") ;;
   let packageJsonPath := Path.join_args [baseDir; js "package.json"] in
   text <- Fs.readFile packageJsonPath ;;
   packageJson <- JSON_parse text ;;
   packageJson <- setManifestFields packageJson ;;
   Fs.writeFile packageJsonPath (JSON_stringify packageJson))%proc.

(** Lines 176-178. *)
Definition installDependencies : proc unit :=
  (Console.log (js "📦 Installing dependencies...") ;;
   execSync w npm_install_runtime ;;
   execSync w npm_install_dev)%proc.

(** Lines 180-187. *)
Definition updatePackages : proc unit :=
  try_catch
    (Console.log (js "🔄 Checking for package updates...") ;;
     execSync w npm_check_updates ;;
     execSync w npm_install)%proc
    (fun _ => Console.log update_warning).

(** Lines 189-199. *)
Definition startServer (userFolder : jsstring) : proc unit :=
  (Console.log (js "🚀 Starting development server with npm run dev...") ;;
   execSync w npm_run_dev ;;
   Console.log (js "✅ Full MERN backend server setup (ESM Module Type) is ready! 🎉") ;;
   Console.log ([10] ++ js "📁 Project created in: " ++ userFolder ++ js "/") ;;
   Console.log ([10] ++ js "🚀 To start your server again:") ;;
   Console.log (js "   cd " ++ userFolder) ;;
   Console.log (js "   npm run dev     # Development mode with nodemon") ;;
   Console.log (js "   npm start       # Production mode") ;;
   Console.log ([10] ++ js "📝 Environment variables are in .env file") ;;
   Console.log (js "🔗 Test your API at: http://localhost:5000"))%proc.

(** [createServerSetup], lines 28-200. *)
Definition createServerSetup : proc unit :=
  (userFolder <- getUserFolder w ;;
   here <- Process.get_cwd ;;
   let baseDir := Path.resolve here [here; userFolder] in
   createFolders userFolder baseDir ;;
   writeStarterFiles baseDir ;;
   initProject baseDir ;;
   rewriteManifest baseDir ;;
   installDependencies ;;
   updatePackages ;;
   startServer userFolder)%proc.

(** Line 202: [createServerSetup().catch(console.error)]. *)
Definition main : Z * state := settle (createServerSetup (start w)).

End Script.

End IndexJs.

(** ** The generator of [src/unnamed/part_000] *)

Module Part000.

(** [.env], src/unnamed/part_000 line 46 *)
Definition dot_env : jsstring :=
  join [10] [
    js "PORT=5000";
    js "MONGO_URI=mongodb://localhost:27017/mern_app";
    js "JWT_SECRET=supersecretkey123456789";
    js "JWT_EXPIRE=30d";
    js "NODE_ENV=development"
  ].

(** [.gitignore], src/unnamed/part_000 line 57 *)
Definition dot_gitignore : jsstring :=
  join [10] [
    js "node_modules";
    js ".env";
    js ".DS_Store";
    js "dist";
    js "build";
    js "*.log";
    js "coverage";
    js ".nyc_output"
  ].

(** [config/db.js], src/unnamed/part_000 line 72 *)
Definition config_db_js : jsstring :=
  lines [
    js "import mongoose from 'mongoose';";
    js "";
    js "const connectDB = async () => {";
    js "  try {";
    js "    const conn = await mongoose.connect(process.env.MONGO_URI)";
    js "    console.log(`🍃 MongoDB Connected: ${conn.connection.host}`);";
    js "  } catch (error) {";
    js "    console.error('❌ MongoDB connection failed:', error.message);";
    js "    process.exit(1);";
    js "  }";
    js "};";
    js "";
    js "export default connectDB;"
  ].

(** [models/User.js], src/unnamed/part_000 line 90 *)
Definition models_User_js : jsstring :=
  lines [
    js "import mongoose from 'mongoose';";
    js "import bcrypt from 'bcryptjs';";
    js "";
    js "const userSchema = new mongoose.Schema({";
    js "  name: {";
    js "    type: String,";
    js "    required: [true, 'Please add a name'],";
    js "    trim: true,";
    js "    maxlength: [50, 'Name cannot be more than 50 characters']";
    js "  },";
    js "  email: {";
    js "    type: String,";
    js "    required: [true, 'Please add an email'],";
    js "    unique: true,";
    js "    match: [";
    js "      /^w+([.-]?w+)*@w+([.-]?w+)*(.w{2,3})+$/,";
    js "      'Please add a valid email'";
    js "    ]";
    js "  },";
    js "  password: {";
    js "    type: String,";
    js "    required: [true, 'Please add a password'],";
    js "    minlength: 6,";
    js "    select: false";
    js "  },";
    js "  role: {";
    js "    type: String,";
    js "    enum: ['user', 'admin'],";
    js "    default: 'user'";
    js "  }";
    js "}, {";
    js "  timestamps: true";
    js "});";
    js "";
    js "// Hash password before saving";
    js "userSchema.pre('save', async function(next) {";
    js "  if (!this.isModified('password')) {";
    js "    next();";
    js "  }";
    js "  const salt = await bcrypt.genSalt(10);";
    js "  this.password = await bcrypt.hash(this.password, salt);";
    js "});";
    js "";
    js "// Compare password method";
    js "userSchema.methods.comparePassword = async function(enteredPassword) {";
    js "  return await bcrypt.compare(enteredPassword, this.password);";
    js "};";
    js "";
    js "export default mongoose.model('User', userSchema);"
  ].

(** [models/Item.js], src/unnamed/part_000 line 144 *)
Definition models_Item_js : jsstring :=
  lines [
    js "import mongoose from 'mongoose';";
    js "";
    js "const itemSchema = new mongoose.Schema({";
    js "  name: {";
    js "    type: String,";
    js "    required: [true, 'Please add a name'],";
    js "    trim: true,";
    js "    maxlength: [100, 'Name cannot be more than 100 characters']";
    js "  },";
    js "  description: {";
    js "    type: String,";
    js "    maxlength: [500, 'Description cannot be more than 500 characters']";
    js "  },";
    js "  quantity: {";
    js "    type: Number,";
    js "    required: [true, 'Please add quantity'],";
    js "    min: [0, 'Quantity cannot be negative']";
    js "  },";
    js "  price: {";
    js "    type: Number,";
    js "    required: [true, 'Please add price'],";
    js "    min: [0, 'Price cannot be negative']";
    js "  },";
    js "  category: {";
    js "    type: String,";
    js "    required: [true, 'Please add a category'],";
    js "    enum: ['electronics', 'clothing', 'books', 'home', 'sports', 'other']";
    js "  },";
    js "  user: {";
    js "    type: mongoose.Schema.ObjectId,";
    js "    ref: 'User',";
    js "    required: true";
    js "  }";
    js "}, {";
    js "  timestamps: true";
    js "});";
    js "";
    js "export default mongoose.model('Item', itemSchema);"
  ].

(** [controllers/authController.js], src/unnamed/part_000 line 187 *)
Definition controllers_authController_js : jsstring :=
  lines [
    js "import User from '../models/User.js';";
    js "import { generateToken } from '../utils/generateToken.js';";
    js "import asyncHandler from '../middlewares/asyncHandler.js';";
    js "";
    js "// @desc    Register user";
    js "// @route   POST /api/auth/register";
    js "// @access  Public";
    js "export const register = asyncHandler(async (req, res) => {";
    js "  const { name, email, password } = req.body;";
    js "";
    js "  // Check if user exists";
    js "  const userExists = await User.findOne({ email });";
    js "  if (userExists) {";
    js "    return res.status(400).json({";
    js "      success: false,";
    js "      message: 'User already exists'";
    js "    });";
    js "  }";
    js "";
    js "  // Create user";
    js "  const user = await User.create({";
    js "    name,";
    js "    email,";
    js "    password";
    js "  });";
    js "";
    js "  if (user) {";
    js "    res.status(201).json({";
    js "      success: true,";
    js "      data: {";
    js "        _id: user._id,";
    js "        name: user.name,";
    js "        email: user.email,";
    js "        role: user.role,";
    js "        token: generateToken(user._id)";
    js "      }";
    js "    });";
    js "  } else {";
    js "    res.status(400).json({";
    js "      success: false,";
    js "      message: 'Invalid user data'";
    js "    });";
    js "  }";
    js "});";
    js "";
    js "// @desc    Login user";
    js "// @route   POST /api/auth/login";
    js "// @access  Public";
    js "export const login = asyncHandler(async (req, res) => {";
    js "  const { email, password } = req.body;";
    js "";
    js "  // Check for user";
    js "  const user = await User.findOne({ email }).select('+password');";
    js "";
    js "  if (user && (await user.comparePassword(password))) {";
    js "    res.json({";
    js "      success: true,";
    js "      data: {";
    js "        _id: user._id,";
    js "        name: user.name,";
    js "        email: user.email,";
    js "        role: user.role,";
    js "        token: generateToken(user._id)";
    js "      }";
    js "    });";
    js "  } else {";
    js "    res.status(401).json({";
    js "      success: false,";
    js "      message: 'Invalid credentials'";
    js "    });";
    js "  }";
    js "});";
    js "";
    js "// @desc    Get current logged in user";
    js "// @route   GET /api/auth/me";
    js "// @access  Private";
    js "export const getMe = asyncHandler(async (req, res) => {";
    js "  const user = await User.findById(req.user.id);";
    js "  res.json({";
    js "    success: true,";
    js "    data: user";
    js "  });";
    js "});"
  ].

(** [controllers/itemController.js], src/unnamed/part_000 line 275 *)
Definition controllers_itemController_js : jsstring :=
  lines [
    js "import Item from '../models/Item.js';";
    js "import asyncHandler from '../middlewares/asyncHandler.js';";
    js "";
    js "// @desc    Get all items";
    js "// @route   GET /api/items";
    js "// @access  Private";
    js "export const getItems = asyncHandler(async (req, res) => {";
    js "  const items = await Item.find({ user: req.user.id }).populate('user', 'name email');";
    js "  ";
    js "  res.json({";
    js "    success: true,";
    js "    count: items.length,";
    js "    data: items";
    js "  });";
    js "});";
    js "";
    js "// @desc    Get single item";
    js "// @route   GET /api/items/:id";
    js "// @access  Private";
    js "export const getItem = asyncHandler(async (req, res) => {";
    js "  const item = await Item.findOne({ _id: req.params.id, user: req.user.id });";
    js "";
    js "  if (!item) {";
    js "    return res.status(404).json({";
    js "      success: false,";
    js "      message: 'Item not found'";
    js "    });";
    js "  }";
    js "";
    js "  res.json({";
    js "    success: true,";
    js "    data: item";
    js "  });";
    js "});";
    js "";
    js "// @desc    Create new item";
    js "// @route   POST /api/items";
    js "// @access  Private";
    js "export const createItem = asyncHandler(async (req, res) => {";
    js "  req.body.user = req.user.id;";
    js "  ";
    js "  const item = await Item.create(req.body);";
    js "";
    js "  res.status(201).json({";
    js "    success: true,";
    js "    data: item";
    js "  });";
    js "});";
    js "";
    js "// @desc    Update item";
    js "// @route   PUT /api/items/:id";
    js "// @access  Private";
    js "export const updateItem = asyncHandler(async (req, res) => {";
    js "  let item = await Item.findOne({ _id: req.params.id, user: req.user.id });";
    js "";
    js "  if (!item) {";
    js "    return res.status(404).json({";
    js "      success: false,";
    js "      message: 'Item not found'";
    js "    });";
    js "  }";
    js "";
    js "  item = await Item.findByIdAndUpdate(req.params.id, req.body, {";
    js "    new: true,";
    js "    runValidators: true";
    js "  });";
    js "";
    js "  res.json({";
    js "    success: true,";
    js "    data: item";
    js "  });";
    js "});";
    js "";
    js "// @desc    Delete item";
    js "// @route   DELETE /api/items/:id";
    js "// @access  Private";
    js "export const deleteItem = asyncHandler(async (req, res) => {";
    js "  const item = await Item.findOne({ _id: req.params.id, user: req.user.id });";
    js "";
    js "  if (!item) {";
    js "    return res.status(404).json({";
    js "      success: false,";
    js "      message: 'Item not found'";
    js "    });";
    js "  }";
    js "";
    js "  await Item.findByIdAndDelete(req.params.id);";
    js "";
    js "  res.json({";
    js "    success: true,";
    js "    data: {}";
    js "  });";
    js "});"
  ].

(** [middlewares/authMiddleware.js], src/unnamed/part_000 line 373 *)
Definition middlewares_authMiddleware_js : jsstring :=
  lines [
    js "import jwt from 'jsonwebtoken';";
    js "import User from '../models/User.js';";
    js "import asyncHandler from './asyncHandler.js';";
    js "";
    js "const protect = asyncHandler(async (req, res, next) => {";
    js "  let token;";
    js "";
    js "  if (req.headers.authorization && req.headers.authorization.startsWith('Bearer')) {";
    js "    token = req.headers.authorization.split(' ')[1];";
    js "  }";
    js "";
    js "  if (!token) {";
    js "    return res.status(401).json({";
    js "      success: false,";
    js "      message: 'Not authorized to access this route'";
    js "    });";
    js "  }";
    js "";
    js "  try {";
    js "    const decoded = jwt.verify(token, process.env.JWT_SECRET);";
    js "    req.user = await User.findById(decoded.id);";
    js "    next();";
    js "  } catch (error) {";
    js "    return res.status(401).json({";
    js "      success: false,";
    js "      message: 'Not authorized to access this route'";
    js "    });";
    js "  }";
    js "});";
    js "";
    js "// Grant access to specific roles";
    js "const authorize = (...roles) => {";
    js "  return (req, res, next) => {";
    js "    if (!roles.includes(req.user.role)) {";
    js "      return res.status(403).json({";
    js "        success: false,";
    js "        message: `User role ${req.user.role} is not authorized to access this route`";
    js "      });";
    js "    }";
    js "    next();";
    js "  };";
    js "};";
    js "";
    js "export { protect, authorize };"
  ].

(** [middlewares/asyncHandler.js], src/unnamed/part_000 line 422 *)
Definition middlewares_asyncHandler_js : jsstring :=
  lines [
    js "const asyncHandler = (fn) => (req, res, next) =>";
    js "  Promise.resolve(fn(req, res, next)).catch(next);";
    js "";
    js "export default asyncHandler;"
  ].

(** [middlewares/errorHandler.js], src/unnamed/part_000 line 431 *)
Definition middlewares_errorHandler_js : jsstring :=
  lines [
    js "const errorHandler = (err, req, res, next) => {";
    js "  let error = { ...err };";
    js "  error.message = err.message;";
    js "";
    js "  // Log to console for dev";
    js "  console.log(err);";
    js "";
    js "  // Mongoose bad ObjectId";
    js "  if (err.name === 'CastError') {";
    js "    const message = 'Resource not found';";
    js "    error = { message, statusCode: 404 };";
    js "  }";
    js "";
    js "  // Mongoose duplicate key";
    js "  if (err.code === 11000) {";
    js "    const message = 'Duplicate field value entered';";
    js "    error = { message, statusCode: 400 };";
    js "  }";
    js "";
    js "  // Mongoose validation error";
    js "  if (err.name === 'ValidationError') {";
    js "    const message = Object.values(err.errors).map(val => val.message);";
    js "    error = { message, statusCode: 400 };";
    js "  }";
    js "";
    js "  res.status(error.statusCode || 500).json({";
    js "    success: false,";
    js "    error: error.message || 'Server Error'";
    js "  });";
    js "};";
    js "";
    js "export default errorHandler;"
  ].

(** [routes/auth.js], src/unnamed/part_000 line 468 *)
Definition routes_auth_js : jsstring :=
  lines [
    js "import express from 'express';";
    js "import { register, login, getMe } from '../controllers/authController.js';";
    js "import { protect } from '../middlewares/authMiddleware.js';";
    js "";
    js "const router = express.Router();";
    js "";
    js "router.post('/register', register);";
    js "router.post('/login', login);";
    js "router.get('/me', protect, getMe);";
    js "";
    js "export default router;"
  ].

(** [routes/items.js], src/unnamed/part_000 line 484 *)
Definition routes_items_js : jsstring :=
  lines [
    js "import express from 'express';";
    js "import {";
    js "  getItems,";
    js "  getItem,";
    js "  createItem,";
    js "  updateItem,";
    js "  deleteItem";
    js "} from '../controllers/itemController.js';";
    js "import { protect } from '../middlewares/authMiddleware.js';";
    js "";
    js "const router = express.Router();";
    js "";
    js "router.use(protect); // Protect all routes";
    js "";
    js "router.route('/').get(getItems).post(createItem);";
    js "router.route('/:id').get(getItem).put(updateItem).delete(deleteItem);";
    js "";
    js "export default router;"
  ].

(** [utils/generateToken.js], src/unnamed/part_000 line 507 *)
Definition utils_generateToken_js : jsstring :=
  lines [
    js "import jwt from 'jsonwebtoken';";
    js "";
    js "export const generateToken = (id) => {";
    js "  return jwt.sign({ id }, process.env.JWT_SECRET, {";
    js "    expiresIn: process.env.JWT_EXPIRE || '30d'";
    js "  });";
    js "};"
  ].

(** [server.js], src/unnamed/part_000 line 519 *)
Definition server_js : jsstring :=
  lines [
    js "import express from 'express';";
    js "import dotenv from 'dotenv';";
    js "import cors from 'cors';";
    js "import morgan from 'morgan';";
    js "import connectDB from './config/db.js';";
    js "import errorHandler from './middlewares/errorHandler.js';";
    js "";
    js "// Route files";
    js "import auth from './routes/auth.js';";
    js "import items from './routes/items.js';";
    js "";
    js "// Load env vars";
    js "dotenv.config();";
    js "";
    js "// Connect to database";
    js "connectDB();";
    js "";
    js "const app = express();";
    js "";
    js "// Body parser";
    js "app.use(express.json({ limit: '10mb' }));";
    js "app.use(express.urlencoded({ extended: false }));";
    js "";
    js "// Enable CORS";
    js "app.use(cors({";
    js "  origin: process.env.CLIENT_URL || 'http://localhost:3000',";
    js "  credentials: true";
    js "}));";
    js "";
    js "// Dev logging middleware";
    js "if (process.env.NODE_ENV === 'development') {";
    js "  app.use(morgan('combined'));";
    js "}";
    js "";
    js "// Mount routers";
    js "app.use('/api/auth', auth);";
    js "app.use('/api/items', items);";
    js "";
    js "// Health check route";
    js "app.get('/health', (req, res) => {";
    js "  res.status(200).json({";
    js "    success: true,";
    js "    message: 'MERN Server is running!',";
    js "    timestamp: new Date().toISOString(),";
    js "    environment: process.env.NODE_ENV";
    js "  });";
    js "});";
    js "";
    js "// Root route";
    js "app.get('/', (req, res) => {";
    js "  res.json({";
    js "    message: 'Welcome to MERN Backend API 🚀',";
    js "    version: '1.0.0',";
    js "    endpoints: {";
    js "      auth: '/api/auth',";
    js "      items: '/api/items',";
    js "      health: '/health'";
    js "    },";
    js "    documentation: 'See README.md for API documentation'";
    js "  });";
    js "});";
    js "";
    js "";
    js "";
    js "// Error handler";
    js "app.use(errorHandler);";
    js "";
    js "const PORT = process.env.PORT || 5000;";
    js "";
    js "const server = app.listen(PORT, () => {";
    js "  console.log(`🚀 Server running in ${process.env.NODE_ENV} mode on port ${PORT}`);";
    js "  console.log(`📍 API available at: http://localhost:${PORT}`);";
    js "  console.log(`🏥 Health check: http://localhost:${PORT}/health`);";
    js "});";
    js "";
    js "// Handle unhandled promise rejections";
    js "process.on('unhandledRejection', (err, promise) => {";
    js "  console.log(`❌ Error: ${err.message}`);";
    js "  // Close server & exit process";
    js "  server.close(() => {";
    js "    process.exit(1);";
    js "  });";
    js "});";
    js "";
    js "// Handle SIGTERM";
    js "process.on('SIGTERM', () => {";
    js "  console.log('👋 SIGTERM received');";
    js "  server.close(() => {";
    js "    console.log('Process terminated');";
    js "  });";
    js "});"
  ].

(** [README.md], src/unnamed/part_000 line 668 *)
Definition README_md (userFolder : jsstring) : jsstring :=
  lines [
    js "# MERN Backend Server";
    js "";
    js "A complete MERN stack backend with JWT authentication and CRUD operations.";
    js "";
    js "## Features";
    js "";
    js "- ✅ **JWT Authentication** - Secure user registration and login";
    js "- ✅ **User Management** - User registration, login, and profile";
    js "- ✅ **Protected Routes** - Middleware-based authentication";
    js "- ✅ **CRUD Operations** - Complete item management system";
    js "- ✅ **Error Handling** - Comprehensive error middleware";
    js "- ✅ **MongoDB Integration** - Mongoose ODM with validation";
    js "- ✅ **ESM Modules** - Modern JavaScript module system";
    js "- ✅ **Password Hashing** - bcryptjs for secure passwords";
    js "- ✅ **Request Logging** - Morgan middleware for development";
    js "- ✅ **CORS Support** - Cross-origin resource sharing";
    js "";
    js "## Quick Start";
    js "";
    js "1. **Install dependencies:**";
    js "   ```bash";
    js "   npm install";
    js "   ```";
    js "";
    js "2. **Set up environment variables in `.env`:**";
    js "   ```";
    js "   PORT=5000";
    js "   MONGO_URI=mongodb://localhost:27017/mern_app";
    js "   JWT_SECRET=your_jwt_secret_here";
    js "   JWT_EXPIRE=30d";
    js "   NODE_ENV=development";
    js "   ```";
    js "";
    js "3. **Start the server:**";
    js "   ```bash";
    js "   npm run dev    # Development mode with nodemon";
    js "   npm start      # Production mode";
    js "   ```";
    js "";
    js "## API Endpoints";
    js "";
    js "### Authentication Routes";
    js "| Method | Endpoint | Description | Access |";
    js "|--------|----------|-------------|---------|";
    js "| POST | `/api/auth/register` | Register a new user | Public |";
    js "| POST | `/api/auth/login` | Login user | Public |";
    js "| GET | `/api/auth/me` | Get current user | Private |";
    js "";
    js "### Item Management Routes";
    js "| Method | Endpoint | Description | Access |";
    js "|--------|----------|-------------|---------|";
    js "| GET | `/api/items` | Get all user items | Private |";
    js "| POST | `/api/items` | Create new item | Private |";
    js "| GET | `/api/items/:id` | Get single item | Private |";
    js "| PUT | `/api/items/:id` | Update item | Private |";
    js "| DELETE | `/api/items/:id` | Delete item | Private |";
    js "";
    js "### Health Check";
    js "| Method | Endpoint | Description | Access |";
    js "|--------|----------|-------------|---------|";
    js "| GET | `/health` | Server health check | Public |";
    js "| GET | `/` | API information | Public |";
    js "";
    js "## Request/Response Examples";
    js "";
    js "### Register User";
    js "```bash";
    js "POST /api/auth/register";
    js "Content-Type: application/json";
    js "";
    js "{";
    js "  " ++ dq ++ js "name" ++ dq ++ js ": " ++ dq ++ js "John Doe" ++ dq ++ js ",";
    js "  " ++ dq ++ js "email" ++ dq ++ js ": " ++ dq ++ js "john@example.com" ++ dq ++ js ",";
    js "  " ++ dq ++ js "password" ++ dq ++ js ": " ++ dq ++ js "password123" ++ dq;
    js "}";
    js "```";
    js "";
    js "### Login User";
    js "```bash";
    js "POST /api/auth/login";
    js "Content-Type: application/json";
    js "";
    js "{";
    js "  " ++ dq ++ js "email" ++ dq ++ js ": " ++ dq ++ js "john@example.com" ++ dq ++ js ",";
    js "  " ++ dq ++ js "password" ++ dq ++ js ": " ++ dq ++ js "password123" ++ dq;
    js "}";
    js "```";
    js "";
    js "### Create Item (Protected)";
    js "```bash";
    js "POST /api/items";
    js "Authorization: Bearer <your_jwt_token>";
    js "Content-Type: application/json";
    js "";
    js "{";
    js "  " ++ dq ++ js "name" ++ dq ++ js ": " ++ dq ++ js "Laptop" ++ dq ++ js ",";
    js "  " ++ dq ++ js "description" ++ dq ++ js ": " ++ dq ++ js "Gaming laptop" ++ dq ++ js ",";
    js "  " ++ dq ++ js "quantity" ++ dq ++ js ": 1,";
    js "  " ++ dq ++ js "price" ++ dq ++ js ": 1299.99,";
    js "  " ++ dq ++ js "category" ++ dq ++ js ": " ++ dq ++ js "electronics" ++ dq;
    js "}";
    js "```";
    js "";
    js "## Project Structure";
    js "";
    js "```";
    userFolder ++ js "/";
    js "├── config/";
    js "│   └── db.js              # Database connection";
    js "├── controllers/";
    js "│   ├── authController.js  # Authentication logic";
    js "│   └── itemController.js  # Item CRUD operations";
    js "├── middlewares/";
    js "│   ├── authMiddleware.js  # JWT authentication";
    js "│   ├── asyncHandler.js    # Async error handler";
    js "│   └── errorHandler.js    # Global error handler";
    js "├── models/";
    js "│   ├── User.js           # User schema";
    js "│   └── Item.js           # Item schema";
    js "├── routes/";
    js "│   ├── auth.js           # Authentication routes";
    js "│   └── items.js          # Item routes";
    js "├── utils/";
    js "│   └── generateToken.js   # JWT token generation";
    js "├── .env                  # Environment variables";
    js "├── .gitignore           # Git ignore rules";
    js "├── package.json         # Dependencies and scripts";
    js "├── README.md           # Documentation";
    js "└── server.js           # Application entry point";
    js "```";
    js "";
    js "## Environment Variables";
    js "";
    js "Create a `.env` file in the root directory:";
    js "";
    js "```";
    js "PORT=5000";
    js "MONGO_URI=mongodb://localhost:27017/mern_app";
    js "JWT_SECRET=your_super_secret_jwt_key_here";
    js "JWT_EXPIRE=30d";
    js "NODE_ENV=development";
    js "CLIENT_URL=http://localhost:3000";
    js "```";
    js "";
    js "## Available Scripts";
    js "";
    js "- `npm start` - Start production server";
    js "- `npm run dev` - Start development server with nodemon";
    js "- `npm test` - Run tests (to be implemented)";
    js "";
    js "## MongoDB Setup";
    js "";
    js "Make sure MongoDB is running on your system:";
    js "";
    js "### Local MongoDB";
    js "```bash";
    js "# Install MongoDB Community Edition";
    js "# Start MongoDB service";
    js "mongod";
    js "```";
    js "";
    js "### MongoDB Atlas (Cloud)";
    js "Replace `MONGO_URI` in `.env` with your Atlas connection string:";
    js "```";
    js "MONGO_URI=mongodb+srv://<username>:<password>@cluster0.xxxxx.mongodb.net/mern_app";
    js "```";
    js "";
    js "## Testing the API";
    js "";
    js "Use tools like Postman, Insomnia, or curl to test the API:";
    js "";
    js "```bash";
    js "# Health check";
    js "curl http://localhost:5000/health";
    js "";
    js "# Register user";
    js "curl -X POST http://localhost:5000/api/auth/register \";
    js "  -H " ++ dq ++ js "Content-Type: application/json" ++ dq ++ js " \";
    js "  -d '{" ++ dq ++ js "name" ++ dq ++ js ":" ++ dq ++ js "Test User" ++ dq ++ js "," ++ dq ++ js "email" ++ dq ++ js ":" ++ dq ++ js "test@example.com" ++ dq ++ js "," ++ dq ++ js "password" ++ dq ++ js ":" ++ dq ++ js "password123" ++ dq ++ js "}'";
    js "```";
    js "";
    js "## Contributing";
    js "";
    js "1. Fork the repository";
    js "2. Create a feature branch";
    js "3. Commit your changes";
    js "4. Push to the branch";
    js "5. Create a Pull Request";
    js "";
    js "## License";
    js "";
    js "MIT License - feel free to use this project for learning and development.";
    js "";
    js "## Support";
    js "";
    js "If you encounter any issues, please check:";
    js "1. MongoDB is running";
    js "2. Environment variables are set correctly";
    js "3. All dependencies are installed";
    js "4. Port 5000 is not in use by another application";
    js "";
    js "Happy coding! 🚀";
    js ""
  ].

Definition folders : list jsstring :=
  [js "config"; js "controllers"; js "middlewares"; js "models"; js "routes"; js "utils"].

Definition dependencies : list jsstring :=
  [js "express"; js "mongoose"; js "dotenv"; js "cors"; js "jsonwebtoken";
   js "bcryptjs"; js "morgan"].

Definition devDependencies : list jsstring := [js "nodemon"].

Definition npm_install_runtime : jsstring :=
  js "npm install " ++ join (js " ") dependencies.
Definition npm_install_dev : jsstring :=
  js "npm install -D " ++ join (js " ") devDependencies.

(** The object literal of lines 627-631. *)
Definition scripts : json :=
  JObject [
    (js "start", JString (js "node server.js"));
    (js "dev", JString (js "nodemon server.js"));
    (js "test", JString (js "echo " ++ dq ++ js "Error: no test specified" ++ dq
                         ++ js " && exit 1"))
  ].

(** Lines 626-636: the fields set on the parsed manifest. *)
Definition setManifestFields (packageJson : json) : proc json :=
  (packageJson <- assign packageJson (js "type") (JString (js "module")) ;;
   packageJson <- assign packageJson (js "scripts") scripts ;;
   packageJson <- assign packageJson (js "description")
     (JString (js "MERN backend server with JWT authentication and CRUD operations")) ;;
   packageJson <- assign packageJson (js "keywords")
     (JArray [JString (js "mern"); JString (js "express"); JString (js "mongodb");
              JString (js "nodejs"); JString (js "backend"); JString (js "jwt");
              JString (js "auth"); JString (js "api")]) ;;
   packageJson <- assign packageJson (js "author") (JString (js "")) ;;
   packageJson <- assign packageJson (js "license") (JString (js "MIT")) ;;
   assign packageJson (js "main") (JString (js "server.js")))%proc.

(** The files [writeStarterFiles] writes, in order: path under the target
    directory and content. *)
Definition starterFiles : list (jsstring * jsstring) :=
  [(js ".env", dot_env);
   (js ".gitignore", dot_gitignore);
   (js "config/db.js", config_db_js);
   (js "models/User.js", models_User_js);
   (js "models/Item.js", models_Item_js);
   (js "controllers/authController.js", controllers_authController_js);
   (js "controllers/itemController.js", controllers_itemController_js);
   (js "middlewares/authMiddleware.js", middlewares_authMiddleware_js);
   (js "middlewares/asyncHandler.js", middlewares_asyncHandler_js);
   (js "middlewares/errorHandler.js", middlewares_errorHandler_js);
   (js "routes/auth.js", routes_auth_js);
   (js "routes/items.js", routes_items_js);
   (js "utils/generateToken.js", utils_generateToken_js);
   (js "server.js", server_js)].

Section Script.

Variable w : world.

(** Lines 34-42. *)
Definition createFolders (userFolder baseDir : jsstring) : proc unit :=
  (Console.log (js "🚀 Creating MERN backend in folder: " ++ userFolder) ;;
   Fs.ensureDir baseDir ;;
   Console.log (js "🚀 Creating folder structure...") ;;
   forEach folders (fun folder =>
     Fs.mkdirSync_recursive (Path.join_args [baseDir; folder])))%proc.

(** Lines 44-612. *)
Definition writeStarterFiles (baseDir : jsstring) : proc unit :=
  (Console.log (js "📄 Creating configuration files...") ;;
   Fs.writeFile (Path.join_args [baseDir; js ".env"]) (Text dot_env) ;;
   Fs.writeFile (Path.join_args [baseDir; js ".gitignore"]) (Text dot_gitignore) ;;
   Fs.writeFile (Path.join_args [baseDir; js "config/db.js"]) (Text config_db_js) ;;
   Fs.writeFile (Path.join_args [baseDir; js "models/User.js"]) (Text models_User_js) ;;
   Fs.writeFile (Path.join_args [baseDir; js "models/Item.js"]) (Text models_Item_js) ;;
   Fs.writeFile (Path.join_args [baseDir; js "controllers/authController.js"])
     (Text controllers_authController_js) ;;
   Fs.writeFile (Path.join_args [baseDir; js "controllers/itemController.js"])
     (Text controllers_itemController_js) ;;
   Fs.writeFile (Path.join_args [baseDir; js "middlewares/authMiddleware.js"])
     (Text middlewares_authMiddleware_js) ;;
   Fs.writeFile (Path.join_args [baseDir; js "middlewares/asyncHandler.js"])
     (Text middlewares_asyncHandler_js) ;;
   Fs.writeFile (Path.join_args [baseDir; js "middlewares/errorHandler.js"])
     (Text middlewares_errorHandler_js) ;;
   Fs.writeFile (Path.join_args [baseDir; js "routes/auth.js"]) (Text routes_auth_js) ;;
   Fs.writeFile (Path.join_args [baseDir; js "routes/items.js"]) (Text routes_items_js) ;;
   Fs.writeFile (Path.join_args [baseDir; js "utils/generateToken.js"])
     (Text utils_generateToken_js) ;;
   Fs.writeFile (Path.join_args [baseDir; js "server.js"]) (Text server_js))%proc.

(** Lines 614-619. *)
Definition initProject (baseDir : jsstring) : proc unit :=
  (Process.chdir baseDir ;;
   Console.log (js "⚡ Initializing npm project...") ;;
   execSync w npm_init)%proc.

(** Lines 621-638. *)
Definition rewriteManifest (baseDir : jsstring) : proc unit :=
  (Console.log (js "🔧 Updating package.json with ESM module type...") ;;
   let packageJsonPath := Path.join_args [baseDir; js "package.json"] in
   text <- Fs.readFile packageJsonPath ;;
   packageJson <- JSON_parse text ;;
   packageJson <- setManifestFields packageJson ;;
   Fs.writeFile packageJsonPath (JSON_stringify packageJson))%proc.

(** Lines 640-656. *)
Definition installDependencies : proc unit :=
  (Console.log (js "📦 Installing production dependencies...") ;;
   execSync w npm_install_runtime ;;
   Console.log (js "🔧 Installing development dependencies...") ;;
   execSync w npm_install_dev)%proc.

(** Lines 658-665. *)
Definition updatePackages : proc unit :=
  try_catch
    (Console.log (js "🔄 Checking for package updates...") ;;
     execSync w npm_check_updates ;;
     execSync w npm_install)%proc
    (fun _ => Console.log update_warning).

(** Lines 667-873. *)
Definition writeReadme (userFolder baseDir : jsstring) : proc unit :=
  Fs.writeFile (Path.join_args [baseDir; js "README.md"]) (Text (README_md userFolder)).

(** Lines 875-895. *)
Definition startServer (userFolder : jsstring) : proc unit :=
  (Console.log (js "🎉 ✅ MERN Backend setup completed successfully!") ;;
   Console.log ([10] ++ js "📁 Project created in: " ++ userFolder ++ js "/") ;;
   Console.log (js "📝 All files generated with ESM module support") ;;
   Console.log (js "🔧 Package.json configured with " ++ dq ++ js "type" ++ dq
                ++ js ": " ++ dq ++ js "module" ++ dq) ;;
   Console.log (js "📦 All dependencies installed") ;;
   Console.log (js "🏥 Health check endpoint: http://localhost:5000/health") ;;
   Console.log (js "📚 Complete API documentation in README.md") ;;
   Console.log ([10] ++ js "🚀 Starting development server with nodemon...") ;;
   Console.log (js "🔥 Press Ctrl+C to stop the server" ++ [10]) ;;
   try_catch
     (execSync w npm_run_dev)
     (fun _ =>
        Console.log ([10] ++ js "👋 Development server stopped.") ;;
        Console.log ([10] ++ js "To restart your server:") ;;
        Console.log (js "   cd " ++ userFolder) ;;
        Console.log (js "   npm run dev     # Development mode with nodemon") ;;
        Console.log (js "   npm start       # Production mode")))%proc.

(** [createServerSetup], lines 28-901: the body runs inside
    [try { ... } catch (error) { console.error(...); process.exit(1) }]. *)
Definition createServerSetup : proc unit :=
  try_catch
    (userFolder <- getUserFolder w ;;
     here <- Process.get_cwd ;;
     let baseDir := Path.resolve here [here; userFolder] in
     createFolders userFolder baseDir ;;
     writeStarterFiles baseDir ;;
     initProject baseDir ;;
     rewriteManifest baseDir ;;
     installDependencies ;;
     updatePackages ;;
     writeReadme userFolder baseDir ;;
     startServer userFolder)%proc
    (fun error =>
       Console.error [PString (js "❌ Error creating MERN backend:"); PMessage error] ;;
       Process.exit 1%Z)%proc.

(** Line 903: [createServerSetup().catch(console.error)]. *)
Definition main : Z * state := settle (createServerSetup (start w)).

End Script.

End Part000.

(** ** Both variants at once *)

Inductive variant :=
| index_js
| part_000.

Definition createServerSetup (v : variant) (w : world) : proc unit :=
  match v with
  | index_js => IndexJs.createServerSetup w
  | part_000 => Part000.createServerSetup w
  end.

(** A run of the generator: its exit code and the state it leaves. *)
Definition run (v : variant) (w : world) : Z * state :=
  match v with
  | index_js => IndexJs.main w
  | part_000 => Part000.main w
  end.

Definition exit_code (v : variant) (w : world) : Z := fst (run v w).
Definition trace (v : variant) (w : world) : list event := out (snd (run v w)).

(** The folder name and the target directory of a run. *)
Definition userFolder (w : world) : jsstring := or_else (trim (answer w)) (js "server").
Definition baseDir (w : world) : jsstring :=
  Path.resolve (initial_cwd w) [initial_cwd w; userFolder w].

Definition npm_install_runtime (v : variant) : jsstring :=
  match v with
  | index_js => IndexJs.npm_install_runtime
  | part_000 => Part000.npm_install_runtime
  end.

Definition npm_install_dev (v : variant) : jsstring :=
  match v with
  | index_js => IndexJs.npm_install_dev
  | part_000 => Part000.npm_install_dev
  end.

Definition scripts (v : variant) : json :=
  match v with
  | index_js => IndexJs.scripts
  | part_000 => Part000.scripts
  end.

(** The files a variant writes from templates, by relative path. *)
Definition generatedFiles (v : variant) (userFolder : jsstring)
  : list (jsstring * jsstring) :=
  match v with
  | index_js => IndexJs.starterFiles
  | part_000 => Part000.starterFiles ++ [(js "README.md", Part000.README_md userFolder)]
  end.

(** ** Observations on a trace *)

Definition execs (T : list event) : list (jsstring * option Z) :=
  omap (fun e => match e with ExecSync c st => Some (c, st) | _ => None end) T.

Definition logs (T : list event) : list jsstring :=
  omap (fun e => match e with ConsoleLog m => Some m | _ => None end) T.

Definition errors (T : list event) : list (list printed) :=
  omap (fun e => match e with ConsoleError args => Some args | _ => None end) T.

Definition succeeded (st : option Z) : bool :=
  match st with
  | Some 0%Z => true
  | _ => false
  end.

(** The subprocess [cmd] was started. *)
Definition attempted (cmd : jsstring) (T : list event) : bool :=
  existsb (fun '(c, _) => eqb c cmd) (execs T).

(** The subprocess [cmd] was started and did not end with status 0. *)
Definition failed (cmd : jsstring) (T : list event) : bool :=
  existsb (fun '(c, st) => eqb c cmd && negb (succeeded st)) (execs T).

Definition logged (msg : jsstring) (T : list event) : bool :=
  existsb (fun m => eqb m msg) (logs T).

(** Something was printed with [console.error]. *)
Definition error_reported (T : list event) : bool :=
  match errors T with
  | [] => false
  | _ :: _ => true
  end.

(** The blocks of the two scripts, by variant. *)

Definition folders (v : variant) : list jsstring :=
  match v with
  | index_js => IndexJs.folders
  | part_000 => Part000.folders
  end.

Definition createFolders (v : variant) : jsstring -> jsstring -> proc unit :=
  match v with
  | index_js => IndexJs.createFolders
  | part_000 => Part000.createFolders
  end.

Definition rewriteManifest (v : variant) : jsstring -> proc unit :=
  match v with
  | index_js => IndexJs.rewriteManifest
  | part_000 => Part000.rewriteManifest
  end.

Definition updatePackages (v : variant) (w : world) : proc unit :=
  match v with
  | index_js => IndexJs.updatePackages w
  | part_000 => Part000.updatePackages w
  end.

(** [JSON.parse(await fs.readFile(packageJsonPath, 'utf-8'))]: the manifest
    of the target directory, parsed. *)
Definition parseManifest (baseDir : jsstring) : proc json :=
  (text <- Fs.readFile (Path.join_args [baseDir; js "package.json"]) ;;
   JSON_parse text)%proc.

Definition writeStarterFiles (v : variant) : jsstring -> proc unit :=
  match v with
  | index_js => IndexJs.writeStarterFiles
  | part_000 => Part000.writeStarterFiles
  end.

Definition initProject (v : variant) (w : world) : jsstring -> proc unit :=
  match v with
  | index_js => IndexJs.initProject w
  | part_000 => Part000.initProject w
  end.

Definition installDependencies (v : variant) (w : world) : proc unit :=
  match v with
  | index_js => IndexJs.installDependencies w
  | part_000 => Part000.installDependencies w
  end.

(** Only [src/unnamed/part_000] writes a README. *)
Definition writeReadme (v : variant) : jsstring -> jsstring -> proc unit :=
  match v with
  | index_js => fun _ _ => ret tt
  | part_000 => Part000.writeReadme
  end.

Definition startServer (v : variant) (w : world) : jsstring -> proc unit :=
  match v with
  | index_js => IndexJs.startServer w
  | part_000 => Part000.startServer w
  end.

(** The state after the prompt. *)
Definition prompted (w : world) : state :=
  {| files := initial_files w; cwd := initial_cwd w;
     out := [Question (js "📁 Enter folder name for your project (default: server): ")] |}.

Definition setManifestFields (v : variant) : json -> proc json :=
  match v with
  | index_js => IndexJs.setManifestFields
  | part_000 => Part000.setManifestFields
  end.

(** The lines that tell how to start the server again: lines 194-197 of
    [src/index.js], lines 891-894 of [src/unnamed/part_000]. *)
Definition restart_instructions (v : variant) (userFolder : jsstring) : list jsstring :=
  match v with
  | index_js =>
      [[10] ++ js "🚀 To start your server again:";
       js "   cd " ++ userFolder;
       js "   npm run dev     # Development mode with nodemon";
       js "   npm start       # Production mode"]
  | part_000 =>
      [[10] ++ js "To restart your server:";
       js "   cd " ++ userFolder;
       js "   npm run dev     # Development mode with nodemon";
       js "   npm start       # Production mode"]
  end.

(** ** Notions used in the statements *)

(** *** Strings *)

(** White space only. *)
Definition blank (s : jsstring) : Prop := Forall (fun c => isWhiteSpace c = true) s.

(** [t] is [s] without its leading and trailing white space. *)
Definition stripped (s t : jsstring) : Prop :=
  exists before after,
    s = before ++ t ++ after /\ blank before /\ blank after /\
    (forall c, head t = Some c -> isWhiteSpace c = false) /\
    (forall c, last t = Some c -> isWhiteSpace c = false).

(** *** The manifest *)

(** The keys the two scripts assign. *)
Definition rewritten_keys : list jsstring :=
  [js "type"; js "scripts"; js "description"; js "keywords"; js "author";
   js "license"; js "main"].

(** *** Paths *)

Definition no_slash (seg : jsstring) : bool :=
  forallb (fun c => negb (c =? Path.slash)) seg.

(** A segment that names a directory entry. *)
Definition is_name (seg : jsstring) : bool :=
  negb (eqb seg []) && negb (eqb seg Path.dot) && negb (eqb seg Path.dotdot)
  && no_slash seg.

Abbreviation names_only names := (Forall (fun seg : jsstring => is_name seg = true) names).

(** The path written from a list of names below the root. *)
Definition render (names : list jsstring) : jsstring := Path.slash :: join [Path.slash] names.

(** A relative path made of names only, such as [config/db.js]. *)
Definition relative_names (rel : jsstring) : bool :=
  negb (eqb rel []) && negb (Path.endsWithSlash rel)
  && forallb is_name (Path.split rel).

(** A relative path of one name, such as [config]. *)
Definition single_name (f : jsstring) : Prop :=
  relative_names f = true /\ Path.split f = [f].

(** The names of the target directory. *)
Definition baseNames (w : world) : list jsstring :=
  Files.key (initial_cwd w) (userFolder w).

(** The place of a generated file: [path.join(baseDir, rel)]. *)
Definition target (w : world) (rel : jsstring) : list jsstring :=
  Files.key (initial_cwd w) (Path.join_args [baseDir w; rel]).

(** *** The file system *)

(** The directories [mkdirp] visits below [above]. *)
Fixpoint chain (above below : list jsstring) : list (list jsstring) :=
  match below with
  | [] => []
  | seg :: rest => (above ++ [seg]) :: chain (above ++ [seg]) rest
  end.

(** A file system in which every entry lies in a directory. *)
Definition consistent (m : gmap (list jsstring) node) : Prop :=
  forall k n, m !! k = Some n -> Files.is_dir m (Files.parent k) = true.

(** *** Runs *)

(** One template written under the target directory. *)
Definition writeTemplate (baseDir : jsstring) (entry : jsstring * jsstring) : proc unit :=
  Fs.writeFile (Path.join_args [baseDir; fst entry]) (Text (snd entry)).

(** The files written before [npm init]. *)
Definition starterFiles (v : variant) : list (jsstring * jsstring) :=
  match v with
  | index_js => IndexJs.starterFiles
  | part_000 => Part000.starterFiles
  end.

(** A template path is relative and is not the manifest's. *)
Definition template_path (rel : jsstring) : Prop :=
  relative_names rel = true /\
  Path.split rel <> Path.split (js "package.json").

(** [m] keeps [I]: whatever [m] does from a state where [I] holds, [I]
    holds afterwards. *)
Definition keeps {A} (I : state -> Prop) (m : proc A) : Prop :=
  forall s r s', I s -> m s = (r, s') -> I s'.

(** The entry at [k] is [n]. *)
Definition holds (k : list jsstring) (n : node) (s : state) : Prop :=
  files s !! k = Some n.

(** No subprocess changes the entry at [k]. *)
Definition untouched (w : world) (k : list jsstring) : Prop :=
  forall cmd c m, snd (subprocess w cmd c m) !! k = m !! k.

(** From any state whose trace is [T], [m] ends with an outcome and a trace
    that satisfy [Q]. *)
Definition emits {A} (m : proc A) (T : list event)
  (Q : outcome A -> list event -> Prop) : Prop :=
  forall s, out s = T -> Q (fst (m s)) (out (snd (m s))).

(** The exit code and the trace of a process whose script ended with [r]
    after the trace [T]. *)
Definition settled_code (r : outcome unit) : Z :=
  match r with
  | Exit code => code
  | _ => 0%Z
  end.

Definition settled_trace (r : outcome unit) (T : list event) : list event :=
  match r with
  | Throw e => T ++ [ConsoleError [PError e]]
  | _ => T
  end.

(** The state of a run when [rewriteManifest] starts: the folders and the
    starter files are there and [npm init] has run. *)
Definition state_before_rewrite (v : variant) (w : world) : state :=
  snd (bind (createFolders v (userFolder w) (baseDir w))
         (fun _ => bind (writeStarterFiles v (baseDir w))
         (fun _ => initProject v w (baseDir w)))
         (prompted w)).

(** The state of a run when [rewriteManifest] has written the manifest
    back. *)
Definition state_after_rewrite (v : variant) (w : world) : state :=
  snd (rewriteManifest v (baseDir w) (state_before_rewrite v w)).

(** ** Sample worlds *)

(** A manifest as [npm init -y] writes it. *)
Definition sample_manifest : json :=
  JObject [
    (js "name", JString (js "myapp"));
    (js "version", JString (js "1.0.0"));
    (js "description", JString (js ""));
    (js "main", JString (js "index.js"));
    (js "scripts",
      JObject [(js "test", JString (js "echo " ++ dq ++ js "Error: no test specified" ++ dq
                                    ++ js " && exit 1"))]);
    (js "keywords", JArray []);
    (js "author", JString (js ""));
    (js "license", JString (js "ISC"))
  ].

(** A package manager: [npm init -y] writes the manifest in the working
    directory; the command [bad], if there is one, ends with the status
    given and does nothing; every other command succeeds. *)
Definition sample_npm (bad : option (jsstring * option Z)) (cmd here : jsstring)
  (m : gmap (list jsstring) node) : option Z * gmap (list jsstring) node :=
  let done :=
    if eqb cmd npm_init
    then <[Files.key here (js "package.json") := File (JsonText sample_manifest)]> m
    else m in
  match bad with
  | Some (c, status) => if eqb cmd c then (status, m) else (Some 0%Z, done)
  | None => (Some 0%Z, done)
  end.

(** [/home/dev], where an older [MyApp/server.js] lies. *)
Definition sample_files : gmap (list jsstring) node :=
  {[ [js "home"] := Dir;
     [js "home"; js "dev"] := Dir;
     [js "home"; js "dev"; js "MyApp"] := Dir;
     [js "home"; js "dev"; js "MyApp"; js "server.js"] := File (Text (js "// old server")) ]}.

Definition sample_world (line : jsstring) (bad : option (jsstring * option Z)) : world :=
  {| answer := line;
     initial_cwd := js "/home/dev";
     initial_files := sample_files;
     subprocess := sample_npm bad |}.

(** The operator types "MyApp " and every subprocess succeeds. *)
Definition world_ok : world := sample_world (js "MyApp ") None.

(** The installation of the runtime dependencies ends with status 1. *)
Definition world_install_fails (v : variant) : world :=
  sample_world (js "MyApp ") (Some (npm_install_runtime v, Some 1%Z)).

(** [npm-check-updates] ends with status 1. *)
Definition world_update_fails : world :=
  sample_world (js "MyApp ") (Some (npm_check_updates, Some 1%Z)).

(** The operator stops the server with an interrupt. *)
Definition world_launch_interrupted : world :=
  sample_world (js "MyApp ") (Some (npm_run_dev, None)).

(** The operator types an absolute path that ends with a separator. *)
Definition world_absolute : world := sample_world (js "/srv/app/") None.

(** The operator types a relative path of two names. *)
Definition world_nested : world := sample_world (js "apps/api") None.

(** A manifest that holds a number beyond the doubles, and an initializer
    that leaves it in the target directory. *)
Definition huge_manifest : json :=
  JObject [
    (js "name", JString (js "myapp"));
    (js "version", JString (js "1.0.0"));
    (js "maxBodySize", JNumber 1 999)
  ].

Definition world_huge : world :=
  {| answer := js "MyApp ";
     initial_cwd := js "/home/dev";
     initial_files := sample_files;
     subprocess := fun cmd here m =>
       if eqb cmd npm_init
       then (Some 0%Z,
             <[Files.key here (js "package.json") := File (JsonText huge_manifest)]> m)
       else (Some 0%Z, m) |}.

(** The operator types an absolute path that goes up from a directory. *)
Definition world_dotdot : world := sample_world (js "/srv/app/../api") None.

(** ** Notions used in the further properties *)

(** The command lines of the subprocesses started, in order. *)
Definition commands_started (T : list event) : list jsstring := map fst (execs T).

(** The command lines of a variant, in the order of its script. *)
Definition commands (v : variant) : list jsstring :=
  [npm_init; npm_install_runtime v; npm_install_dev v;
   npm_check_updates; npm_install; npm_run_dev].

(** The same without the reinstall that follows [npm-check-updates]. *)
Definition commands_without_reinstall (v : variant) : list jsstring :=
  [npm_init; npm_install_runtime v; npm_install_dev v; npm_check_updates; npm_run_dev].

(** The prompts shown, in order. *)
Definition questions (T : list event) : list jsstring :=
  omap (fun e => match e with Question p => Some p | _ => None end) T.

(** The prompt of [getUserFolder], line 21 of both scripts. *)
Definition prompt : jsstring :=
  js "📁 Enter folder name for your project (default: server): ".


(** The line that announces the manifest rewrite: line 161 of
    [src/index.js], line 622 of [src/unnamed/part_000]. *)
Definition rewrite_message (v : variant) : jsstring :=
  match v with
  | index_js => js "🔧 Updating package.json with module type and scripts..."
  | part_000 => js "🔧 Updating package.json with ESM module type..."
  end.


(** What [.catch(console.error)] prints for the rejection [e]. *)
Definition rejection_report (e : error) : event := ConsoleError [PError e].

(** *** The script after the prompt *)

(** The statements that follow the computation of the target directory,
    in the order of the scripts. *)
Definition body (v : variant) (w : world) (folder baseDir : jsstring) : proc unit :=
  (createFolders v folder baseDir ;;
   writeStarterFiles v baseDir ;;
   initProject v w baseDir ;;
   rewriteManifest v baseDir ;;
   installDependencies v w ;;
   updatePackages v w ;;
   writeReadme v folder baseDir ;;
   startServer v w folder)%proc.

(** The [try]/[catch] around the script: only [src/unnamed/part_000] has
    one (lines 29 and 897-900). *)
Definition guarded (v : variant) (m : proc unit) : proc unit :=
  match v with
  | index_js => m
  | part_000 =>
      try_catch m
        (fun error =>
           Console.error [PString (js "❌ Error creating MERN backend:"); PMessage error] ;;
           Process.exit 1%Z)%proc
  end.

(** A property of the state that printing does not change. *)
Definition silent (I : state -> Prop) : Prop :=
  forall s e, I s -> I {| files := files s; cwd := cwd s; out := out s ++ [e] |}.

(** The entry at [k] is [o], if any. *)
Definition entry (k : list jsstring) (o : option node) (s : state) : Prop :=
  files s !! k = o.

(** Where a run may create or write an entry: the target directory and the
    directories above it, the six folders, the generated files and the
    manifest. *)
Definition footprint (v : variant) (w : world) : list (list jsstring) :=
  chain [] (baseNames w)
  ++ map (fun f => baseNames w ++ [f]) (folders v)
  ++ map (fun e => baseNames w ++ Path.split (fst e)) (generatedFiles v (userFolder w))
  ++ [baseNames w ++ [js "package.json"]].

(** [npm init -y] ends with status 1. *)
Definition world_init_fails : world :=
  sample_world (js "MyApp ") (Some (npm_init, Some 1%Z)).

(** [m] and [m'] do the same from every state whose working directory is
    [c], and leave the working directory there. *)
Definition same_at {A} (c : jsstring) (m m' : proc A) : Prop :=
  forall s, cwd s = c -> m s = m' s /\ cwd (snd (m s)) = c.

(** A package manager that works in [/home/dev/MyApp] as the sample one
    does and is killed at once anywhere else. *)
Definition world_strict : world :=
  {| answer := js "MyApp ";
     initial_cwd := js "/home/dev";
     initial_files := sample_files;
     subprocess := fun cmd here m =>
       if eqb here (js "/home/dev/MyApp") then sample_npm None cmd here m else (None, m) |}.

(** A regular file [MyApp] lies where the target directory should be. *)
Definition world_file_in_the_way : world :=
  {| answer := js "MyApp";
     initial_cwd := js "/home/dev";
     initial_files :=
       {[ [js "home"] := Dir;
          [js "home"; js "dev"] := Dir;
          [js "home"; js "dev"; js "MyApp"] := File (Text (js "notes")) ]};
     subprocess := sample_npm None |}.

(** *** The manifest rewrite *)

(** The keys the rewrite of a variant assigns, in the order of its
    assignments: lines 166-172 of [src/index.js], lines 626-636 of
    [src/unnamed/part_000]. *)
Definition assigned_keys (v : variant) : list jsstring :=
  match v with
  | index_js => [js "type"; js "scripts"; js "description"; js "keywords"]
  | part_000 =>
      [js "type"; js "scripts"; js "description"; js "keywords"; js "author";
       js "license"; js "main"]
  end.

(** Assignments made one after the other. *)
Definition assign_all (fields : list (jsstring * json)) (props : list (jsstring * json))
  : list (jsstring * json) :=
  fold_left (fun props field => Json.set (fst field) (snd field) props) fields props.


(** The place of the manifest of the directory [names]. *)
Definition manifest_key (names : list jsstring) : list jsstring :=
  names ++ [js "package.json"].

(** The state in which the rewrite has been announced. *)
Definition announced (v : variant) (s : state) : state :=
  {| files := files s; cwd := cwd s; out := out s ++ [ConsoleLog (rewrite_message v)] |}.

(** *** The scaffolding *)

(** The directories a run makes sure exist: the target directory, the
    directories above it and the six folders. *)
Definition directories (v : variant) (names : list jsstring) : list (list jsstring) :=
  chain [] names ++ map (fun f => names ++ [f]) (folders v).

(** A property of the trace alone, as a property of the state. *)
Definition on_trace (P : list event -> Prop) (s : state) : Prop := P (out s).

(** The first line the handler of the launch prints in
    [src/unnamed/part_000], line 890. *)
Definition stopped_message : jsstring := [10] ++ js "👋 Development server stopped.".

(** * Lemmas and theorems *)

(** ** Trimming *)

Lemma trimStart_split (s : jsstring) :
  exists before, s = before ++ trimStart s /\ blank before /\
    (forall c, head (trimStart s) = Some c -> isWhiteSpace c = false).
Proof.
  induction s as [|c s IH]; simpl.
  - exists []. repeat split; [constructor | discriminate].
  - destruct (isWhiteSpace c) eqn:Hc.
    + destruct IH as (b & Hs & Hb & Hh).
      exists (c :: b). repeat split; [simpl; congruence | constructor; assumption | assumption].
    + exists []. repeat split; [constructor |].
      simpl. intros c' [= <-]. assumption.
Qed.

Lemma trimStart_blank (s : jsstring) : blank s -> trimStart s = [].
Proof.
  induction 1 as [|c s Hc _ IH]; simpl; [reflexivity |].
  rewrite Hc. assumption.
Qed.

Lemma trimStart_nil_blank (s : jsstring) : trimStart s = [] -> blank s.
Proof.
  destruct (trimStart_split s) as (b & Hs & Hb & _).
  intros E. rewrite E, app_nil_r in Hs. subst. assumption.
Qed.

Lemma blank_rev (s : jsstring) : blank s -> blank (rev s).
Proof.
  unfold blank. rewrite !List.Forall_forall. intros H c Hc. apply H, List.in_rev, Hc.
Qed.

Lemma last_rev_head (s : jsstring) : last (rev s) = head s.
Proof. destruct s as [|c s]; [reflexivity |]. simpl. apply last_snoc. Qed.

Lemma head_rev_last (s : jsstring) : head (rev s) = last s.
Proof. rewrite <- (rev_involutive s) at 2. symmetry. apply last_rev_head. Qed.

Lemma trimEnd_split (s : jsstring) :
  exists after, s = trimEnd s ++ after /\ blank after /\
    (forall c, last (trimEnd s) = Some c -> isWhiteSpace c = false).
Proof.
  unfold trimEnd.
  destruct (trimStart_split (rev s)) as (b & Hs & Hb & Hh).
  exists (rev b). repeat split.
  - rewrite <- rev_app_distr, <- Hs, rev_involutive. reflexivity.
  - apply blank_rev, Hb.
  - intros c Hc. apply Hh. rewrite last_rev_head in Hc. exact Hc.
Qed.

Lemma head_app_l (a b : jsstring) c : head a = Some c -> head (a ++ b) = Some c.
Proof. destruct a; [discriminate | trivial]. Qed.

Lemma trim_stripped (s : jsstring) : stripped s (trim s).
Proof.
  unfold trim.
  destruct (trimStart_split s) as (b & Hs & Hb & Hh).
  destruct (trimEnd_split (trimStart s)) as (a & Ht & Ha & Hl).
  exists b, a. repeat split; try assumption.
  - rewrite <- Ht. exact Hs.
  - intros c Hc. apply Hh. rewrite Ht. apply head_app_l, Hc.
Qed.

Lemma trim_blank (s : jsstring) : blank s <-> trim s = [].
Proof.
  unfold trim, trimEnd. split.
  - intros H. rewrite (trimStart_blank s H). reflexivity.
  - intros H.
    assert (Hr : trimStart (rev (trimStart s)) = []).
    { rewrite <- (rev_involutive (trimStart (rev (trimStart s)))), H. reflexivity. }
    apply trimStart_nil_blank in Hr. apply blank_rev in Hr.
    rewrite rev_involutive in Hr.
    destruct (trimStart_split s) as (b & Hs & Hb & _).
    rewrite Hs. apply Forall_app. split; assumption.
Qed.

(** Leading and trailing white space can be removed in one way only. *)
Lemma trimStart_skip (b t : jsstring) :
  blank b -> (forall c, head t = Some c -> isWhiteSpace c = false) -> t <> [] ->
  trimStart (b ++ t) = t.
Proof.
  intros Hb Hh Ht. induction Hb as [|c b Hc _ IH]; simpl.
  - destruct t as [|c t]; [congruence |]. simpl. rewrite (Hh c); reflexivity.
  - rewrite Hc. exact IH.
Qed.

Lemma stripped_trim (s t : jsstring) : stripped s t -> t = trim s.
Proof.
  intros (b & a & Hs & Hb & Ha & Hh & Hl).
  destruct t as [|c t].
  - symmetry. apply trim_blank. subst s. apply Forall_app. split; assumption.
  - subst s. unfold trim, trimEnd.
    rewrite (trimStart_skip b ((c :: t) ++ a) Hb); [| intros c' [= <-]; apply Hh; reflexivity
                                                    | discriminate].
    rewrite rev_app_distr.
    rewrite (trimStart_skip (rev a) (rev (c :: t))).
    + symmetry. apply rev_involutive.
    + apply blank_rev, Ha.
    + intros c' Hc'. apply Hl. rewrite <- head_rev_last. exact Hc'.
    + intros E. apply (f_equal (@rev N)) in E. rewrite rev_involutive in E. discriminate.
Qed.


(** ** Properties of objects *)

Lemma get_set_same (k : jsstring) (v : json) (props : list (jsstring * json)) :
  Json.get k (Json.set k v props) = Some v.
Proof.
  induction props as [|[k' v'] props IH]; simpl.
  - unfold eqb. rewrite bool_decide_true; reflexivity.
  - destruct (eqb k' k) eqn:E; simpl; rewrite E; [reflexivity | exact IH].
Qed.

Lemma get_set_other (k k' : jsstring) (v : json) (props : list (jsstring * json)) :
  k <> k' -> Json.get k' (Json.set k v props) = Json.get k' props.
Proof.
  intros Hne. induction props as [|[k0 v0] props IH]; simpl.
  - unfold eqb. rewrite bool_decide_false; [reflexivity | exact Hne].
  - destruct (eqb k0 k) eqn:E; simpl.
    + unfold eqb in *. apply bool_decide_eq_true in E. subst k0.
      rewrite bool_decide_false; [reflexivity | exact Hne].
    + destruct (eqb k0 k'); [reflexivity | exact IH].
Qed.

(** What an assignment does to the members of any JSON value. *)
Lemma assign_member (o o' : json) (k : jsstring) (v : json) (s s' : state) :
  assign o k v s = (Return o', s') ->
  s' = s /\ forall k', k <> k' -> member k' o' = member k' o.
Proof.
  destruct o; simpl; unfold throw, ret; intros [= <- <-]; split; trivial.
  intros k' Hne. simpl. apply get_set_other, Hne.
Qed.

Ltac bind_step H :=
  match type of H with
  | bind ?m ?k ?s = _ =>
      unfold bind at 1 in H;
      let r := fresh "r" in let s1 := fresh "s" in let E := fresh "E" in
      destruct (m s) as [r s1] eqn:E; destruct r; [| discriminate H ..]
  end.

Lemma not_in_cons_ne (k : jsstring) k0 l : ~ In k (k0 :: l) -> k0 <> k /\ ~ In k l.
Proof. simpl. intuition. Qed.

Lemma IndexJs_fields_frame (j j' : json) (s s' : state) :
  IndexJs.setManifestFields j s = (Return j', s') ->
  s' = s /\ forall k, ~ In k rewritten_keys -> member k j' = member k j.
Proof.
  unfold IndexJs.setManifestFields. intros H.
  repeat bind_step H.
  repeat match goal with
  | E : assign _ _ _ _ = (Return _, _) |- _ => apply assign_member in E; destruct E as [-> ?]
  end.
  split; [reflexivity |].
  intros k Hk. unfold rewritten_keys in Hk.
  repeat (apply not_in_cons_ne in Hk; destruct Hk as [? Hk]).
  repeat match goal with
  | E : forall k', _ <> k' -> member k' ?a = member k' ?b |- member _ ?a = _ =>
      rewrite (E k) by assumption; clear E
  end.
  reflexivity.
Qed.

Lemma Part000_fields_frame (j j' : json) (s s' : state) :
  Part000.setManifestFields j s = (Return j', s') ->
  s' = s /\ forall k, ~ In k rewritten_keys -> member k j' = member k j.
Proof.
  unfold Part000.setManifestFields. intros H.
  repeat bind_step H.
  repeat match goal with
  | E : assign _ _ _ _ = (Return _, _) |- _ => apply assign_member in E; destruct E as [-> ?]
  end.
  split; [reflexivity |].
  intros k Hk. unfold rewritten_keys in Hk.
  repeat (apply not_in_cons_ne in Hk; destruct Hk as [? Hk]).
  repeat match goal with
  | E : forall k', _ <> k' -> member k' ?a = member k' ?b |- member _ ?a = _ =>
      rewrite (E k) by assumption; clear E
  end.
  reflexivity.
Qed.

(** ** Paths *)

Lemma split_cons (p : jsstring) : exists seg segs, Path.split p = seg :: segs.
Proof.
  induction p as [|c p (seg & segs & IH)]; simpl; [eauto |].
  destruct (c =? Path.slash); [eauto |]. rewrite IH. eauto.
Qed.

Lemma split_app (p q : jsstring) :
  Path.split (p ++ Path.slash :: q) = Path.split p ++ Path.split q.
Proof.
  induction p as [|c p IH]; simpl.
  - reflexivity.
  - destruct (c =? Path.slash); [rewrite IH; reflexivity |].
    rewrite IH. destruct (split_cons p) as (seg & segs & ->). reflexivity.
Qed.

Lemma split_no_slash (seg : jsstring) : no_slash seg = true -> Path.split seg = [seg].
Proof.
  induction seg as [|c seg IH]; simpl; [reflexivity |].
  intros H. apply andb_prop in H as [Hc Hs].
  apply negb_true_iff in Hc. rewrite Hc, (IH Hs). reflexivity.
Qed.

Lemma split_segments_no_slash (p : jsstring) :
  Forall (fun seg => no_slash seg = true) (Path.split p).
Proof.
  induction p as [|c p IH]; simpl.
  - repeat constructor.
  - destruct (c =? Path.slash) eqn:Hc.
    + constructor; [reflexivity | exact IH].
    + destruct (Path.split p) as [|seg segs]; [repeat constructor; simpl; rewrite Hc; reflexivity |].
      inversion IH; subst. constructor; [| assumption].
      simpl. rewrite Hc. assumption.
Qed.

Lemma is_name_no_slash (seg : jsstring) : is_name seg = true -> no_slash seg = true.
Proof. unfold is_name. intros H. apply andb_prop in H as [_ H]. exact H. Qed.

Lemma push_name (b : bool) (acc : list jsstring) (seg : jsstring) :
  is_name seg = true -> Path.push b acc seg = seg :: acc.
Proof.
  unfold is_name, Path.push. intros H.
  apply andb_prop in H as [H _]. apply andb_prop in H as [H H3].
  apply andb_prop in H as [H1 H2].
  apply negb_true_iff in H1, H2, H3. rewrite H1, H2, H3. reflexivity.
Qed.

Lemma push_names (b : bool) (names acc : list jsstring) :
  names_only names ->
  fold_left (Path.push b) names acc = rev names ++ acc.
Proof.
  intros H. revert acc. induction H as [|seg names Hseg _ IH]; intros acc; simpl.
  - reflexivity.
  - rewrite (push_name b acc seg Hseg), IH, <- app_assoc. reflexivity.
Qed.

(** Below the root, the stack holds names only. *)
Lemma push_keeps_names (acc : list jsstring) (seg : jsstring) :
  names_only acc -> no_slash seg = true ->
  names_only (Path.push false acc seg).
Proof.
  intros Hacc Hseg. unfold Path.push.
  destruct (eqb seg []) eqn:H1; simpl; [assumption |].
  destruct (eqb seg Path.dot) eqn:H2; simpl; [assumption |].
  destruct (eqb seg Path.dotdot) eqn:H3.
  - destruct acc as [|top below]; [constructor |].
    destruct (eqb top Path.dotdot); [assumption |]. inversion Hacc; assumption.
  - constructor; [| assumption]. unfold is_name. rewrite H1, H2, H3. exact Hseg.
Qed.

Lemma fold_push_names (segs acc : list jsstring) :
  names_only acc ->
  Forall (fun s => no_slash s = true) segs ->
  names_only (fold_left (Path.push false) segs acc).
Proof.
  intros Hacc Hsegs. revert acc Hacc.
  induction Hsegs as [|seg segs Hseg _ IH]; intros acc Hacc; simpl; [assumption |].
  apply IH, push_keeps_names; assumption.
Qed.

Lemma Forall_rev_names (l : list jsstring) :
  names_only l -> names_only (rev l).
Proof. rewrite !List.Forall_forall. intros H x Hx. apply H, List.in_rev, Hx. Qed.

Lemma segments_names (p : jsstring) :
  names_only (Path.segments false p).
Proof.
  unfold Path.segments. apply Forall_rev_names, fold_push_names;
    [constructor | apply split_segments_no_slash].
Qed.

Lemma split_join_names (names : list jsstring) :
  names_only names -> names <> [] ->
  Path.split (join [Path.slash] names) = names.
Proof.
  induction 1 as [|seg names Hseg Hnames IH]; [congruence |]. intros _.
  destruct names as [|seg' names].
  - simpl. apply split_no_slash, is_name_no_slash, Hseg.
  - change (join [Path.slash] (seg :: seg' :: names))
      with (seg ++ Path.slash :: join [Path.slash] (seg' :: names)).
    rewrite split_app, IH by discriminate.
    rewrite (split_no_slash seg) by (apply is_name_no_slash, Hseg). reflexivity.
Qed.

Lemma fold_push_join (names acc : list jsstring) :
  names_only names ->
  fold_left (Path.push false) (Path.split (join [Path.slash] names)) acc = rev names ++ acc.
Proof.
  intros H. destruct names as [|seg names].
  - reflexivity.
  - rewrite split_join_names by (assumption || discriminate). apply push_names, H.
Qed.

Lemma segments_render_app (names : list jsstring) (q : jsstring) :
  names_only names ->
  Path.segments false (render names ++ Path.slash :: q)
  = rev (fold_left (Path.push false) (Path.split q) (rev names)).
Proof.
  intros H. unfold Path.segments, render.
  change ((Path.slash :: join [Path.slash] names) ++ Path.slash :: q)
    with (Path.slash :: (join [Path.slash] names ++ Path.slash :: q)).
  cbn [Path.split]. rewrite N.eqb_refl, split_app.
  cbn [fold_left]. change (Path.push false [] []) with (@nil jsstring).
  rewrite fold_left_app, fold_push_join, app_nil_r by assumption. reflexivity.
Qed.

Lemma segments_render (names : list jsstring) :
  names_only names ->
  Path.segments false (render names) = names.
Proof.
  intros H. unfold Path.segments, render. cbn [Path.split]. rewrite N.eqb_refl.
  cbn [fold_left]. change (Path.push false [] []) with (@nil jsstring).
  rewrite fold_push_join, app_nil_r, rev_involutive by assumption. reflexivity.
Qed.

Lemma segments_render_names (names rel : list jsstring) (q : jsstring) :
  names_only names ->
  Path.split q = rel -> names_only rel ->
  Path.segments false (render names ++ Path.slash :: q) = names ++ rel.
Proof.
  intros Hn Hq Hrel. rewrite segments_render_app, Hq, push_names by assumption.
  rewrite rev_app_distr, !rev_involutive. reflexivity.
Qed.

(** A file operation on an absolute path does not depend on the working
    directory. *)
Lemma key_render (c : jsstring) (names : list jsstring) :
  names_only names -> Files.key c (render names) = names.
Proof. intros H. unfold Files.key. simpl. apply segments_render, H. Qed.

Lemma endsWithSlash_app (p q : jsstring) :
  q <> [] -> Path.endsWithSlash (p ++ q) = Path.endsWithSlash q.
Proof.
  intros Hq. unfold Path.endsWithSlash. rewrite rev_app_distr.
  destruct (rev q) as [|c r] eqn:E; [| reflexivity].
  apply (f_equal (@rev N)) in E. rewrite rev_involutive in E. contradiction.
Qed.

Lemma join_names_cons (names : list jsstring) :
  names_only names -> names <> [] ->
  exists c rest, join [Path.slash] names = c :: rest.
Proof.
  intros H Hne. destruct names as [|seg names]; [congruence |].
  inversion H as [|? ? Hseg _]; subst.
  destruct seg as [|c seg]; [discriminate Hseg |].
  destruct names; simpl; eauto.
Qed.

Lemma relative_names_split (rel : jsstring) :
  relative_names rel = true ->
  rel <> [] /\ Path.endsWithSlash rel = false /\
  names_only (Path.split rel) /\ Path.split rel <> [].
Proof.
  unfold relative_names. intros H.
  apply andb_prop in H as [H H3]. apply andb_prop in H as [H1 H2].
  apply negb_true_iff in H1, H2. unfold eqb in H1. apply bool_decide_eq_false in H1.
  repeat split; try assumption.
  - apply Forall_forall. intros x Hx. rewrite forallb_forall in H3.
    apply H3, list_elem_of_In, Hx.
  - destruct (split_cons rel) as (seg & segs & ->). discriminate.
Qed.

Lemma normalize_absolute (p : jsstring) :
  Path.isAbsolute p = true -> Path.endsWithSlash p = false ->
  join [Path.slash] (Path.segments false p) <> [] ->
  Path.normalize p = render (Path.segments false p).
Proof.
  intros Habs Hend Hj. destruct p as [|c p]; [discriminate Habs |].
  unfold Path.normalize, Path.normalizeString. rewrite Habs, Hend. cbn [negb].
  unfold render. destruct (join [Path.slash] (Path.segments false (c :: p))); congruence.
Qed.

(** [path.join(baseDir, rel)] for a normalised absolute [baseDir]. *)
Lemma join_args_render (names : list jsstring) (rel : jsstring) :
  names_only names -> relative_names rel = true ->
  Path.join_args [render names; rel] = render (names ++ Path.split rel).
Proof.
  intros Hn Hrel. apply relative_names_split in Hrel as (Hne & Hend & Hsplit & Hcons).
  unfold Path.join_args.
  assert (Hf : List.filter Path.nonEmpty [render names; rel] = [render names; rel]).
  { destruct rel; [congruence | reflexivity]. }
  rewrite Hf.
  change (join [Path.slash] [render names; rel]) with (render names ++ Path.slash :: rel).
  assert (Hseg : Path.segments false (render names ++ Path.slash :: rel)
                 = names ++ Path.split rel)
    by (apply segments_render_names; assumption || reflexivity).
  rewrite normalize_absolute, Hseg; [reflexivity | reflexivity | |].
  - replace (render names ++ Path.slash :: rel)
      with ((render names ++ [Path.slash]) ++ rel)
      by (rewrite <- app_assoc; reflexivity).
    rewrite endsWithSlash_app by assumption. exact Hend.
  - rewrite Hseg.
    destruct (join_names_cons (names ++ Path.split rel)) as (c & rest & Hj).
    + apply Forall_app. split; assumption.
    + destruct names; simpl; [assumption | discriminate].
    + rewrite Hj. discriminate.
Qed.

Lemma key_join_args (c : jsstring) (names : list jsstring) (rel : jsstring) :
  names_only names -> relative_names rel = true ->
  Files.key c (Path.join_args [render names; rel]) = names ++ Path.split rel.
Proof.
  intros Hn Hrel. rewrite join_args_render by assumption.
  apply key_render, Forall_app. split; [assumption |].
  apply relative_names_split in Hrel. tauto.
Qed.

Lemma segments_trailing_slash (p : jsstring) :
  Path.segments false (p ++ [Path.slash]) = Path.segments false p.
Proof.
  unfold Path.segments. rewrite split_app, fold_left_app. simpl.
  reflexivity.
Qed.

(** [path.resolve(process.cwd(), userFolder)]: the normalised absolute path
    of the place the folder name denotes. *)
Lemma resolve_render (here folder : jsstring) :
  Path.isAbsolute here = true -> folder <> [] ->
  Path.resolve here [here; folder] = render (Files.key here folder).
Proof.
  intros Habs Hne. unfold Path.resolve, Files.key. simpl rev.
  destruct folder as [|c folder]; [congruence |]. cbn [Path.resolve_loop].
  destruct (Path.isAbsolute (c :: folder)) eqn:Hf.
  - unfold Path.normalizeString. cbn [negb].
    change ((c :: folder) ++ [Path.slash] ++ []) with ((c :: folder) ++ [Path.slash]).
    rewrite segments_trailing_slash. reflexivity.
  - destruct here as [|h here]; [discriminate Habs |].
    cbn [Path.resolve_loop]. rewrite Habs.
    unfold Path.normalizeString. cbn [negb].
    change ((h :: here) ++ [Path.slash] ++ (c :: folder) ++ [Path.slash] ++ [])
      with ((h :: here) ++ [Path.slash] ++ (c :: folder) ++ [Path.slash]).
    rewrite !app_assoc, segments_trailing_slash, <- !app_assoc. reflexivity.
Qed.

Lemma userFolder_cons (w : world) : userFolder w <> [].
Proof. unfold userFolder. destruct (trim (answer w)); discriminate. Qed.

Lemma baseDir_render (w : world) :
  Path.isAbsolute (initial_cwd w) = true -> baseDir w = render (baseNames w).
Proof. intros H. apply resolve_render; [assumption | apply userFolder_cons]. Qed.

Lemma baseNames_names (w : world) : names_only (baseNames w).
Proof. apply segments_names. Qed.

(** ** Directories *)

Lemma chain_app (above below more : list jsstring) :
  chain above (below ++ more) = chain above below ++ chain (above ++ below) more.
Proof.
  revert above. induction below as [|seg below IH]; intros above; simpl.
  - rewrite app_nil_r. reflexivity.
  - rewrite IH, <- app_assoc. reflexivity.
Qed.

Section Mkdirp.

Variable p : jsstring.

(** Entries that exist are kept. *)
Lemma mkdirp_keeps (above below : list jsstring) (m m' : gmap (list jsstring) node) :
  Files.mkdirp p above below m = Ok m' ->
  forall k n, m !! k = Some n -> m' !! k = Some n.
Proof.
  revert above m. induction below as [|seg below IH]; intros above m; simpl.
  - intros [= <-]. trivial.
  - destruct (m !! (above ++ [seg])) as [[|c]|] eqn:E.
    + apply IH.
    + destruct below; discriminate.
    + intros H k n Hk. apply (IH _ _ H).
      rewrite lookup_insert_ne; [assumption |]. intros <-. congruence.
Qed.

(** Every directory on the way exists afterwards. *)
Lemma mkdirp_creates (above below : list jsstring) (m m' : gmap (list jsstring) node) :
  Files.mkdirp p above below m = Ok m' ->
  forall k, In k (chain above below) -> m' !! k = Some Dir.
Proof.
  revert above m. induction below as [|seg below IH]; intros above m; simpl.
  - tauto.
  - destruct (m !! (above ++ [seg])) as [[|c]|] eqn:E.
    + intros H k [<- | Hk]; [| apply (IH _ _ H), Hk].
      apply (mkdirp_keeps _ _ _ _ H), E.
    + destruct below; discriminate.
    + intros H k [<- | Hk]; [| apply (IH _ _ H), Hk].
      apply (mkdirp_keeps _ _ _ _ H), lookup_insert_eq.
Qed.

(** Nothing else changes. *)
Lemma mkdirp_frame (above below : list jsstring) (m m' : gmap (list jsstring) node) :
  Files.mkdirp p above below m = Ok m' ->
  forall k, ~ In k (chain above below) -> m' !! k = m !! k.
Proof.
  revert above m. induction below as [|seg below IH]; intros above m; simpl.
  - intros [= <-]. trivial.
  - destruct (m !! (above ++ [seg])) as [[|c]|] eqn:E.
    + intros H k Hk. apply (IH _ _ H). tauto.
    + destruct below; discriminate.
    + intros H k Hk. rewrite (IH _ _ H) by tauto.
      apply lookup_insert_ne. tauto.
Qed.

(** Where every directory on the way exists, nothing is done. *)
Lemma mkdirp_existing (above below : list jsstring) (m : gmap (list jsstring) node) :
  (forall k, In k (chain above below) -> m !! k = Some Dir) ->
  Files.mkdirp p above below m = Ok m.
Proof.
  revert above. induction below as [|seg below IH]; intros above H; simpl.
  - reflexivity.
  - rewrite (H (above ++ [seg])) by (simpl; tauto).
    apply IH. intros k Hk. apply H. simpl. tauto.
Qed.

(** Creating a directory twice is creating it once. *)
Lemma mkdirp_idempotent (above below : list jsstring) (m m' : gmap (list jsstring) node) :
  Files.mkdirp p above below m = Ok m' -> Files.mkdirp p above below m' = Ok m'.
Proof. intros H. apply mkdirp_existing, (mkdirp_creates _ _ _ _ H). Qed.

End Mkdirp.

Lemma parent_snoc (k : list jsstring) (seg : jsstring) : Files.parent (k ++ [seg]) = k.
Proof. apply removelast_last. Qed.

Lemma consistent_chain (m : gmap (list jsstring) node) (k : list jsstring) :
  consistent m -> Files.is_dir m k = true ->
  forall d, In d (chain [] k) -> m !! d = Some Dir.
Proof.
  intros Hm. induction k as [|seg k IH] using rev_ind; [simpl; tauto |].
  intros Hk d. rewrite chain_app. simpl. rewrite in_app_iff. simpl.
  unfold Files.is_dir in Hk.
  destruct (k ++ [seg]) as [|x y] eqn:Ek; [destruct k; discriminate |]. rewrite <- Ek in *.
  destruct (m !! (k ++ [seg])) as [[|c]|] eqn:E; try discriminate.
  intros [Hd | [<- | []]]; [| assumption].
  apply IH; [| assumption].
  specialize (Hm _ _ E). rewrite parent_snoc in Hm. exact Hm.
Qed.

(** ** The process monad *)

Lemma bind_Return {A B} (m : proc A) (k : A -> proc B) (s s' : state) (b : B) :
  bind m k s = (Return b, s') ->
  exists a s1, m s = (Return a, s1) /\ k a s1 = (Return b, s').
Proof.
  unfold bind. destruct (m s) as [[a|e|c] s1]; [eauto | discriminate ..].
Qed.

Lemma bind_eq {A B} (m : proc A) (k : A -> proc B) (s s1 : state) (a : A) :
  m s = (Return a, s1) -> bind m k s = k a s1.
Proof. unfold bind. intros ->. reflexivity. Qed.

Lemma mkdirs_Return (p : jsstring) (s s' : state) :
  Fs.mkdirs p s = (Return tt, s') ->
  Files.mkdirp p [] (Files.key (cwd s) p) (files s) = Ok (files s') /\
  cwd s' = cwd s /\ out s' = out s.
Proof.
  unfold Fs.mkdirs, lift_files.
  destruct (Files.mkdirp p [] (Files.key (cwd s) p) (files s)); [| discriminate].
  intros [= <-]. auto.
Qed.

Lemma mkdirs_existing (p : jsstring) (s : state) :
  (forall k, In k (chain [] (Files.key (cwd s) p)) -> files s !! k = Some Dir) ->
  Fs.mkdirs p s = (Return tt, s).
Proof.
  intros H. unfold Fs.mkdirs, lift_files.
  rewrite (mkdirp_existing p _ _ _ H). destruct s; reflexivity.
Qed.

Lemma log_eq (msg : jsstring) (s : state) :
  Console.log msg s
  = (Return tt, {| files := files s; cwd := cwd s; out := out s ++ [ConsoleLog msg] |}).
Proof. reflexivity. Qed.

Lemma chain_snoc (names : list jsstring) (seg : jsstring) :
  chain [] (names ++ [seg]) = chain [] names ++ [names ++ [seg]].
Proof. rewrite chain_app. reflexivity. Qed.

Lemma chain_last (names : list jsstring) : names <> [] -> In names (chain [] names).
Proof.
  destruct names as [|x l] using rev_ind; [congruence |]. intros _.
  rewrite chain_snoc, in_app_iff. simpl. tauto.
Qed.

Lemma chain_is_dir (m : gmap (list jsstring) node) (names : list jsstring) :
  (forall k, In k (chain [] names) -> m !! k = Some Dir) -> Files.is_dir m names = true.
Proof.
  intros H. destruct names as [|x l] eqn:E; [reflexivity |]. rewrite <- E in *.
  unfold Files.is_dir. rewrite E, <- E. rewrite (H names); [reflexivity |].
  apply chain_last. congruence.
Qed.

Lemma folders_single (v : variant) : Forall single_name (folders v).
Proof. destruct v; repeat constructor. Qed.

Section Subfolders.

Variable names : list jsstring.
Hypothesis names_ok : names_only names.

Lemma subfolder_key (c f : jsstring) :
  single_name f -> Files.key c (Path.join_args [render names; f]) = names ++ [f].
Proof. intros [Hr Hs]. rewrite key_join_args, Hs by assumption. reflexivity. Qed.

Lemma forEach_mkdir (fs : list jsstring) (s s' : state) :
  Forall single_name fs ->
  forEach fs (fun f => Fs.mkdirSync_recursive (Path.join_args [render names; f])) s
  = (Return tt, s') ->
  cwd s' = cwd s /\ out s' = out s /\
  (forall k n, files s !! k = Some n -> files s' !! k = Some n) /\
  (forall f, In f fs -> files s' !! (names ++ [f]) = Some Dir) /\
  (forall k, ~ In k (chain [] names) -> (forall f, In f fs -> k <> names ++ [f]) ->
     files s' !! k = files s !! k).
Proof.
  intros Hfs. revert s. induction Hfs as [|f fs Hf _ IH]; intros s; simpl.
  - unfold ret. intros [= <-]. repeat split; tauto.
  - intros H. apply bind_Return in H as ([] & s1 & H1 & H2).
    apply mkdirs_Return in H1 as (Hm & Hc & Ho).
    rewrite (subfolder_key _ _ Hf) in Hm.
    destruct (IH _ H2) as (Hc' & Ho' & Hkeep & Hmade & Hframe).
    repeat split; try congruence.
    + intros k n Hk. apply Hkeep, (mkdirp_keeps _ _ _ _ _ Hm), Hk.
    + intros g [<- | Hg]; [| apply Hmade, Hg].
      apply Hkeep, (mkdirp_creates _ _ _ _ _ Hm).
      rewrite chain_snoc, in_app_iff. simpl. tauto.
    + intros k Hk Hne. rewrite Hframe by auto.
      apply (mkdirp_frame _ _ _ _ _ Hm). rewrite chain_snoc, in_app_iff. simpl.
      intros [? | [<- | []]]; [tauto |]. apply (Hne f); tauto.
Qed.

Lemma forEach_mkdir_existing (fs : list jsstring) (s : state) :
  Forall single_name fs ->
  (forall k, In k (chain [] names) -> files s !! k = Some Dir) ->
  (forall f, In f fs -> files s !! (names ++ [f]) = Some Dir) ->
  forEach fs (fun f => Fs.mkdirSync_recursive (Path.join_args [render names; f])) s
  = (Return tt, s).
Proof.
  intros Hfs Hn. induction Hfs as [|f fs Hf _ IH]; simpl; intros H; [reflexivity |].
  rewrite (bind_eq _ _ s s tt); [apply IH; auto |].
  apply mkdirs_existing. rewrite (subfolder_key _ _ Hf), chain_snoc.
  intros k. rewrite in_app_iff. simpl. intros [? | [<- | []]]; auto.
Qed.

End Subfolders.

(** What [createFolders] does, for a normalised absolute target. *)
Lemma createFolders_spec (v : variant) (folder : jsstring) (names : list jsstring)
  (s s' : state) :
  names_only names ->
  createFolders v folder (render names) s = (Return tt, s') ->
  cwd s' = cwd s /\
  (forall k n, files s !! k = Some n -> files s' !! k = Some n) /\
  (forall k, In k (chain [] names) -> files s' !! k = Some Dir) /\
  (forall f, In f (folders v) -> files s' !! (names ++ [f]) = Some Dir) /\
  (forall k, ~ In k (chain [] names) -> (forall f, In f (folders v) -> k <> names ++ [f]) ->
     files s' !! k = files s !! k).
Proof.
  intros Hn H.
  assert (exists s1 s2,
    Fs.mkdirs (render names) s1 = (Return tt, s2) /\
    files s1 = files s /\ cwd s1 = cwd s /\
    exists s3, forEach (folders v)
      (fun f => Fs.mkdirSync_recursive (Path.join_args [render names; f])) s3 = (Return tt, s')
      /\ files s3 = files s2 /\ cwd s3 = cwd s2) as (s1 & s2 & H1 & Hf1 & Hc1 & s3 & H3 & Hf3 & Hc3).
  { destruct v; cbn [createFolders] in H;
      unfold IndexJs.createFolders, Part000.createFolders in H.
    - apply bind_Return in H as ([] & s2 & H1 & H).
      do 2 (apply bind_Return in H as ([] & ? & [= <-] & H)).
      exists s, s2. repeat split; [exact H1 |]. eexists. split; [exact H |]. split; reflexivity.
    - apply bind_Return in H as ([] & ? & [= <-] & H).
      apply bind_Return in H as ([] & s2 & H1 & H).
      apply bind_Return in H as ([] & ? & [= <-] & H).
      eexists _, s2. split; [exact H1 |]. repeat split.
      eexists. split; [exact H |]. split; reflexivity. }
  apply mkdirs_Return in H1 as (Hm & Hc2 & _). rewrite key_render in Hm by assumption.
  rewrite Hf1 in Hm.
  destruct (forEach_mkdir names Hn _ _ _ (folders_single v) H3)
    as (Hc & _ & Hkeep & Hmade & Hframe).
  rewrite Hf3 in *.
  repeat split.
  - congruence.
  - intros k n Hk. apply Hkeep, (mkdirp_keeps _ _ _ _ _ Hm), Hk.
  - intros k Hk. apply Hkeep, (mkdirp_creates _ _ _ _ _ Hm), Hk.
  - exact Hmade.
  - intros k Hk Hne. rewrite Hframe by assumption. apply (mkdirp_frame _ _ _ _ _ Hm), Hk.
Qed.

(** Where the target and its six folders exist, [createFolders] changes no
    file. *)
Lemma createFolders_existing (v : variant) (folder : jsstring) (names : list jsstring)
  (s : state) :
  names_only names ->
  (forall k, In k (chain [] names) -> files s !! k = Some Dir) ->
  (forall f, In f (folders v) -> files s !! (names ++ [f]) = Some Dir) ->
  exists s', createFolders v folder (render names) s = (Return tt, s') /\
             files s' = files s /\ cwd s' = cwd s.
Proof.
  intros Hn Hc Hf.
  assert (Hbase : forall t : state, files t = files s ->
            Fs.mkdirs (render names) t = (Return tt, t)).
  { intros t Ht. apply mkdirs_existing. rewrite key_render, Ht by assumption. exact Hc. }
  assert (Hsub : forall t : state, files t = files s ->
            forEach (folders v)
              (fun f => Fs.mkdirSync_recursive (Path.join_args [render names; f])) t
            = (Return tt, t)).
  { intros t Ht. apply forEach_mkdir_existing; try rewrite Ht; auto using folders_single. }
  destruct v; cbn [createFolders];
    unfold IndexJs.createFolders, Part000.createFolders, Fs.ensureDir.
  - eexists. split.
    + erewrite bind_eq by (apply Hbase; reflexivity).
      erewrite bind_eq by apply log_eq. erewrite bind_eq by apply log_eq.
      apply Hsub. reflexivity.
    + split; reflexivity.
  - eexists. split.
    + erewrite bind_eq by apply log_eq.
      erewrite bind_eq by (apply Hbase; reflexivity).
      erewrite bind_eq by apply log_eq.
      apply Hsub. reflexivity.
    + split; reflexivity.
Qed.

(** ** Writing files *)

Lemma write_Ok (p : jsstring) (k : list jsstring) (c : content)
  (m m' : gmap (list jsstring) node) :
  Files.write p k c m = Ok m' -> m' = <[k := File c]> m.
Proof.
  unfold Files.write. destruct k; [discriminate |].
  destruct (Files.is_dir m _).
  - destruct (m !! _) as [[|]|]; intros [= <-]; reflexivity.
  - destruct (m !! _) as [[|]|]; discriminate.
Qed.

Lemma writeFile_Return (p : jsstring) (c : content) (s s' : state) :
  Fs.writeFile p c s = (Return tt, s') ->
  files s' = <[Files.key (cwd s) p := File c]> (files s) /\
  cwd s' = cwd s /\ out s' = out s.
Proof.
  unfold Fs.writeFile, lift_files.
  destruct (Files.write p _ c (files s)) eqn:E; [| discriminate].
  intros [= <-]. simpl. apply write_Ok in E. auto.
Qed.

Lemma bind_ext {A B} (m : proc A) (k1 k2 : A -> proc B) (s : state) :
  (forall a s1, k1 a s1 = k2 a s1) -> bind m k1 s = bind m k2 s.
Proof. intros H. unfold bind. destruct (m s) as [[a|e|c] s1]; auto. Qed.

Lemma bind_ret_tt (m : proc unit) (s : state) : bind m (fun _ => ret tt) s = m s.
Proof. unfold bind, ret. destruct (m s) as [[[]|e|c] s1]; reflexivity. Qed.

Lemma IndexJs_writeStarterFiles_table (baseDir : jsstring) (s : state) :
  IndexJs.writeStarterFiles baseDir s
  = bind (Console.log (js "📄 Creating starter files..."))
      (fun _ => forEach IndexJs.starterFiles (writeTemplate baseDir)) s.
Proof.
  unfold IndexJs.writeStarterFiles, IndexJs.starterFiles, writeTemplate.
  cbn [forEach fst snd].
  repeat (apply bind_ext; intros).
  symmetry. apply bind_ret_tt.
Qed.

Lemma Part000_writeStarterFiles_table (baseDir : jsstring) (s : state) :
  Part000.writeStarterFiles baseDir s
  = bind (Console.log (js "📄 Creating configuration files..."))
      (fun _ => forEach Part000.starterFiles (writeTemplate baseDir)) s.
Proof.
  unfold Part000.writeStarterFiles, Part000.starterFiles, writeTemplate.
  cbn [forEach fst snd].
  repeat (apply bind_ext; intros).
  symmetry. apply bind_ret_tt.
Qed.

Section Templates.

Variable names : list jsstring.
Hypothesis names_ok : names_only names.

Lemma forEach_writeTemplate (table : list (jsstring * jsstring)) (s s' : state) :
  Forall (fun e => relative_names (fst e) = true) table ->
  NoDup (map (fun e => Path.split (fst e)) table) ->
  forEach table (writeTemplate (render names)) s = (Return tt, s') ->
  cwd s' = cwd s /\ out s' = out s /\
  (forall rel c, In (rel, c) table ->
     files s' !! (names ++ Path.split rel) = Some (File (Text c))) /\
  (forall k, (forall rel c, In (rel, c) table -> k <> names ++ Path.split rel) ->
     files s' !! k = files s !! k).
Proof.
  intros Hrel. revert s.
  induction Hrel as [|[rel c] table Hr _ IH]; intros s Hnd; simpl.
  - unfold ret. intros [= <-]. repeat split; tauto.
  - intros H. apply bind_Return in H as ([] & s1 & H1 & H2).
    apply NoDup_cons in Hnd as [Hnew Hnd].
    unfold writeTemplate in H1. cbn [fst snd] in *.
    apply writeFile_Return in H1 as (Hf & Hc & Ho).
    rewrite key_join_args in Hf by assumption.
    destruct (IH _ Hnd H2) as (Hc' & Ho' & Hin & Hout).
    repeat split; try congruence.
    + intros rel' c' [[= <- <-] | Hin'].
      * rewrite Hout, Hf; [apply lookup_insert_eq |].
        intros rel' c' Hin' E. apply app_inv_head in E.
        apply Hnew. rewrite E. apply list_elem_of_In.
        apply (in_map (fun e => Path.split (fst e)) table (rel', c')), Hin'.
      * apply Hin, Hin'.
    + intros k Hk. rewrite Hout, Hf.
      * apply lookup_insert_ne. intros E. apply (Hk rel c); [tauto | congruence].
      * intros rel' c' Hin'. apply (Hk rel' c'). tauto.
Qed.

End Templates.

(** ** Invariants of a run *)

Lemma keeps_ret {A} (I : state -> Prop) (a : A) : keeps I (ret a).
Proof. intros s r s' H [= <- <-]. exact H. Qed.

Lemma keeps_throw {A} (I : state -> Prop) (e : error) : keeps I (@throw A e).
Proof. intros s r s' H [= <- <-]. exact H. Qed.

Lemma keeps_bind {A B} (I : state -> Prop) (m : proc A) (k : A -> proc B) :
  keeps I m -> (forall a, keeps I (k a)) -> keeps I (bind m k).
Proof.
  intros Hm Hk s r s' HI. unfold bind.
  destruct (m s) as [[a|e|c] s1] eqn:E.
  - apply (Hk a), (Hm _ _ _ HI E).
  - intros [= <- <-]. apply (Hm _ _ _ HI E).
  - intros [= <- <-]. apply (Hm _ _ _ HI E).
Qed.

Lemma keeps_try {A} (I : state -> Prop) (body : proc A) (handler : error -> proc A) :
  keeps I body -> (forall e, keeps I (handler e)) -> keeps I (try_catch body handler).
Proof.
  intros Hb Hh s r s' HI. unfold try_catch.
  destruct (body s) as [[a|e|c] s1] eqn:E.
  - intros [= <- <-]. apply (Hb _ _ _ HI E).
  - apply (Hh e), (Hb _ _ _ HI E).
  - intros [= <- <-]. apply (Hb _ _ _ HI E).
Qed.

Lemma keeps_log (k : list jsstring) (n : node) (msg : jsstring) :
  keeps (holds k n) (Console.log msg).
Proof. intros s r s' H [= <- <-]. exact H. Qed.

Lemma keeps_execSync (w : world) (k : list jsstring) (n : node) (cmd : jsstring) :
  untouched w k -> keeps (holds k n) (execSync w cmd).
Proof.
  intros Hw s r s' H. unfold execSync.
  specialize (Hw cmd (cwd s) (files s)).
  destruct (subprocess w cmd (cwd s) (files s)) as [st m]. simpl in Hw.
  destruct st as [[| |]|]; intros [= <- <-]; unfold holds in *; simpl; congruence.
Qed.

Lemma keeps_chdir (k : list jsstring) (n : node) (p : jsstring) :
  keeps (holds k n) (Process.chdir p).
Proof.
  intros s r s' H. unfold Process.chdir.
  destruct (Files.is_dir _ _); intros [= <- <-]; exact H.
Qed.

Lemma keeps_readFile (k : list jsstring) (n : node) (p : jsstring) :
  keeps (holds k n) (Fs.readFile p).
Proof.
  intros s r s' H. unfold Fs.readFile, lift_files.
  destruct (Files.read _ _ _); intros [= <- <-]; exact H.
Qed.

Lemma keeps_parse (I : state -> Prop) (c : content) : keeps I (JSON_parse c).
Proof. destruct c; [apply keeps_throw | apply keeps_ret]. Qed.

Lemma keeps_assign (I : state -> Prop) (o : json) (key : jsstring) (v : json) :
  keeps I (assign o key v).
Proof. destruct o; (apply keeps_throw || apply keeps_ret). Qed.

Lemma keeps_writeFile (k : list jsstring) (n : node) (names : list jsstring)
  (rel : jsstring) (c : content) :
  names_only names -> relative_names rel = true ->
  k <> names ++ Path.split rel ->
  keeps (holds k n) (Fs.writeFile (Path.join_args [render names; rel]) c).
Proof.
  intros Hn Hrel Hk s r s' H. unfold Fs.writeFile, lift_files.
  destruct (Files.write _ _ _ _) eqn:E; intros [= <- <-]; [| exact H].
  apply write_Ok in E. rewrite key_join_args in E by assumption.
  unfold holds. simpl. rewrite E, lookup_insert_ne by congruence. exact H.
Qed.

Ltac keeps_steps :=
  repeat first
    [ apply keeps_bind; [| intros ?]
    | apply keeps_try; [| intros ?]
    | apply keeps_ret
    | apply keeps_log
    | apply keeps_execSync; assumption
    | apply keeps_chdir
    | apply keeps_readFile
    | apply keeps_parse
    | apply keeps_assign
    | apply keeps_writeFile; [assumption | reflexivity | assumption] ].

Ltac unfold_blocks :=
  unfold IndexJs.initProject, IndexJs.rewriteManifest, IndexJs.installDependencies,
    IndexJs.updatePackages, IndexJs.startServer, IndexJs.setManifestFields,
    Part000.initProject, Part000.rewriteManifest, Part000.installDependencies,
    Part000.updatePackages, Part000.startServer, Part000.setManifestFields,
    Part000.writeReadme.

Section RunKeeps.

Variable w : world.
Variable k : list jsstring.
Variable n : node.
Variable names : list jsstring.

Hypothesis subprocesses : untouched w k.
Hypothesis names_ok : names_only names.
Hypothesis not_manifest : k <> names ++ Path.split (js "package.json").
Hypothesis not_readme : k <> names ++ Path.split (js "README.md").

(** From [npm init] on, a run leaves alone what the subprocesses leave
    alone, the manifest and the README apart. *)
Lemma after_templates_keeps (v : variant) (folder : jsstring) :
  keeps (holds k n) (initProject v w (render names)) /\
  keeps (holds k n) (rewriteManifest v (render names)) /\
  keeps (holds k n) (installDependencies v w) /\
  keeps (holds k n) (updatePackages v w) /\
  keeps (holds k n) (writeReadme v folder (render names)) /\
  keeps (holds k n) (startServer v w folder).
Proof.
  destruct v;
    cbn [initProject rewriteManifest installDependencies updatePackages writeReadme
         startServer];
    unfold_blocks; repeat split; keeps_steps.
Qed.

End RunKeeps.

Lemma startServer_keeps (w : world) (k : list jsstring) (n : node) (v : variant)
  (folder : jsstring) :
  untouched w k -> keeps (holds k n) (startServer v w folder).
Proof. intros Hw. destruct v; cbn [startServer]; unfold_blocks; keeps_steps. Qed.

Lemma by_bool_decide (P : Prop) `{Decision P} : bool_decide P = true -> P.
Proof. apply bool_decide_eq_true_1. Qed.

Lemma generatedFiles_paths (v : variant) (folder : jsstring) :
  Forall (fun e => template_path (fst e)) (generatedFiles v folder).
Proof.
  destruct v; cbn [generatedFiles]; unfold IndexJs.starterFiles, Part000.starterFiles;
    cbn [app]; repeat constructor;
    cbn [fst]; try (apply (by_bool_decide _); vm_compute; reflexivity).
Qed.

Lemma generatedFiles_distinct (v : variant) (folder : jsstring) :
  NoDup (map (fun e => Path.split (fst e)) (generatedFiles v folder)).
Proof.
  destruct v; cbn [generatedFiles]; unfold IndexJs.starterFiles, Part000.starterFiles;
    cbn [app map fst]; apply (by_bool_decide _); vm_compute; reflexivity.
Qed.

Lemma generatedFiles_split (v : variant) (folder : jsstring) :
  generatedFiles v folder
  = starterFiles v ++ match v with
                      | index_js => []
                      | part_000 => [(js "README.md", Part000.README_md folder)]
                      end.
Proof. destruct v; [symmetry; apply app_nil_r | reflexivity]. Qed.

Lemma try_catch_Return {A} (body : proc A) (handler : error -> proc A)
  (s s' : state) (a : A) :
  try_catch body handler s = (Return a, s') ->
  body s = (Return a, s') \/
  exists e s1, body s = (Throw e, s1) /\ handler e s1 = (Return a, s').
Proof.
  unfold try_catch. destruct (body s) as [[a'|e|c] s1]; eauto.
Qed.

(** The blocks a returning run went through, and the states between them. *)
Lemma Return_blocks (v : variant) (w : world) (s' : state) :
  createServerSetup v w (start w) = (Return tt, s') ->
  exists s1 s2 s3 s4 s5 s6 s7,
    createFolders v (userFolder w) (baseDir w) (prompted w) = (Return tt, s1) /\
    writeStarterFiles v (baseDir w) s1 = (Return tt, s2) /\
    initProject v w (baseDir w) s2 = (Return tt, s3) /\
    rewriteManifest v (baseDir w) s3 = (Return tt, s4) /\
    installDependencies v w s4 = (Return tt, s5) /\
    updatePackages v w s5 = (Return tt, s6) /\
    writeReadme v (userFolder w) (baseDir w) s6 = (Return tt, s7) /\
    startServer v w (userFolder w) s7 = (Return tt, s').
Proof.
  destruct v; cbn [createServerSetup createFolders writeStarterFiles initProject
                   rewriteManifest installDependencies updatePackages writeReadme
                   startServer];
    [unfold IndexJs.createServerSetup | unfold Part000.createServerSetup]; intros H.
  - apply bind_Return in H as (folder & s0 & [= <- <-] & H).
    apply bind_Return in H as (here & s0' & [= <- <-] & H).
    cbv zeta in H.
    apply bind_Return in H as ([] & s1 & H1 & H).
    apply bind_Return in H as ([] & s2 & H2 & H).
    apply bind_Return in H as ([] & s3 & H3 & H).
    apply bind_Return in H as ([] & s4 & H4 & H).
    apply bind_Return in H as ([] & s5 & H5 & H).
    apply bind_Return in H as ([] & s6 & H6 & H).
    exists s1, s2, s3, s4, s5, s6, s6. repeat split; assumption.
  - apply try_catch_Return in H as [H | (e & s1 & _ & H)].
    2: { apply bind_Return in H as ([] & ? & _ & H). discriminate H. }
    apply bind_Return in H as (folder & s0 & [= <- <-] & H).
    apply bind_Return in H as (here & s0' & [= <- <-] & H).
    cbv zeta in H.
    apply bind_Return in H as ([] & s1 & H1 & H).
    apply bind_Return in H as ([] & s2 & H2 & H).
    apply bind_Return in H as ([] & s3 & H3 & H).
    apply bind_Return in H as ([] & s4 & H4 & H).
    apply bind_Return in H as ([] & s5 & H5 & H).
    apply bind_Return in H as ([] & s6 & H6 & H).
    apply bind_Return in H as ([] & s7 & H7 & H).
    exists s1, s2, s3, s4, s5, s6, s7. repeat split; assumption.
Qed.

Lemma target_names (w : world) (rel : jsstring) :
  Path.isAbsolute (initial_cwd w) = true -> relative_names rel = true ->
  target w rel = baseNames w ++ Path.split rel.
Proof.
  intros Habs Hrel. unfold target. rewrite baseDir_render by assumption.
  apply key_join_args; [apply baseNames_names | assumption].
Qed.

Lemma writeStarterFiles_table (v : variant) (baseDir : jsstring) (s s' : state) :
  writeStarterFiles v baseDir s = (Return tt, s') ->
  exists s0, files s0 = files s /\ cwd s0 = cwd s /\
    forEach (starterFiles v) (writeTemplate baseDir) s0 = (Return tt, s').
Proof.
  destruct v; cbn [writeStarterFiles starterFiles];
    [rewrite IndexJs_writeStarterFiles_table | rewrite Part000_writeStarterFiles_table];
    intros H; apply bind_Return in H as ([] & s0 & [= <-] & H);
    refine (ex_intro _ _ (conj _ (conj _ H))); reflexivity.
Qed.

Lemma starterFiles_written (v : variant) (w : world) (s s' : state) (rel text : jsstring) :
  Path.isAbsolute (initial_cwd w) = true ->
  writeStarterFiles v (baseDir w) s = (Return tt, s') ->
  In (rel, text) (starterFiles v) ->
  files s' !! (baseNames w ++ Path.split rel) = Some (File (Text text)).
Proof.
  intros Habs H Hin. rewrite baseDir_render in H by assumption.
  apply writeStarterFiles_table in H as (s0 & _ & _ & H).
  pose proof (generatedFiles_paths v []) as Hp.
  pose proof (generatedFiles_distinct v []) as Hd.
  rewrite generatedFiles_split in Hp, Hd.
  apply Forall_app in Hp as [Hp _]. rewrite map_app in Hd. apply NoDup_app in Hd as (Hd & _).
  eapply (forEach_writeTemplate (baseNames w) (baseNames_names w)) in H; [| | exact Hd].
  - destruct H as (_ & _ & H & _). apply H, Hin.
  - eapply Forall_impl; [exact Hp |]. intros e He. apply He.
Qed.

Lemma readme_written (w : world) (s s' : state) :
  Path.isAbsolute (initial_cwd w) = true ->
  Part000.writeReadme (userFolder w) (baseDir w) s = (Return tt, s') ->
  files s' !! (baseNames w ++ Path.split (js "README.md"))
  = Some (File (Text (Part000.README_md (userFolder w)))).
Proof.
  intros Habs H. rewrite baseDir_render in H by assumption.
  apply writeFile_Return in H as (H & _ & _).
  rewrite key_join_args in H by (apply baseNames_names || reflexivity).
  rewrite H. apply lookup_insert_eq.
Qed.


Lemma js_ne_decide (a b : jsstring) : bool_decide (a = b) = false -> a <> b.
Proof. apply bool_decide_eq_false_1. Qed.

(** An equation between closed terms, by evaluation. *)
Ltac by_vm :=
  lazymatch goal with
  | |- @eq ?A ?a ?b => vm_cast_no_check (@eq_refl A a)
  end.

(** A script that returns, with the state it leaves. *)
Lemma Return_snd {A} (x : outcome A * state) (a : A) :
  fst x = Return a -> x = (Return a, snd x).
Proof. destruct x as [r s]. simpl. intros ->. reflexivity. Qed.

(** ** The prompt *)

(** C6.  For every line read at the prompt, [getUserFolder] returns the line
    without its leading and trailing white space when that is not empty, and
    the literal "server" when the line is empty or white space only. *)
Theorem C6_getUserFolder (w : world) (s : state) :
  exists folder s',
    getUserFolder w s = (Return folder, s') /\
    stripped (answer w) (trim (answer w)) /\
    (forall t, stripped (answer w) t -> t <> [] -> folder = t) /\
    (blank (answer w) -> folder = js "server") /\
    (blank (answer w) \/ trim (answer w) <> []).
Proof.
  unfold getUserFolder, rl_question, bind, emit, ret. cbv beta iota.
  eexists _, _. split; [reflexivity |].
  split; [apply trim_stripped |].
  split; [| split].
  - intros t Ht Hne. apply stripped_trim in Ht. subst t.
    destruct (trim (answer w)); [congruence | reflexivity].
  - intros Hb. apply trim_blank in Hb. rewrite Hb. reflexivity.
  - destruct (trim (answer w)) eqn:E; [left; apply trim_blank, E | right; discriminate].
Qed.

Lemma C6_witness :
  exists folder s',
    getUserFolder world_ok (start world_ok) = (Return folder, s') /\
    folder = js "MyApp".
Proof.
  destruct (C6_getUserFolder world_ok (start world_ok)) as (folder & s' & H & Hs & Ht & _).
  exists folder, s'. split; [exact H |].
  apply (Ht (js "MyApp")).
  - assert (E : js "MyApp" = trim (answer world_ok)) by by_vm.
    rewrite E. exact Hs.
  - discriminate.
Defined.

(** ** The manifest *)

Lemma readFile_Return (p : jsstring) (s s' : state) (c : content) :
  Fs.readFile p s = (Return c, s') ->
  files s !! Files.key (cwd s) p = Some (File c) /\ Files.key (cwd s) p <> [] /\
  files s' = files s /\ cwd s' = cwd s /\ out s' = out s.
Proof.
  unfold Fs.readFile, lift_files, Files.read.
  destruct (Files.key (cwd s) p) as [|x k]; [discriminate |].
  destruct (files s !! (x :: k)) as [[|c']|]; try discriminate.
  intros [= <- <-]. repeat split; discriminate || reflexivity.
Qed.

Lemma readFile_lookup (p : jsstring) (s : state) (c : content) :
  files s !! Files.key (cwd s) p = Some (File c) -> Files.key (cwd s) p <> [] ->
  fst (Fs.readFile p s) = Return c.
Proof.
  intros H Hk. unfold Fs.readFile, lift_files, Files.read.
  destruct (Files.key (cwd s) p) as [|x k]; [congruence |]. rewrite H. reflexivity.
Qed.

Lemma parseManifest_lookup (baseDir : jsstring) (s : state) (j : json) :
  files s !! Files.key (cwd s) (Path.join_args [baseDir; js "package.json"])
  = Some (File (JsonText j)) ->
  Files.key (cwd s) (Path.join_args [baseDir; js "package.json"]) <> [] ->
  fst (parseManifest baseDir s) = Return j.
Proof.
  intros H Hk. unfold parseManifest, bind.
  pose proof (readFile_lookup _ _ _ H Hk) as Hr.
  destruct (Fs.readFile _ s) as [r s1]. simpl in Hr. subst r. reflexivity.
Qed.

Lemma JSON_parse_Return (c : content) (j : json) (s s' : state) :
  JSON_parse c s = (Return j, s') -> c = JsonText j /\ s' = s.
Proof. destruct c; [discriminate |]. intros [= <- <-]. auto. Qed.

(** What [rewriteManifest] reads, computes and writes. *)
Lemma rewriteManifest_Return (v : variant) (baseDir : jsstring) (s s' : state) :
  rewriteManifest v baseDir s = (Return tt, s') ->
  exists before after s0,
    fst (parseManifest baseDir s) = Return before /\
    setManifestFields v before s0 = (Return after, s0) /\
    fst (parseManifest baseDir s') = Return (written after).
Proof.
  intros H.
  assert (exists s0 s1 s2 s3 text before after,
    files s0 = files s /\ cwd s0 = cwd s /\
    Fs.readFile (Path.join_args [baseDir; js "package.json"]) s0 = (Return text, s1) /\
    JSON_parse text s1 = (Return before, s2) /\
    setManifestFields v before s2 = (Return after, s3) /\
    Fs.writeFile (Path.join_args [baseDir; js "package.json"]) (JSON_stringify after) s3
    = (Return tt, s'))
    as (s0 & s1 & s2 & s3 & text & before & after & Hf & Hc & Hr & Hp & Hs & Hw).
  { destruct v; cbn [rewriteManifest] in H;
      unfold IndexJs.rewriteManifest, Part000.rewriteManifest in H;
      apply bind_Return in H as ([] & s0 & [= <-] & H); cbv zeta in H;
      apply bind_Return in H as (text & s1 & Hr & H);
      apply bind_Return in H as (before & s2 & Hp & H);
      apply bind_Return in H as (after & s3 & Hs & H);
      refine (ex_intro _ _ (ex_intro _ s1 (ex_intro _ s2 (ex_intro _ s3 (ex_intro _ text
        (ex_intro _ before (ex_intro _ after
          (conj _ (conj _ (conj Hr (conj Hp (conj Hs H)))))))))))); reflexivity. }
  apply JSON_parse_Return in Hp as [-> ->].
  assert (Hs3 : s3 = s1).
  { destruct v; [apply IndexJs_fields_frame in Hs | apply Part000_fields_frame in Hs];
      apply Hs. }
  subst s3.
  apply readFile_Return in Hr as (Hl & Hk & Hf1 & Hc1 & _).
  apply writeFile_Return in Hw as (Hw & Hc' & _).
  exists before, after, s1. repeat split.
  - apply parseManifest_lookup; rewrite <- ?Hf, <- Hc; assumption.
  - exact Hs.
  - apply parseManifest_lookup; rewrite Hc', ?Hw, Hc1.
    + apply lookup_insert_eq.
    + exact Hk.
Qed.

(** A run that returns has rewritten the manifest that [npm init] left. *)
Lemma run_rewrites_manifest (v : variant) (w : world) (s' : state) :
  createServerSetup v w (start w) = (Return tt, s') ->
  rewriteManifest v (baseDir w) (state_before_rewrite v w)
  = (Return tt, state_after_rewrite v w).
Proof.
  intros H. apply Return_blocks in H as (s1 & s2 & s3 & s4 & _ & _ & _ & H1 & H2 & H3 & H4 & _).
  assert (E : state_before_rewrite v w = s3).
  { unfold state_before_rewrite.
    rewrite (bind_eq _ _ _ _ _ H1), (bind_eq _ _ _ _ _ H2), H3. reflexivity. }
  unfold state_after_rewrite. rewrite E, H4. reflexivity.
Qed.

(** ** What is read back from a written value *)

Lemma get_written (k : jsstring) (props : list (jsstring * json)) :
  Json.get k (map (fun '(k, x) => (k, written x)) props)
  = option_map written (Json.get k props).
Proof.
  induction props as [|[k' x] props IH]; [reflexivity |].
  cbn [map Json.get]. destruct (eqb k' k); [reflexivity | exact IH].
Qed.

Lemma member_written (k : jsstring) (j : json) :
  member k (written j) = option_map written (member k j).
Proof.
  destruct j as [| | m e | | |props]; try reflexivity.
  - cbn [written]. destruct (out_of_range m e); reflexivity.
  - apply get_written.
Qed.

(** A value without a number out of range is read back as it was
    written. *)
Lemma written_in_range (j : json) : in_range j = true -> written j = j.
Proof.
  revert j. fix IH 1. intros [| | m e | |items|props]; cbn [in_range written]; try reflexivity.
  - intros H. apply negb_true_iff in H. rewrite H. reflexivity.
  - intros H. f_equal. induction items as [|x items IHi]; [reflexivity |].
    cbn [forallb map] in *. apply andb_prop in H as [Hx H].
    rewrite (IH x Hx), (IHi H). reflexivity.
  - intros H. f_equal. induction props as [|[k x] props IHp]; [reflexivity |].
    cbn [forallb map] in *. apply andb_prop in H as [Hx H].
    rewrite (IH x Hx), (IHp H). reflexivity.
Qed.

(** C3, as the code has it.  Whenever the manifest rewrite returns, in a
    run that goes on to succeed or to fail, every key of the manifest
    other than type, scripts, description, keywords, author, license and
    main is still there: it holds what is read back from its value as
    [JSON.stringify] wrote it.  That is the value itself unless it holds a
    number out of the range of the doubles, which is read as an infinity
    and written back as null. *)
Theorem C3_manifest_other_keys_kept (v : variant) (baseDir : jsstring) (s s' : state) :
  rewriteManifest v baseDir s = (Return tt, s') ->
  exists before after,
    fst (parseManifest baseDir s) = Return before /\
    fst (parseManifest baseDir s') = Return after /\
    forall k, ~ In k rewritten_keys ->
      member k after = option_map written (member k before) /\
      (member k after = None <-> member k before = None) /\
      (forall x, member k before = Some x -> in_range x = true -> member k after = Some x).
Proof.
  intros H.
  apply rewriteManifest_Return in H as (before & after & s0 & Hb & Hs & Ha).
  exists before, (written after). split; [exact Hb |]. split; [exact Ha |].
  intros k Hk.
  assert (E : member k after = member k before).
  { destruct v; [apply IndexJs_fields_frame in Hs | apply Part000_fields_frame in Hs];
      apply Hs, Hk. }
  rewrite member_written, E.
  split; [reflexivity |]. split.
  - destruct (member k before); cbn [option_map]; split; congruence.
  - intros x -> Hx. cbn [option_map]. rewrite (written_in_range x Hx). reflexivity.
Qed.

Lemma setManifestFields_object (v : variant) (props : list (jsstring * json))
  (after : json) (s s' : state) :
  setManifestFields v (JObject props) s = (Return after, s') ->
  member (js "type") after = Some (JString (js "module")) /\
  member (js "scripts") after = Some (scripts v).
Proof.
  destruct v; cbn [setManifestFields scripts];
    unfold IndexJs.setManifestFields, Part000.setManifestFields;
    cbn [assign bind ret]; intros [= <- <-]; cbn [member];
    split;
    repeat first [ apply get_set_same
                 | rewrite get_set_other by (apply js_ne_decide; vm_compute; reflexivity) ].
Qed.

Lemma scripts_written (v : variant) : written (scripts v) = scripts v.
Proof. destruct v; reflexivity. Qed.

(** C2, as the code has it.  In a run that returns, when the manifest that
    [npm init] left is an object, the manifest written back has type
    "module" and the scripts of the variant: start and dev in
    [src/index.js]; start, dev and test in [src/unnamed/part_000]. *)
Theorem C2_manifest_type_and_scripts (v : variant) (w : world) (s' : state)
  (props : list (jsstring * json)) :
  createServerSetup v w (start w) = (Return tt, s') ->
  fst (parseManifest (baseDir w) (state_before_rewrite v w)) = Return (JObject props) ->
  exists after,
    fst (parseManifest (baseDir w) (state_after_rewrite v w)) = Return after /\
    member (js "type") after = Some (JString (js "module")) /\
    member (js "scripts") after = Some (scripts v) /\
    scripts index_js
    = JObject [(js "start", JString (js "node server.js"));
               (js "dev", JString (js "nodemon server.js"))] /\
    scripts part_000
    = JObject [(js "start", JString (js "node server.js"));
               (js "dev", JString (js "nodemon server.js"));
               (js "test", JString (js "echo " ++ dq ++ js "Error: no test specified"
                                    ++ dq ++ js " && exit 1"))].
Proof.
  intros H Hb. apply run_rewrites_manifest in H.
  apply rewriteManifest_Return in H as (before & after & s0 & Hb' & Hs & Ha).
  rewrite Hb in Hb'. injection Hb' as <-.
  exists (written after). split; [exact Ha |].
  destruct (setManifestFields_object _ _ _ _ _ Hs) as [Ht Hsc].
  rewrite !member_written, Ht, Hsc. cbn [option_map]. rewrite scripts_written.
  repeat split; reflexivity.
Qed.

Lemma chain_length (above below k : list jsstring) :
  In k (chain above below) -> (length k <= length above + length below)%nat.
Proof.
  revert above. induction below as [|seg below IH]; intros above; simpl; [tauto |].
  intros [<- | H].
  - rewrite length_app. simpl. lia.
  - apply IH in H. rewrite length_app in H. simpl in H. lia.
Qed.

Lemma mkdirs_idempotent (p : jsstring) (s s' : state) :
  Fs.mkdirs p s = (Return tt, s') -> Fs.mkdirs p s' = (Return tt, s').
Proof.
  intros H. apply mkdirs_Return in H as (Hm & Hc & _).
  apply mkdirs_existing. rewrite Hc. apply (mkdirp_creates _ _ _ _ _ Hm).
Qed.

Lemma mkdirs_existing_dir (p : jsstring) (s : state) :
  consistent (files s) -> Files.is_dir (files s) (Files.key (cwd s) p) = true ->
  Fs.mkdirs p s = (Return tt, s).
Proof. intros Hc Hd. apply mkdirs_existing, consistent_chain; assumption. Qed.

(** C9.  [createFolders] creates the target directory and exactly the six
    folders config, controllers, middlewares, models, routes and utils in
    it; creating a directory that exists succeeds and changes nothing. *)
Theorem C9_folders_created (v : variant) (w : world) (s s' : state) :
  Path.isAbsolute (initial_cwd w) = true ->
  createFolders v (userFolder w) (baseDir w) s = (Return tt, s') ->
  folders v = [js "config"; js "controllers"; js "middlewares"; js "models";
               js "routes"; js "utils"] /\
  Files.is_dir (files s') (baseNames w) = true /\
  (forall f, In f (folders v) -> files s' !! (baseNames w ++ [f]) = Some Dir) /\
  (forall f, files s' !! (baseNames w ++ [f]) <> files s !! (baseNames w ++ [f]) ->
     In f (folders v)) /\
  (exists s'', createFolders v (userFolder w) (baseDir w) s' = (Return tt, s'') /\
               files s'' = files s') /\
  (forall p t t', Fs.ensureDir p t = (Return tt, t') -> Fs.ensureDir p t' = (Return tt, t')) /\
  (forall p t t', Fs.mkdirSync_recursive p t = (Return tt, t') ->
     Fs.mkdirSync_recursive p t' = (Return tt, t')) /\
  (forall p t, consistent (files t) -> Files.is_dir (files t) (Files.key (cwd t) p) = true ->
     Fs.ensureDir p t = (Return tt, t) /\ Fs.mkdirSync_recursive p t = (Return tt, t)).
Proof.
  intros Habs H. rewrite baseDir_render in * by assumption.
  pose proof (baseNames_names w) as Hn.
  destruct (createFolders_spec v _ _ _ _ Hn H) as (Hc & Hkeep & Hchain & Hsub & Hframe).
  split; [destruct v; reflexivity |].
  split; [apply chain_is_dir, Hchain |].
  split; [exact Hsub |].
  split.
  { intros f Hf. destruct (decide (f ∈ folders v)) as [Hyes|Hnot]; [apply list_elem_of_In, Hyes |].
    rewrite list_elem_of_In in Hnot.
    exfalso. apply Hf, Hframe.
    - intros Hin. apply chain_length in Hin. rewrite length_app in Hin. simpl in Hin. lia.
    - intros g Hg E. apply app_inv_head in E. congruence. }
  split.
  { destruct (createFolders_existing v (userFolder w) _ s' Hn Hchain Hsub) as (s'' & E & Hf & _).
    eauto. }
  split; [exact mkdirs_idempotent |].
  split; [exact mkdirs_idempotent |].
  intros p t Ht Hd. split; apply mkdirs_existing_dir; assumption.
Qed.

(** ** The target directory *)

Lemma names_not_absolute (names : list jsstring) :
  names_only names -> Path.isAbsolute (join [Path.slash] names) = false.
Proof.
  intros H. destruct names as [|seg names]; [reflexivity |].
  inversion H as [|? ? Hseg _]; subst.
  destruct seg as [|c seg]; [discriminate Hseg |].
  assert (Hc : (c =? Path.slash) = false).
  { apply is_name_no_slash in Hseg. simpl in Hseg. apply andb_prop in Hseg as [Hc _].
    apply negb_true_iff in Hc. exact Hc. }
  destruct names; simpl; exact Hc.
Qed.

Lemma key_relative_names (cnames fnames : list jsstring) :
  names_only cnames -> names_only fnames -> fnames <> [] ->
  Files.key (render cnames) (join [Path.slash] fnames) = cnames ++ fnames.
Proof.
  intros Hc Hf Hne. unfold Files.key. rewrite names_not_absolute by assumption.
  change (render cnames ++ [Path.slash] ++ join [Path.slash] fnames)
    with (render cnames ++ Path.slash :: join [Path.slash] fnames).
  apply segments_render_names; [assumption | | assumption].
  apply split_join_names; assumption.
Qed.

(** The first two statements of [createServerSetup]: every line typed
    gives a target directory. *)
Lemma target_resolved (w : world) :
  bind (getUserFolder w) (fun userFolder =>
    bind Process.get_cwd (fun here => ret (Path.resolve here [here; userFolder])))
    (start w)
  = (Return (baseDir w), prompted w).
Proof. reflexivity. Qed.

(** C10, as the code has it.  The target directory is the folder name
    resolved against the working directory, for every folder name: nothing
    is validated or rejected.  An absolute folder name gives the same
    target whatever the working directory: the folder name as
    [path.resolve] writes it, a separator before each name, without empty
    names, [.] or [..] and without a separator at the end.  That is the
    folder name letter for letter exactly when the folder name is written
    that way.  A relative folder name of several names separated by slashes
    gives the nested directory of these names below the working
    directory. *)
Theorem C10_target_directory (w : world) :
  Path.isAbsolute (initial_cwd w) = true ->
  bind (getUserFolder w) (fun userFolder =>
    bind Process.get_cwd (fun here => ret (Path.resolve here [here; userFolder])))
    (start w)
  = (Return (baseDir w), prompted w) /\
  baseDir w = render (Files.key (initial_cwd w) (userFolder w)) /\
  (Path.isAbsolute (userFolder w) = true ->
     (forall w', answer w' = answer w -> Path.isAbsolute (initial_cwd w') = true ->
        baseDir w' = baseDir w) /\
     baseDir w = render (Path.segments false (userFolder w)) /\
     names_only (Path.segments false (userFolder w)) /\
     (baseDir w = userFolder w <->
      exists names, names_only names /\ userFolder w = render names)) /\
  (forall cnames fnames,
     names_only cnames -> names_only fnames -> fnames <> [] ->
     initial_cwd w = render cnames -> userFolder w = join [Path.slash] fnames ->
     baseDir w = render (cnames ++ fnames)).
Proof.
  intros Habs. split; [apply target_resolved |].
  pose proof (baseDir_render w Habs) as Hb. unfold baseNames in Hb.
  split; [exact Hb |]. split.
  - intros Hf.
    assert (Hkey : forall c, Files.key c (userFolder w) = Path.segments false (userFolder w))
      by (intros c; unfold Files.key; rewrite Hf; reflexivity).
    split; [| split; [| split]].
    + intros w' Ha Habs'.
      assert (Hu : userFolder w' = userFolder w) by (unfold userFolder; rewrite Ha; reflexivity).
      rewrite Hb, (baseDir_render w' Habs'). unfold baseNames.
      rewrite Hu, !Hkey. reflexivity.
    + rewrite Hb, Hkey. reflexivity.
    + apply segments_names.
    + rewrite Hb, Hkey. split.
      * intros E. exists (Path.segments false (userFolder w)).
        split; [apply segments_names | symmetry; exact E].
      * intros (names & Hn & E). rewrite E at 1. rewrite segments_render by assumption.
        symmetry. exact E.
  - intros cnames fnames Hc Hf Hne Hcwd Hfolder.
    rewrite Hb, Hcwd, Hfolder, key_relative_names by assumption. reflexivity.
Qed.

(** C10 as stated fails: "/srv/app/../api" typed in [/home/dev] is an
    absolute path, and the target directory is [/srv/api], not the line as
    it was typed. *)
Lemma C10_counterexample :
  Path.isAbsolute (initial_cwd world_dotdot) = true /\
  userFolder world_dotdot = js "/srv/app/../api" /\
  Path.isAbsolute (userFolder world_dotdot) = true /\
  fst (bind (getUserFolder world_dotdot) (fun userFolder =>
         bind Process.get_cwd (fun here => ret (Path.resolve here [here; userFolder])))
         (start world_dotdot))
  = Return (js "/srv/api") /\
  js "/srv/api" <> userFolder world_dotdot.
Proof.
  split; [reflexivity |]. split; [vm_compute; reflexivity |]. split; [reflexivity |].
  split; [vm_compute; reflexivity |]. vm_compute. discriminate.
Qed.

(** A separator at the end is dropped as well: "/srv/app/" gives
    [/srv/app]. *)
Lemma trailing_separator_sample :
  Path.isAbsolute (userFolder world_absolute) = true /\
  baseDir world_absolute = js "/srv/app".
Proof. split; [reflexivity | vm_compute; reflexivity]. Qed.

Lemma C10_witness :
  Path.isAbsolute (initial_cwd world_nested) = true /\
  baseDir world_nested = js "/home/dev/apps/api".
Proof.
  split; [reflexivity |].
  destruct (C10_target_directory world_nested eq_refl) as (_ & _ & _ & H).
  rewrite (H [js "home"; js "dev"] [js "apps"; js "api"]).
  - vm_compute. reflexivity.
  - repeat constructor.
  - repeat constructor.
  - discriminate.
  - vm_compute. reflexivity.
  - vm_compute. reflexivity.
Defined.

(** ** Template files after a run *)

Lemma starterFiles_not_readme (v : variant) (rel text : jsstring) :
  In (rel, text) (starterFiles v) -> Path.split rel <> Path.split (js "README.md").
Proof.
  intros Hin.
  destruct v; cbn [starterFiles] in Hin;
    unfold IndexJs.starterFiles, Part000.starterFiles in Hin; simpl In in Hin;
    repeat (destruct Hin as [[= <- <-] | Hin];
            [apply (by_bool_decide _); vm_compute; reflexivity |]);
    destruct Hin.
Qed.

(** After a run that returns, a template file holds the text of its
    template if no subprocess writes at its path. *)
Lemma template_content (v : variant) (w : world) (s' : state) (rel text : jsstring) :
  Path.isAbsolute (initial_cwd w) = true ->
  createServerSetup v w (start w) = (Return tt, s') ->
  In (rel, text) (generatedFiles v (userFolder w)) ->
  untouched w (target w rel) ->
  files s' !! target w rel = Some (File (Text text)).
Proof.
  intros Habs Hrun Hin Hsub.
  pose proof (generatedFiles_paths v (userFolder w)) as Hp.
  rewrite List.Forall_forall in Hp. destruct (Hp _ Hin) as [Hrel Hman]. cbn [fst] in *.
  rewrite target_names in * by assumption.
  apply Return_blocks in Hrun
    as (s1 & s2 & s3 & s4 & s5 & s6 & s7 & H1 & H2 & H3 & H4 & H5 & H6 & H7 & H8).
  rewrite baseDir_render in H3, H4, H7 by assumption.
  pose proof (baseNames_names w) as Hn.
  rewrite generatedFiles_split in Hin. apply in_app_or in Hin as [Hin | Hin].
  - (* written before [npm init] *)
    pose proof (starterFiles_written v w s1 s2 rel text Habs H2 Hin) as Hs2.
    assert (Hne : baseNames w ++ Path.split rel
                  <> baseNames w ++ Path.split (js "package.json")).
    { intros E. apply app_inv_head in E. contradiction. }
    assert (Hreadme : baseNames w ++ Path.split rel
                      <> baseNames w ++ Path.split (js "README.md")).
    { intros E. apply app_inv_head in E. revert E. apply (starterFiles_not_readme v _ _ Hin). }
    destruct (after_templates_keeps w _ (File (Text text)) _ Hsub Hn Hne Hreadme v
                (userFolder w)) as (K3 & K4 & K5 & K6 & K7 & K8).
    apply (K8 _ _ _ (K7 _ _ _ (K6 _ _ _ (K5 _ _ _ (K4 _ _ _ (K3 _ _ _ Hs2 H3) H4) H5) H6)
                       H7) H8).
  - (* the README *)
    destruct v; [destruct Hin |]. destruct Hin as [[= <- <-] | []].
    cbn [writeReadme] in H7. rewrite <- baseDir_render in H7 by assumption.
    apply (startServer_keeps w _ _ part_000 _ Hsub _ _ _) with (2 := H8).
    exact (readme_written w s6 s7 Habs H7).
Qed.

(** C7.  After a run that returns, every template file that existed before
    the run holds exactly the text of its template (no subprocess writing
    at its path): a template write replaces what it finds. *)
Theorem C7_templates_overwrite (v : variant) (w : world) (s' : state)
  (rel text : jsstring) (old : content) :
  Path.isAbsolute (initial_cwd w) = true ->
  createServerSetup v w (start w) = (Return tt, s') ->
  In (rel, text) (generatedFiles v (userFolder w)) ->
  untouched w (target w rel) ->
  initial_files w !! target w rel = Some (File old) ->
  files s' !! target w rel = Some (File (Text text)).
Proof. intros Habs Hrun Hin Hsub _. apply (template_content v); assumption. Qed.

(** The sample package manager writes the manifest only. *)
Lemma sample_npm_untouched (line : jsstring) (bad : option (jsstring * option Z))
  (k : list jsstring) :
  last k <> Some (js "package.json") -> untouched (sample_world line bad) k.
Proof.
  intros Hk cmd c m. cbn [subprocess sample_world]. unfold sample_npm.
  assert (Hkey : Files.key c (js "package.json") <> k).
  { intros <-. apply Hk. unfold Files.key, Path.segments.
    change (Path.isAbsolute (js "package.json")) with false. cbv iota.
    change (c ++ [Path.slash] ++ js "package.json")
      with (c ++ Path.slash :: js "package.json").
    rewrite split_app, fold_left_app.
    change (Path.split (js "package.json")) with [js "package.json"].
    cbn [fold_left]. rewrite (push_name false _ (js "package.json") eq_refl).
    cbn [rev]. apply last_snoc. }
  destruct bad as [[c0 st]|]; [destruct (eqb cmd c0); [reflexivity |] |];
    destruct (eqb cmd npm_init); cbn [snd]; try reflexivity;
    apply lookup_insert_ne; exact Hkey.
Qed.

Lemma C7_witness :
  initial_files world_ok !! target world_ok (js "server.js")
  = Some (File (Text (js "// old server"))) /\
  files (snd (createServerSetup index_js world_ok (start world_ok)))
    !! target world_ok (js "server.js")
  = Some (File (Text IndexJs.server_js)).
Proof.
  split; [by_vm |].
  apply (C7_templates_overwrite index_js world_ok _ (js "server.js") IndexJs.server_js
           (Text (js "// old server"))).
  - by_vm.
  - apply (Return_snd _ tt). by_vm.
  - apply list_elem_of_In, (by_bool_decide _). by_vm.
  - apply sample_npm_untouched, (by_bool_decide _). by_vm.
  - by_vm.
Defined.

(** What the manifest rewrite writes depends on the manifest it reads
    only. *)
Lemma setManifestFields_state (v : variant) (j after : json) (s s' t : state) :
  setManifestFields v j s = (Return after, s') ->
  setManifestFields v j t = (Return after, t).
Proof.
  destruct v, j; cbn [setManifestFields];
    unfold IndexJs.setManifestFields, Part000.setManifestFields;
    cbn [assign bind ret throw]; intros [= <- <-]; reflexivity.
Qed.

(** C8.  The folder name reaches the content of no generated file but
    README.md: for any two runs that return, every other template file has
    the same content in both, the content the table gives it for any folder
    name; and what the manifest rewrite writes is determined by the
    manifest it reads. *)
Theorem C8_folder_name_only_in_readme (v : variant) (w1 w2 : world) (s1 s2 : state)
  (rel text : jsstring) :
  Path.isAbsolute (initial_cwd w1) = true ->
  Path.isAbsolute (initial_cwd w2) = true ->
  createServerSetup v w1 (start w1) = (Return tt, s1) ->
  createServerSetup v w2 (start w2) = (Return tt, s2) ->
  In (rel, text) (generatedFiles v (userFolder w1)) ->
  rel <> js "README.md" ->
  untouched w1 (target w1 rel) ->
  untouched w2 (target w2 rel) ->
  (forall folder, In (rel, text) (generatedFiles v folder)) /\
  files s1 !! target w1 rel = Some (File (Text text)) /\
  files s2 !! target w2 rel = Some (File (Text text)) /\
  (forall b1 b2 t1 t1' t2 t2',
     rewriteManifest v b1 t1 = (Return tt, t1') ->
     rewriteManifest v b2 t2 = (Return tt, t2') ->
     fst (parseManifest b1 t1) = fst (parseManifest b2 t2) ->
     fst (parseManifest b1 t1') = fst (parseManifest b2 t2')).
Proof.
  intros Habs1 Habs2 Hrun1 Hrun2 Hin Hrel Hsub1 Hsub2.
  assert (Hall : forall folder, In (rel, text) (generatedFiles v folder)).
  { intros folder. rewrite generatedFiles_split in *. apply in_app_iff.
    apply in_app_or in Hin as [Hin | Hin]; [left; exact Hin |].
    destruct v; [destruct Hin |]. destruct Hin as [[= <- _] | []]. congruence. }
  split; [exact Hall |].
  split; [apply (template_content v); assumption |].
  split; [apply (template_content v); auto |].
  intros b1 b2 t1 t1' t2 t2' H1 H2 E.
  apply rewriteManifest_Return in H1 as (j1 & a1 & u1 & Hb1 & Hf1 & Ha1).
  apply rewriteManifest_Return in H2 as (j2 & a2 & u2 & Hb2 & Hf2 & Ha2).
  rewrite Hb1, Hb2 in E. injection E as ->.
  apply (setManifestFields_state v j2 a1 u1 u1 u2) in Hf1.
  rewrite Hf1 in Hf2. injection Hf2 as ->. congruence.
Qed.

Lemma C8_witness :
  files (snd (createServerSetup part_000 world_ok (start world_ok)))
    !! target world_ok (js "config/db.js")
  = files (snd (createServerSetup part_000 world_nested (start world_nested)))
      !! target world_nested (js "config/db.js").
Proof.
  refine (match C8_folder_name_only_in_readme part_000 world_ok world_nested
              (snd (createServerSetup part_000 world_ok (start world_ok)))
              (snd (createServerSetup part_000 world_nested (start world_nested)))
              (js "config/db.js") Part000.config_db_js _ _ _ _ _ _ _ _
          with
          | conj _ (conj H1 (conj H2 _)) => eq_trans H1 (eq_sym H2)
          end).
  - by_vm.
  - by_vm.
  - apply (Return_snd _ tt). by_vm.
  - apply (Return_snd _ tt). by_vm.
  - apply list_elem_of_In, (by_bool_decide _). by_vm.
  - apply js_ne_decide. by_vm.
  - apply sample_npm_untouched, (by_bool_decide _). by_vm.
  - apply sample_npm_untouched, (by_bool_decide _). by_vm.
Defined.

(** ** What a run prints and starts *)

Lemma emits_ret {A} (a : A) T Q : Q (Return a) T -> emits (ret a) T Q.
Proof. intros H s <-. exact H. Qed.

Lemma emits_throw {A} (e : error) T (Q : outcome A -> list event -> Prop) :
  Q (Throw e) T -> emits (throw e) T Q.
Proof. intros H s <-. exact H. Qed.

Lemma emits_exit {A} (code : Z) T (Q : outcome A -> list event -> Prop) :
  Q (Exit code) T -> emits (Process.exit code) T Q.
Proof. intros H s <-. exact H. Qed.

Lemma emits_bind {A B} (m : proc A) (k : A -> proc B) T Q :
  emits m T (fun r T1 =>
    match r with
    | Return a => emits (k a) T1 Q
    | Throw e => Q (Throw e) T1
    | Exit c => Q (Exit c) T1
    end) ->
  emits (bind m k) T Q.
Proof.
  intros H s Hs. specialize (H s Hs). unfold bind.
  destruct (m s) as [[a|e|c] s1]; simpl in *; auto.
Qed.

Lemma emits_try {A} (body : proc A) (handler : error -> proc A) T Q :
  emits body T (fun r T1 =>
    match r with
    | Return a => Q (Return a) T1
    | Throw e => emits (handler e) T1 Q
    | Exit c => Q (Exit c) T1
    end) ->
  emits (try_catch body handler) T Q.
Proof.
  intros H s Hs. specialize (H s Hs). unfold try_catch.
  destruct (body s) as [[a|e|c] s1]; simpl in *; auto.
Qed.

Lemma emits_log (msg : jsstring) T Q :
  Q (Return tt) (T ++ [ConsoleLog msg]) -> emits (Console.log msg) T Q.
Proof. intros H s <-. exact H. Qed.

Lemma emits_error (args : list printed) T Q :
  Q (Return tt) (T ++ [ConsoleError args]) -> emits (Console.error args) T Q.
Proof. intros H s <-. exact H. Qed.

Lemma emits_question (w : world) (prompt : jsstring) T Q :
  Q (Return (answer w)) (T ++ [Question prompt]) -> emits (rl_question w prompt) T Q.
Proof. intros H s <-. exact H. Qed.

Lemma emits_get_cwd T (Q : outcome jsstring -> list event -> Prop) :
  (forall here, Q (Return here) T) -> emits Process.get_cwd T Q.
Proof. intros H s <-. apply H. Qed.

(** A file-system call prints nothing: it returns or throws. *)
Lemma emits_lift_files {A} (f : state -> result (A * gmap (list jsstring) node)) T Q :
  (forall a, Q (Return a) T) -> (forall e, Q (Throw e) T) -> emits (lift_files f) T Q.
Proof.
  intros Hr Ht s <-. unfold lift_files. destruct (f s) as [[a m]|e]; simpl; auto.
Qed.

Lemma emits_chdir (p : jsstring) T Q :
  Q (Return tt) T -> (forall e, Q (Throw e) T) -> emits (Process.chdir p) T Q.
Proof.
  intros Hr Ht s <-. unfold Process.chdir. destruct (Files.is_dir _ _); simpl; auto.
Qed.

Lemma emits_parse (c : content) T Q :
  (forall j, Q (Return j) T) -> (forall e, Q (Throw e) T) -> emits (JSON_parse c) T Q.
Proof. intros Hr Ht. destruct c; [apply emits_throw | apply emits_ret]; auto. Qed.

Lemma emits_assign (o : json) (k : jsstring) (v : json) T Q :
  (forall j, Q (Return j) T) -> (forall e, Q (Throw e) T) -> emits (assign o k v) T Q.
Proof. intros Hr Ht. destruct o; (apply emits_throw || apply emits_ret); auto. Qed.

(** A subprocess is recorded with its status; [execSync] returns when the
    status is 0 and throws otherwise. *)
Lemma emits_execSync (w : world) (cmd : jsstring) T Q :
  Q (Return tt) (T ++ [ExecSync cmd (Some 0%Z)]) ->
  (forall st, succeeded st = false ->
     Q (Throw (CommandFailed cmd st)) (T ++ [ExecSync cmd st])) ->
  emits (execSync w cmd) T Q.
Proof.
  intros Hr Ht s <-. unfold execSync.
  destruct (subprocess w cmd (cwd s) (files s)) as [[[| |]|] m]; simpl;
    (exact Hr || (apply Ht; reflexivity)).
Qed.

(** A run, from the trace of its script. *)
Lemma emits_run (v : variant) (w : world) (P : Z -> list event -> Prop) :
  emits (createServerSetup v w) [] (fun r T => P (settled_code r) (settled_trace r T)) ->
  P (exit_code v w) (trace v w).
Proof.
  intros H. specialize (H (start w) eq_refl). unfold exit_code, trace.
  assert (E : run v w = settle (createServerSetup v w (start w))) by (destruct v; reflexivity).
  rewrite E. destruct (createServerSetup v w (start w)) as [[[]|e|c] s]; exact H.
Qed.

Ltac emits_step :=
  lazymatch goal with
  | |- emits (bind _ _) _ _ => apply emits_bind
  | |- emits (try_catch _ _) _ _ => apply emits_try
  | |- emits (ret _) _ _ => apply emits_ret
  | |- emits (throw _) _ _ => apply emits_throw
  | |- emits (Process.exit _) _ _ => apply emits_exit
  | |- emits (Console.log _) _ _ => apply emits_log
  | |- emits (Console.error _) _ _ => apply emits_error
  | |- emits (rl_question _ _) _ _ => apply emits_question
  | |- emits Process.get_cwd _ _ => apply emits_get_cwd; intros ?
  | |- emits (Process.chdir _) _ _ => apply emits_chdir; [| intros ?]
  | |- emits (Fs.ensureDir _) _ _ => apply emits_lift_files; [intros [] | intros ?]
  | |- emits (Fs.mkdirSync_recursive _) _ _ => apply emits_lift_files; [intros [] | intros ?]
  | |- emits (Fs.writeFile _ _) _ _ => apply emits_lift_files; [intros [] | intros ?]
  | |- emits (Fs.readFile _) _ _ => apply emits_lift_files; [intros ? | intros ?]
  | |- emits (JSON_parse _) _ _ => apply emits_parse; [intros ? | intros ?]
  | |- emits (assign _ _ _) _ _ => apply emits_assign; [intros ? | intros ?]
  | |- emits (execSync _ _) _ _ => apply emits_execSync; [| intros [[| |]|] ?; [discriminate | | |]]
  | |- emits (forEach (_ :: _) _) _ _ => cbn [forEach]
  | |- emits (forEach [] _) _ _ => cbn [forEach]
  | |- emits (getUserFolder _) _ _ => unfold getUserFolder
  end; cbv beta iota.

Ltac unfold_scripts :=
  cbn [createServerSetup];
  unfold IndexJs.createServerSetup, Part000.createServerSetup,
    IndexJs.createFolders, Part000.createFolders,
    IndexJs.writeStarterFiles, Part000.writeStarterFiles,
    IndexJs.initProject, Part000.initProject,
    IndexJs.rewriteManifest, Part000.rewriteManifest,
    IndexJs.setManifestFields, Part000.setManifestFields,
    IndexJs.installDependencies, Part000.installDependencies,
    IndexJs.updatePackages, Part000.updatePackages,
    Part000.writeReadme,
    IndexJs.startServer, Part000.startServer,
    IndexJs.folders, Part000.folders.

Ltac leaf := cbn [settled_code settled_trace]; vm_compute; intuition congruence.

(** A failed installation ends the run: neither the update nor the launch
    is started.  [src/unnamed/part_000] exits with code 1; [src/index.js]
    prints the error and exits with code 0. *)
Lemma install_failure_stops (v : variant) (w : world) :
  failed (npm_install_runtime v) (trace v w) || failed (npm_install_dev v) (trace v w)
  = true ->
  attempted npm_check_updates (trace v w) = false /\
  attempted npm_run_dev (trace v w) = false /\
  error_reported (trace v w) = true /\
  exit_code v w = match v with index_js => 0%Z | part_000 => 1%Z end.
Proof.
  apply (emits_run v w (fun code T =>
    failed (npm_install_runtime v) T || failed (npm_install_dev v) T = true ->
    attempted npm_check_updates T = false /\ attempted npm_run_dev T = false /\
    error_reported T = true /\
    code = match v with index_js => 0%Z | part_000 => 1%Z end)).
  destruct v; unfold_scripts; repeat emits_step; leaf.
Qed.

(** A message among the logs of a trace: both are evaluated, then compared. *)
Ltac find_log := vm_compute; repeat first [left; reflexivity | right].

(** A failed launch in [src/unnamed/part_000] is caught: the instructions
    are printed and the exit code is 0. *)
Lemma launch_failure_part_000 (w : world) :
  failed npm_run_dev (trace part_000 w) = true ->
  Forall (fun line => In line (logs (trace part_000 w)))
    (restart_instructions part_000 (userFolder w)) /\
  error_reported (trace part_000 w) = false /\
  exit_code part_000 w = 0%Z.
Proof.
  apply (emits_run part_000 w (fun code T =>
    failed npm_run_dev T = true ->
    Forall (fun line => In line (logs T)) (restart_instructions part_000 (userFolder w)) /\
    error_reported T = false /\ code = 0%Z)).
  unfold_scripts; repeat emits_step;
    cbn [settled_code settled_trace]; intros Hf; vm_compute in Hf; try discriminate Hf.
  all: split; [| split; vm_compute; reflexivity].
  all: unfold restart_instructions, userFolder;
    generalize (or_else (trim (answer w)) (js "server")); intros folder;
    repeat (apply List.Forall_cons; [find_log |]); apply List.Forall_nil.
Qed.

(** A failed launch in [src/index.js] is not caught in the script: the
    lines after it are not run, the rejection is printed, the exit code
    is 0. *)
Lemma launch_failure_index_js (w : world) :
  failed npm_run_dev (trace index_js w) = true ->
  forallb (fun line => negb (logged line (trace index_js w)))
    (restart_instructions index_js (userFolder w)) = true /\
  error_reported (trace index_js w) = true /\
  exit_code index_js w = 0%Z.
Proof.
  apply (emits_run index_js w (fun code T =>
    failed npm_run_dev T = true ->
    forallb (fun line => negb (logged line T))
      (restart_instructions index_js (userFolder w)) = true /\
    error_reported T = true /\ code = 0%Z)).
  unfold_scripts; repeat emits_step;
    cbn [settled_code settled_trace]; intros Hf; vm_compute in Hf; try discriminate Hf.
  all: vm_compute; auto.
Qed.

(** ** The optional update *)






(** ** Failing inputs *)

(** C1 at a failing input.  The runtime dependencies fail to install (exit
    status 1): [src/index.js] starts neither the update nor the launch and
    prints the error, but its exit code is 0; [src/unnamed/part_000] exits
    with code 1. *)
Theorem C1_index_js_install_failure_exit_code :
  failed (npm_install_runtime index_js) (trace index_js (world_install_fails index_js)) = true /\
  attempted npm_check_updates (trace index_js (world_install_fails index_js)) = false /\
  attempted npm_run_dev (trace index_js (world_install_fails index_js)) = false /\
  exit_code index_js (world_install_fails index_js) = 0%Z /\
  exit_code part_000 (world_install_fails part_000) = 1%Z.
Proof. repeat split; by_vm. Qed.

(** C4 at a failing input.  The operator interrupts the server: in
    [src/index.js] the error leaves [createServerSetup], none of the
    instructions of lines 194-197 is printed, the error is printed and the
    exit code is 0; [src/unnamed/part_000] prints its instructions. *)
Theorem C4_index_js_launch_failure_no_instructions :
  failed npm_run_dev (trace index_js world_launch_interrupted) = true /\
  forallb (fun line => negb (logged line (trace index_js world_launch_interrupted)))
    (restart_instructions index_js (userFolder world_launch_interrupted)) = true /\
  error_reported (trace index_js world_launch_interrupted) = true /\
  exit_code index_js world_launch_interrupted = 0%Z /\
  forallb (fun line => logged line (trace part_000 world_launch_interrupted))
    (restart_instructions part_000 (userFolder world_launch_interrupted)) = true /\
  error_reported (trace part_000 world_launch_interrupted) = false.
Proof. repeat split; by_vm. Qed.

(** ** Witnesses and counterexamples *)

(** C2 as stated fails on [src/unnamed/part_000]: the run on "MyApp "
    returns and the scripts of the manifest written back are start, dev
    and test. *)
Lemma C2_counterexample :
  fst (createServerSetup part_000 world_ok (start world_ok)) = Return tt /\
  exists after,
    fst (parseManifest (baseDir world_ok) (state_after_rewrite part_000 world_ok))
    = Return after /\
    member (js "scripts") after
    <> Some (JObject [(js "start", JString (js "node server.js"));
                      (js "dev", JString (js "nodemon server.js"))]).
Proof.
  split; [by_vm |].
  assert (H : fst (createServerSetup part_000 world_ok (start world_ok)) = Return tt) by by_vm.
  assert (Hb : fst (parseManifest (baseDir world_ok) (state_before_rewrite part_000 world_ok))
               = Return sample_manifest) by by_vm.
  destruct (rewriteManifest_Return part_000 _ _ _
              (run_rewrites_manifest part_000 world_ok _ (Return_snd _ _ H)))
    as (before & after & s0 & Hb' & Hs & Ha).
  rewrite Hb in Hb'. injection Hb' as <-.
  exists (written after). split; [exact Ha |].
  destruct (setManifestFields_object _ _ _ _ _ Hs) as [_ Hsc].
  rewrite member_written, Hsc. cbn [option_map]. rewrite scripts_written.
  intros E. injection E as E.
  apply (f_equal (@length _)) in E. discriminate E.
Qed.

Lemma C2_witness :
  fst (createServerSetup index_js world_ok (start world_ok)) = Return tt /\
  fst (parseManifest (baseDir world_ok) (state_before_rewrite index_js world_ok))
  = Return sample_manifest /\
  exists after,
    fst (parseManifest (baseDir world_ok) (state_after_rewrite index_js world_ok))
    = Return after /\
    member (js "type") after = Some (JString (js "module")) /\
    member (js "scripts") after = Some (scripts index_js).
Proof.
  assert (H : fst (createServerSetup index_js world_ok (start world_ok)) = Return tt) by by_vm.
  assert (Hb : fst (parseManifest (baseDir world_ok) (state_before_rewrite index_js world_ok))
               = Return sample_manifest) by by_vm.
  destruct (C2_manifest_type_and_scripts index_js world_ok _ _ (Return_snd _ _ H) Hb)
    as (after & Ha & Ht & Hs & _).
  exact (conj H (conj Hb (ex_intro _ after (conj Ha (conj Ht Hs))))).
Defined.

(** C3 as stated fails: the initializer leaves a manifest whose
    [maxBodySize] is 1e999, which is not among the keys that are set; the
    run returns, and the manifest written back has [null] there. *)
Lemma C3_counterexample :
  fst (createServerSetup index_js world_huge (start world_huge)) = Return tt /\
  ~ In (js "maxBodySize") rewritten_keys /\
  fst (parseManifest (baseDir world_huge) (state_before_rewrite index_js world_huge))
  = Return huge_manifest /\
  member (js "maxBodySize") huge_manifest = Some (JNumber 1 999) /\
  exists after,
    fst (parseManifest (baseDir world_huge) (state_after_rewrite index_js world_huge))
    = Return after /\
    member (js "maxBodySize") after = Some JNull.
Proof.
  split; [by_vm |]. split; [apply (by_bool_decide _); by_vm |].
  split; [by_vm |]. split; [reflexivity |].
  assert (H : fst (rewriteManifest index_js (baseDir world_huge)
                     (state_before_rewrite index_js world_huge)) = Return tt) by by_vm.
  assert (Hb : fst (parseManifest (baseDir world_huge)
                      (state_before_rewrite index_js world_huge))
               = Return huge_manifest) by by_vm.
  destruct (rewriteManifest_Return index_js _ _ _ (Return_snd _ _ H))
    as (before & after & s0 & Hb' & Hs & Ha).
  rewrite Hb in Hb'. injection Hb' as <-.
  exists (written after). split; [exact Ha |].
  rewrite member_written.
  injection Hs as <-. reflexivity.
Qed.

(** The rewrite of a run that fails later, at the installation. *)
Lemma C3_witness :
  fst (createServerSetup index_js (world_install_fails index_js)
         (start (world_install_fails index_js)))
  = Throw (CommandFailed (npm_install_runtime index_js) (Some 1%Z)) /\
  exists before after,
    fst (parseManifest (baseDir (world_install_fails index_js))
           (state_before_rewrite index_js (world_install_fails index_js)))
    = Return before /\
    fst (parseManifest (baseDir (world_install_fails index_js))
           (state_after_rewrite index_js (world_install_fails index_js)))
    = Return after /\
    member (js "name") before = Some (JString (js "myapp")) /\
    member (js "name") after = Some (JString (js "myapp")).
Proof.
  split; [by_vm |].
  assert (H : fst (rewriteManifest index_js (baseDir (world_install_fails index_js))
                     (state_before_rewrite index_js (world_install_fails index_js)))
              = Return tt) by by_vm.
  assert (E : fst (parseManifest (baseDir (world_install_fails index_js))
                     (state_before_rewrite index_js (world_install_fails index_js)))
              = Return sample_manifest) by by_vm.
  destruct (C3_manifest_other_keys_kept index_js _ _ _ (Return_snd _ _ H))
    as (before & after & Hb & Ha & Hk).
  assert (Hname : ~ In (js "name") rewritten_keys) by (apply (by_bool_decide _); by_vm).
  assert (Hbefore : member (js "name") before = Some (JString (js "myapp"))).
  { rewrite E in Hb. injection Hb as <-. by_vm. }
  destruct (Hk _ Hname) as (_ & _ & Hsame).
  exact (ex_intro _ before (ex_intro _ after
           (conj Hb (conj Ha (conj Hbefore (Hsame _ Hbefore eq_refl)))))).
Defined.

Lemma C9_witness :
  exists s',
    createFolders index_js (userFolder world_ok) (baseDir world_ok) (prompted world_ok)
    = (Return tt, s') /\
    files s' !! (baseNames world_ok ++ [js "routes"]) = Some Dir.
Proof.
  assert (H0 : fst (createFolders index_js (userFolder world_ok) (baseDir world_ok)
                      (prompted world_ok)) = Return tt) by by_vm.
  assert (Habs : Path.isAbsolute (initial_cwd world_ok) = true) by by_vm.
  destruct (C9_folders_created index_js world_ok _ _ Habs (Return_snd _ _ H0))
    as (_ & _ & Hsub & _).
  assert (Hin : In (js "routes") (folders index_js))
    by (apply list_elem_of_In, (by_bool_decide _); by_vm).
  exact (ex_intro _ _ (conj (Return_snd _ _ H0) (Hsub _ Hin))).
Defined.

(** ** Exit codes and reports *)

(** The outcome and the trace of the script, from its trace predicate. *)
Lemma emits_start (v : variant) (w : world) (Q : outcome unit -> list event -> Prop) :
  emits (createServerSetup v w) [] Q ->
  Q (fst (createServerSetup v w (start w))) (out (snd (createServerSetup v w (start w)))).
Proof. intros H. apply (H (start w)). reflexivity. Qed.

Lemma run_settle (v : variant) (w : world) :
  run v w = settle (createServerSetup v w (start w)).
Proof. destruct v; reflexivity. Qed.

Ltac errors_leaf :=
  first
    [ left; split; [reflexivity | vm_compute; reflexivity]
    | right; eexists; split; [reflexivity | vm_compute; reflexivity] ].

(** X1.  [src/index.js] never calls [process.exit]: every run ends with
    exit code 0.  When the script returns, nothing was printed with
    [console.error]; when it throws, the error object is printed once, as
    the last thing the run prints. *)
Theorem X1_index_js_exit_code_always_zero (w : world) :
  exit_code index_js w = 0%Z /\
  ((fst (createServerSetup index_js w (start w)) = Return tt /\
    errors (trace index_js w) = []) \/
   (exists e T,
      fst (createServerSetup index_js w (start w)) = Throw e /\
      trace index_js w = T ++ [rejection_report e] /\ errors T = [])).
Proof.
  assert (H : emits (createServerSetup index_js w) []
                (fun r T => (r = Return tt /\ errors T = []) \/
                            (exists e, r = Throw e /\ errors T = []))).
  { unfold_scripts; repeat emits_step; errors_leaf. }
  apply emits_start in H. unfold exit_code, trace. rewrite run_settle.
  destruct (createServerSetup index_js w (start w)) as [r s]. cbn [fst snd] in H.
  destruct H as [[-> He] | (e & -> & He)]; cbn [settle fst snd out].
  - split; [reflexivity |]. left. split; [reflexivity | exact He].
  - split; [reflexivity |]. right. exists e, (out s). repeat split. exact He.
Qed.


(** ** The subprocesses of a run *)

Lemma prefix_by_decide (l1 l2 : list jsstring) :
  bool_decide (l1 `prefix_of` l2) = true -> l1 `prefix_of` l2.
Proof. apply bool_decide_eq_true_1. Qed.

(** X3.  A run starts its subprocesses in the order of the script and
    starts nothing else: the command lines started are an initial part of
    npm init, the two installs, npm-check-updates, npm install, npm run
    dev.  When npm-check-updates fails, the reinstall of the same [try]
    block is skipped and the launch, if reached, follows at once. *)
Theorem X3_commands_in_script_order (v : variant) (w : world) :
  (failed npm_check_updates (trace v w) = false ->
   commands_started (trace v w) `prefix_of` commands v) /\
  (failed npm_check_updates (trace v w) = true ->
   attempted npm_install (trace v w) = false /\
   commands_started (trace v w) `prefix_of` commands_without_reinstall v).
Proof.
  apply (emits_run v w (fun _ T =>
    (failed npm_check_updates T = false -> commands_started T `prefix_of` commands v) /\
    (failed npm_check_updates T = true ->
     attempted npm_install T = false /\
     commands_started T `prefix_of` commands_without_reinstall v))).
  destruct v; unfold_scripts; repeat emits_step; cbn [settled_code settled_trace];
    (split; intros Hf; vm_compute in Hf; try discriminate Hf;
     repeat split; try (apply prefix_by_decide); vm_compute; reflexivity).
Qed.

(** X4.  When [npm init -y] fails, the run stops there: no other
    subprocess is started, the manifest rewrite is not announced, the error
    is reported, and the exit code is 1 in [src/unnamed/part_000] and 0 in
    [src/index.js]. *)
Theorem X4_init_failure_stops (v : variant) (w : world) :
  failed npm_init (trace v w) = true ->
  commands_started (trace v w) = [npm_init] /\
  logged (rewrite_message v) (trace v w) = false /\
  error_reported (trace v w) = true /\
  exit_code v w = match v with index_js => 0%Z | part_000 => 1%Z end.
Proof.
  apply (emits_run v w (fun code T =>
    failed npm_init T = true ->
    commands_started T = [npm_init] /\ logged (rewrite_message v) T = false /\
    error_reported T = true /\
    code = match v with index_js => 0%Z | part_000 => 1%Z end)).
  destruct v; unfold_scripts; repeat emits_step; cbn [settled_code settled_trace];
    intros Hf; vm_compute in Hf; try discriminate Hf;
    repeat split; vm_compute; reflexivity.
Qed.

(** ** The prompt *)

(** X5.  The operator is asked once, before the run prints or starts
    anything else. *)
Theorem X5_prompt_once_and_first (v : variant) (w : world) :
  head (trace v w) = Some (Question prompt) /\ questions (trace v w) = [prompt].
Proof.
  apply (emits_run v w (fun _ T =>
    head T = Some (Question prompt) /\ questions T = [prompt])).
  destruct v; unfold_scripts; repeat emits_step; cbn [settled_code settled_trace];
    split; vm_compute; reflexivity.
Qed.

(** ** The announcement of success *)


(** ** Sample runs *)

Lemma X3_witness :
  failed npm_check_updates (trace index_js world_update_fails) = true /\
  attempted npm_install (trace index_js world_update_fails) = false /\
  commands_started (trace index_js world_update_fails)
    `prefix_of` commands_without_reinstall index_js.
Proof.
  assert (Hf : failed npm_check_updates (trace index_js world_update_fails) = true) by by_vm.
  destruct (X3_commands_in_script_order index_js world_update_fails) as [_ H].
  exact (conj Hf (H Hf)).
Defined.

Lemma X4_witness :
  failed npm_init (trace part_000 world_init_fails) = true /\
  commands_started (trace part_000 world_init_fails) = [npm_init] /\
  exit_code part_000 world_init_fails = 1%Z.
Proof.
  assert (Hf : failed npm_init (trace part_000 world_init_fails) = true) by by_vm.
  destruct (X4_init_failure_stops part_000 world_init_fails Hf) as (H1 & _ & _ & H4).
  exact (conj Hf (conj H1 H4)).
Defined.


(** ** Messages about failures *)

(** X16.  The messages about tolerated failures are printed exactly when
    the failure happened.  In both scripts the warning of the update step
    is printed exactly in the runs in which [npm-check-updates] or the
    [npm install] that follows it failed.  In [src/unnamed/part_000] the
    line that says the development server stopped is printed exactly in
    the runs in which [npm run dev] failed. *)
Theorem X16_failure_messages_exact (v : variant) (w : world) :
  logged update_warning (trace v w)
  = failed npm_check_updates (trace v w) || failed npm_install (trace v w) /\
  logged stopped_message (trace part_000 w) = failed npm_run_dev (trace part_000 w).
Proof.
  split.
  - apply (emits_run v w (fun _ T =>
      logged update_warning T = failed npm_check_updates T || failed npm_install T)).
    destruct v; unfold_scripts; repeat emits_step; cbn [settled_code settled_trace];
      vm_compute; reflexivity.
  - apply (emits_run part_000 w (fun _ T =>
      logged stopped_message T = failed npm_run_dev T)).
    unfold_scripts; repeat emits_step; cbn [settled_code settled_trace];
      vm_compute; reflexivity.
Qed.

(** ** The script, from the prompt on *)

Lemma createServerSetup_body (v : variant) (w : world) :
  createServerSetup v w (start w)
  = guarded v (body v w (userFolder w) (baseDir w)) (prompted w).
Proof. destruct v; reflexivity. Qed.

(** ** Invariants of a whole run *)

Lemma keeps_emit (I : state -> Prop) (e : event) : silent I -> keeps I (emit e).
Proof. intros H s r s' Hs [= <- <-]. apply H, Hs. Qed.

Lemma keeps_exit {A} (I : state -> Prop) (code : Z) : keeps I (@Process.exit A code).
Proof. intros s r s' H [= <- <-]. exact H. Qed.

Lemma keeps_guarded (v : variant) (I : state -> Prop) (m : proc unit) :
  silent I -> keeps I m -> keeps I (guarded v m).
Proof.
  intros Hs Hm. destruct v; cbn [guarded]; [exact Hm |].
  apply keeps_try; [exact Hm |]. intros e.
  apply keeps_bind; [apply keeps_emit, Hs | intros _; apply keeps_exit].
Qed.

Lemma keeps_forEach {A} (I : state -> Prop) (l : list A) (f : A -> proc unit) :
  (forall x, In x l -> keeps I (f x)) -> keeps I (forEach l f).
Proof.
  induction l as [|x l IH]; intros H; cbn [forEach]; [apply keeps_ret |].
  apply keeps_bind; [apply H; left; reflexivity |].
  intros _. apply IH. intros y Hy. apply H. right. exact Hy.
Qed.

(** What every block of the script keeps, the whole run keeps. *)
Lemma run_keeps (v : variant) (w : world) (I : state -> Prop) :
  silent I -> I (start w) ->
  keeps I (body v w (userFolder w) (baseDir w)) ->
  I (snd (run v w)).
Proof.
  intros Hs H0 Hb. rewrite run_settle, createServerSetup_body.
  assert (Hp : I (prompted w)) by apply (Hs (start w) _ H0).
  pose proof (keeps_guarded v I _ Hs Hb) as Hg.
  destruct (guarded v (body v w (userFolder w) (baseDir w)) (prompted w)) as [r s] eqn:E.
  specialize (Hg _ _ _ Hp E).
  destruct r; cbn [settle snd]; [exact Hg | apply Hs, Hg | exact Hg].
Qed.

(** ** What a run leaves alone *)

Lemma is_dir_insert_file (m : gmap (list jsstring) node) (k d : list jsstring) (c : content) :
  k <> d -> Files.is_dir (<[k := File c]> m) d = Files.is_dir m d.
Proof.
  intros Hne. unfold Files.is_dir. destruct d; [reflexivity |].
  rewrite lookup_insert_ne by assumption. reflexivity.
Qed.


Lemma silent_entry (k : list jsstring) (o : option node) : silent (entry k o).
Proof. intros s e H. exact H. Qed.

Lemma keeps_entry_log (k : list jsstring) (o : option node) (msg : jsstring) :
  keeps (entry k o) (Console.log msg).
Proof. apply keeps_emit, silent_entry. Qed.

Lemma keeps_entry_execSync (w : world) (k : list jsstring) (o : option node)
  (cmd : jsstring) :
  untouched w k -> keeps (entry k o) (execSync w cmd).
Proof.
  intros Hw s r s' H. unfold execSync.
  specialize (Hw cmd (cwd s) (files s)).
  destruct (subprocess w cmd (cwd s) (files s)) as [st m]. simpl in Hw.
  destruct st as [[| |]|]; intros [= <- <-]; unfold entry in *; simpl; congruence.
Qed.

Lemma keeps_entry_chdir (k : list jsstring) (o : option node) (p : jsstring) :
  keeps (entry k o) (Process.chdir p).
Proof.
  intros s r s' H. unfold Process.chdir.
  destruct (Files.is_dir _ _); intros [= <- <-]; exact H.
Qed.

Lemma keeps_entry_readFile (k : list jsstring) (o : option node) (p : jsstring) :
  keeps (entry k o) (Fs.readFile p).
Proof.
  intros s r s' H. unfold Fs.readFile, lift_files.
  destruct (Files.read _ _ _); intros [= <- <-]; exact H.
Qed.

Lemma keeps_entry_writeFile (k : list jsstring) (o : option node) (names : list jsstring)
  (rel : jsstring) (c : content) :
  names_only names -> relative_names rel = true ->
  k <> names ++ Path.split rel ->
  keeps (entry k o) (Fs.writeFile (Path.join_args [render names; rel]) c).
Proof.
  intros Hn Hrel Hk s r s' H. unfold Fs.writeFile, lift_files.
  destruct (Files.write _ _ _ _) eqn:E; intros [= <- <-]; [| exact H].
  apply write_Ok in E. rewrite key_join_args in E by assumption.
  unfold entry. simpl. rewrite E, lookup_insert_ne by congruence. exact H.
Qed.

Lemma keeps_entry_mkdirs (k : list jsstring) (o : option node) (names : list jsstring)
  (p : jsstring) :
  (forall c, Files.key c p = names) -> ~ In k (chain [] names) ->
  keeps (entry k o) (Fs.mkdirs p).
Proof.
  intros Hkey Hk s r s' H. unfold Fs.mkdirs, lift_files. rewrite Hkey.
  destruct (Files.mkdirp p [] names (files s)) eqn:E; intros [= <- <-]; [| exact H].
  unfold entry. simpl. rewrite (mkdirp_frame _ _ _ _ _ E) by assumption. exact H.
Qed.

Section Footprint.

Variable w : world.
Variable k : list jsstring.
Variable o : option node.
Variable names : list jsstring.

Hypothesis subprocesses : untouched w k.
Hypothesis names_ok : names_only names.
Hypothesis not_above : ~ In k (chain [] names).
Hypothesis not_manifest : k <> names ++ Path.split (js "package.json").

Lemma keeps_entry_createFolders (v : variant) (folder : jsstring) :
  (forall f, In f (folders v) -> k <> names ++ [f]) ->
  keeps (entry k o) (createFolders v folder (render names)).
Proof.
  intros not_folder.
  assert (Hbase : keeps (entry k o) (Fs.ensureDir (render names))).
  { apply (keeps_entry_mkdirs _ _ names); [| assumption].
    intros c. apply key_render, names_ok. }
  assert (Hsub : keeps (entry k o)
            (forEach (folders v)
               (fun f => Fs.mkdirSync_recursive (Path.join_args [render names; f])))).
  { apply keeps_forEach. intros f Hf.
    apply (keeps_entry_mkdirs _ _ (names ++ [f])).
    - intros c. apply subfolder_key; [assumption |].
      pose proof (folders_single v) as Hs. rewrite List.Forall_forall in Hs. apply Hs, Hf.
    - rewrite chain_snoc, in_app_iff. simpl.
      intros [? | [E | []]]; [tauto |]. apply (not_folder f Hf). congruence. }
  destruct v; cbn [createFolders folders] in *;
    unfold IndexJs.createFolders, Part000.createFolders.
  - apply keeps_bind; [exact Hbase | intros _].
    apply keeps_bind; [apply keeps_entry_log | intros _].
    apply keeps_bind; [apply keeps_entry_log | intros _]. exact Hsub.
  - apply keeps_bind; [apply keeps_entry_log | intros _].
    apply keeps_bind; [exact Hbase | intros _].
    apply keeps_bind; [apply keeps_entry_log | intros _]. exact Hsub.
Qed.

Lemma keeps_entry_writeStarterFiles (v : variant) :
  (forall e, In e (starterFiles v) -> k <> names ++ Path.split (fst e)) ->
  keeps (entry k o) (writeStarterFiles v (render names)).
Proof.
  intros Hk.
  assert (Htable : keeps (entry k o) (forEach (starterFiles v) (writeTemplate (render names)))).
  { apply keeps_forEach. intros e He. unfold writeTemplate.
    apply keeps_entry_writeFile; [assumption | | apply Hk, He].
    pose proof (generatedFiles_paths v []) as Hp.
    rewrite generatedFiles_split in Hp. apply Forall_app in Hp as [Hp _].
    rewrite List.Forall_forall in Hp. apply (Hp e He). }
  intros s r s' Hs.
  destruct v; cbn [writeStarterFiles starterFiles] in *;
    [rewrite IndexJs_writeStarterFiles_table | rewrite Part000_writeStarterFiles_table];
    revert s r s' Hs;
    (apply keeps_bind; [apply keeps_entry_log | intros _; exact Htable]).
Qed.

Ltac keeps_entry_steps :=
  repeat first
    [ apply keeps_bind; [| intros ?]
    | apply keeps_try; [| intros ?]
    | apply keeps_ret
    | apply keeps_entry_log
    | apply keeps_entry_execSync; assumption
    | apply keeps_entry_chdir
    | apply keeps_entry_readFile
    | apply keeps_parse
    | apply keeps_assign
    | apply keeps_entry_writeFile; [assumption | reflexivity | assumption] ].

Lemma keeps_entry_body (v : variant) (folder : jsstring) :
  (forall f, In f (folders v) -> k <> names ++ [f]) ->
  (forall e, In e (generatedFiles v folder) -> k <> names ++ Path.split (fst e)) ->
  keeps (entry k o) (body v w folder (render names)).
Proof.
  intros Hf Hk. unfold body.
  apply keeps_bind; [apply keeps_entry_createFolders, Hf | intros _].
  apply keeps_bind; [apply keeps_entry_writeStarterFiles | intros _].
  { intros e He. apply Hk. rewrite generatedFiles_split, in_app_iff. tauto. }
  assert (Hreadme : keeps (entry k o) (writeReadme v folder (render names))).
  { destruct v; cbn [writeReadme]; [apply keeps_ret |].
    unfold Part000.writeReadme.
    apply keeps_entry_writeFile; [assumption | reflexivity |].
    apply (Hk (js "README.md", Part000.README_md folder)).
    cbn [generatedFiles]. rewrite in_app_iff. simpl. tauto. }
  destruct v;
    cbn [initProject rewriteManifest installDependencies updatePackages startServer];
    unfold_blocks;
    repeat (apply keeps_bind; [| intros ?]); try exact Hreadme; keeps_entry_steps.
Qed.

End Footprint.

(** X8.  A run creates or writes entries only in its footprint: the target
    directory and the directories above it, the six folders, the generated
    files and the manifest.  Every other entry that the subprocesses leave
    alone is, after the run, what it was before, whether the run succeeds
    or fails. *)
Theorem X8_writes_only_in_footprint (v : variant) (w : world) (k : list jsstring) :
  Path.isAbsolute (initial_cwd w) = true ->
  untouched w k ->
  ~ In k (footprint v w) ->
  files (snd (run v w)) !! k = initial_files w !! k.
Proof.
  intros Habs Hsub Hk. unfold footprint in Hk. rewrite !in_app_iff in Hk.
  apply (run_keeps v w (entry k (initial_files w !! k)));
    [apply silent_entry | reflexivity |].
  rewrite baseDir_render by assumption.
  apply keeps_entry_body.
  - exact Hsub.
  - apply baseNames_names.
  - tauto.
  - intros E. apply Hk. right. right. right. left. symmetry. exact E.
  - intros f Hf E. apply Hk. right. left.
    rewrite E. apply (in_map (fun f => baseNames w ++ [f])), Hf.
  - intros e He E. apply Hk. right. right. left.
    rewrite E. apply (in_map (fun e => baseNames w ++ Path.split (fst e))), He.
Qed.

(** ** A file where the target directory should be *)

Lemma ne_by_decide {A} `{EqDecision A} (a b : A) : bool_decide (a = b) = false -> a <> b.
Proof. apply bool_decide_eq_false_1. Qed.

Lemma mkdirp_file_in_the_way (p : jsstring) (below above : list jsstring)
  (m : gmap (list jsstring) node) (c : content) :
  below <> [] -> m !! (above ++ below) = Some (File c) ->
  exists e, Files.mkdirp p above below m = Err e.
Proof.
  revert above m. induction below as [|seg rest IH]; intros above m Hne Hk; [congruence |].
  cbn [Files.mkdirp]. destruct rest as [|seg' rest].
  - rewrite Hk. eauto.
  - assert (Hrest : (above ++ [seg]) ++ seg' :: rest = above ++ seg :: seg' :: rest)
      by (rewrite <- app_assoc; reflexivity).
    destruct (m !! (above ++ [seg])) as [[|c']|] eqn:E.
    + apply IH; [discriminate | rewrite Hrest; exact Hk].
    + eauto.
    + apply IH; [discriminate |]. rewrite Hrest, lookup_insert_ne; [exact Hk |].
      intros E'. rewrite <- Hrest in E'.
      apply (f_equal (@length _)) in E'. rewrite !length_app in E'. simpl in E'. lia.
Qed.

Lemma bind_Throw {A B} (m : proc A) (k : A -> proc B) (s s1 : state) (e : error) :
  m s = (Throw e, s1) -> bind m k s = (Throw e, s1).
Proof. unfold bind. intros ->. reflexivity. Qed.

Lemma mkdirs_file_in_the_way (names : list jsstring) (s : state) (c : content) :
  names_only names -> names <> [] -> files s !! names = Some (File c) ->
  exists e, Fs.mkdirs (render names) s = (Throw e, s).
Proof.
  intros Hn Hne Hk. unfold Fs.mkdirs, lift_files. rewrite key_render by assumption.
  destruct (mkdirp_file_in_the_way (render names) names [] (files s) c Hne Hk) as [e ->].
  eauto.
Qed.

(** X7.  When a regular file lies where the target directory should be,
    [fs.ensureDir] throws and the run ends there: the file system is left
    as it was, no subprocess is started, the error is reported, and the
    exit code is 1 in [src/unnamed/part_000] and 0 in [src/index.js]. *)
Theorem X7_file_at_target (v : variant) (w : world) (c : content) :
  Path.isAbsolute (initial_cwd w) = true ->
  baseNames w <> [] ->
  initial_files w !! baseNames w = Some (File c) ->
  files (snd (run v w)) = initial_files w /\
  commands_started (trace v w) = [] /\
  error_reported (trace v w) = true /\
  exit_code v w = match v with index_js => 0%Z | part_000 => 1%Z end.
Proof.
  intros Habs Hne Hk. unfold exit_code, trace.
  rewrite run_settle, createServerSetup_body, baseDir_render by assumption.
  pose proof (baseNames_names w) as Hn.
  destruct v; cbn [guarded]; unfold body; cbn [createFolders].
  - unfold IndexJs.createFolders, Fs.ensureDir.
    destruct (mkdirs_file_in_the_way _ (prompted w) c Hn Hne Hk) as [e He].
    rewrite (bind_Throw _ _ _ _ _ (bind_Throw _ _ _ _ _ He)).
    repeat split.
  - unfold Part000.createFolders, Fs.ensureDir, try_catch.
    set (s1 := {| files := initial_files w; cwd := initial_cwd w;
                  out := out (prompted w)
                         ++ [ConsoleLog (js "🚀 Creating MERN backend in folder: "
                                         ++ userFolder w)] |}).
    destruct (mkdirs_file_in_the_way _ s1 c Hn Hne Hk) as [e He].
    assert (Hb : forall k : unit -> proc unit,
              bind (bind (Console.log (js "🚀 Creating MERN backend in folder: "
                                       ++ userFolder w))
                      (fun _ => bind (Fs.mkdirs (render (baseNames w))) (fun _ =>
                         bind (Console.log (js "🚀 Creating folder structure..."))
                           (fun _ => forEach Part000.folders (fun folder =>
                              Fs.mkdirSync_recursive
                                (Path.join_args [render (baseNames w); folder]))))))
                k (prompted w)
              = (Throw e, s1)).
    { intros k. apply bind_Throw. rewrite (bind_eq _ _ _ s1 tt) by reflexivity.
      apply bind_Throw, He. }
    rewrite Hb. repeat split.
Qed.

Lemma X7_witness :
  files (snd (run part_000 world_file_in_the_way)) = initial_files world_file_in_the_way /\
  commands_started (trace part_000 world_file_in_the_way) = [] /\
  exit_code part_000 world_file_in_the_way = 1%Z.
Proof.
  assert (Habs : Path.isAbsolute (initial_cwd world_file_in_the_way) = true) by reflexivity.
  assert (Hne : baseNames world_file_in_the_way <> [])
    by (apply ne_by_decide; by_vm).
  assert (Hk : initial_files world_file_in_the_way !! baseNames world_file_in_the_way
               = Some (File (Text (js "notes")))) by by_vm.
  destruct (X7_file_at_target part_000 _ _ Habs Hne Hk) as (H1 & H2 & _ & H4).
  exact (conj H1 (conj H2 H4)).
Defined.

Lemma not_In_by_decide {A} `{EqDecision A} (x : A) (l : list A) :
  bool_decide (x ∈ l) = false -> ~ In x l.
Proof.
  intros H Hin. apply list_elem_of_In in Hin. apply bool_decide_eq_false_1 in H. contradiction.
Qed.

Lemma X8_witness :
  files (snd (run part_000 world_ok)) !! [js "home"; js "dev"; js "MyApp"; js "notes.txt"]
  = initial_files world_ok !! [js "home"; js "dev"; js "MyApp"; js "notes.txt"].
Proof.
  apply (X8_writes_only_in_footprint part_000 world_ok).
  - reflexivity.
  - apply sample_npm_untouched, ne_by_decide. by_vm.
  - apply not_In_by_decide. by_vm.
Defined.

(** ** Where the subprocesses run *)

Lemma same_bind {A B} (c : jsstring) (m m' : proc A) (k k' : A -> proc B) :
  same_at c m m' -> (forall a, same_at c (k a) (k' a)) -> same_at c (bind m k) (bind m' k').
Proof.
  intros Hm Hk s Hs. destruct (Hm s Hs) as [E Hc]. unfold bind. rewrite <- E.
  destruct (m s) as [[a|e|x] s1]; cbn [snd] in *; [apply Hk, Hc | auto ..].
Qed.

Lemma same_try {A} (c : jsstring) (m m' : proc A) (h h' : error -> proc A) :
  same_at c m m' -> (forall e, same_at c (h e) (h' e)) ->
  same_at c (try_catch m h) (try_catch m' h').
Proof.
  intros Hm Hh s Hs. destruct (Hm s Hs) as [E Hc]. unfold try_catch. rewrite <- E.
  destruct (m s) as [[a|e|x] s1]; cbn [snd] in *; [auto | apply Hh, Hc | auto].
Qed.

(** A step that leaves the working directory where it is. *)
Lemma same_refl {A} (c : jsstring) (m : proc A) :
  (forall s, cwd (snd (m s)) = cwd s) -> same_at c m m.
Proof. intros H s Hs. split; [reflexivity | rewrite H; exact Hs]. Qed.

Lemma same_log (c msg : jsstring) : same_at c (Console.log msg) (Console.log msg).
Proof. apply same_refl. reflexivity. Qed.

Lemma same_lift_files {A} (c : jsstring)
  (f : state -> result (A * gmap (list jsstring) node)) :
  same_at c (lift_files f) (lift_files f).
Proof.
  apply same_refl. intros s. unfold lift_files. destruct (f s) as [[a m]|e]; reflexivity.
Qed.

Lemma same_parse (c : jsstring) (t : content) : same_at c (JSON_parse t) (JSON_parse t).
Proof. apply same_refl. intros s. destruct t; reflexivity. Qed.

Lemma same_assign (c : jsstring) (o : json) (k : jsstring) (x : json) :
  same_at c (assign o k x) (assign o k x).
Proof. apply same_refl. intros s. destruct o; reflexivity. Qed.

Lemma same_ret {A} (c : jsstring) (a : A) : same_at c (ret a) (ret a).
Proof. apply same_refl. reflexivity. Qed.

Lemma same_execSync (w w' : world) (c cmd : jsstring) :
  (forall cmd m, subprocess w' cmd c m = subprocess w cmd c m) ->
  same_at c (execSync w cmd) (execSync w' cmd).
Proof.
  intros H s Hs. unfold execSync. rewrite Hs, H.
  destruct (subprocess w cmd c (files s)) as [[[| |]|] m]; split; reflexivity || exact Hs.
Qed.

Ltac same_steps :=
  repeat first
    [ apply same_bind; [| intros ?]
    | apply same_try; [| intros ?]
    | apply same_ret
    | apply same_log
    | apply same_execSync; assumption
    | apply same_lift_files
    | apply same_parse
    | apply same_assign ].

(** The statements that follow [process.chdir(baseDir)]. *)
Lemma same_after_chdir (v : variant) (w w' : world) (c folder baseDir : jsstring) :
  (forall cmd m, subprocess w' cmd c m = subprocess w cmd c m) ->
  same_at c
    (Console.log (js "⚡ Initializing npm project...") ;;
     execSync w npm_init ;;
     rewriteManifest v baseDir ;;
     installDependencies v w ;;
     updatePackages v w ;;
     writeReadme v folder baseDir ;;
     startServer v w folder)%proc
    (Console.log (js "⚡ Initializing npm project...") ;;
     execSync w' npm_init ;;
     rewriteManifest v baseDir ;;
     installDependencies v w' ;;
     updatePackages v w' ;;
     writeReadme v folder baseDir ;;
     startServer v w' folder)%proc.
Proof.
  intros H.
  destruct v;
    cbn [rewriteManifest installDependencies updatePackages writeReadme startServer];
    unfold_blocks; unfold Fs.readFile, Fs.writeFile; same_steps.
Qed.

Lemma bind_assoc {A B C} (m : proc A) (k : A -> proc B) (h : B -> proc C) (s : state) :
  bind (bind m k) h s = bind m (fun a => bind (k a) h) s.
Proof. unfold bind. destruct (m s) as [[a|e|x] s1]; reflexivity. Qed.

(** [process.chdir] to an absolute directory, then two continuations that
    do the same there. *)
Lemma bind_chdir_same (names : list jsstring) (k k' : unit -> proc unit) (s : state) :
  names_only names -> same_at (render names) (k tt) (k' tt) ->
  bind (Process.chdir (render names)) k s = bind (Process.chdir (render names)) k' s.
Proof.
  intros Hn Hk. unfold bind, Process.chdir. rewrite key_render by assumption.
  destruct (Files.is_dir (files s) names); [| reflexivity].
  apply Hk. reflexivity.
Qed.

Lemma body_same (v : variant) (w w' : world) (folder : jsstring) (names : list jsstring)
  (s : state) :
  names_only names ->
  (forall cmd m, subprocess w' cmd (render names) m = subprocess w cmd (render names) m) ->
  body v w' folder (render names) s = body v w folder (render names) s.
Proof.
  intros Hn H. unfold body.
  apply bind_ext. intros _ s1. apply bind_ext. intros _ s2.
  assert (E : forall w0 (k : unit -> proc unit),
            bind (initProject v w0 (render names)) k s2
            = bind (Process.chdir (render names))
                (fun _ => bind (Console.log (js "⚡ Initializing npm project..."))
                   (fun _ => bind (execSync w0 npm_init) k)) s2).
  { intros w0 k. destruct v; cbn [initProject];
      unfold IndexJs.initProject, Part000.initProject;
      rewrite bind_assoc; apply bind_ext; intros _ s3; apply bind_assoc. }
  rewrite !E. symmetry. apply bind_chdir_same; [assumption |].
  apply (same_after_chdir v w w' (render names) folder (render names) H).
Qed.

(** X9.  Every subprocess runs in the target directory, to which the
    script has moved before [npm init -y]: what a run does depends on the
    package manager only through what it does there.  Two worlds that
    differ only in what subprocesses do in other working directories give
    the same run. *)
Theorem X9_subprocesses_run_in_target (v : variant) (w w' : world) :
  Path.isAbsolute (initial_cwd w) = true ->
  answer w' = answer w ->
  initial_cwd w' = initial_cwd w ->
  initial_files w' = initial_files w ->
  (forall cmd m, subprocess w' cmd (baseDir w) m = subprocess w cmd (baseDir w) m) ->
  run v w' = run v w.
Proof.
  intros Habs Ha Hc Hf H. rewrite !run_settle, !createServerSetup_body.
  assert (Hp : prompted w' = prompted w) by (unfold prompted; rewrite Hc, Hf; reflexivity).
  assert (Hu : userFolder w' = userFolder w) by (unfold userFolder; rewrite Ha; reflexivity).
  assert (Hb : baseDir w' = baseDir w) by (unfold baseDir; rewrite Hc, Hu; reflexivity).
  rewrite Hp, Hu, Hb. rewrite baseDir_render in * by assumption.
  f_equal. destruct v; cbn [guarded]; unfold try_catch;
    rewrite (body_same _ w w') by (apply baseNames_names || exact H); reflexivity.
Qed.

Lemma X9_witness : run part_000 world_strict = run part_000 world_ok.
Proof.
  assert (Hb : baseDir world_ok = js "/home/dev/MyApp") by by_vm.
  apply (X9_subprocesses_run_in_target part_000 world_ok world_strict
           eq_refl eq_refl eq_refl eq_refl).
  intros cmd m. rewrite Hb. reflexivity.
Defined.

(** ** More on the manifest rewrite *)

Lemma set_keys (k : jsstring) (x : json) (props : list (jsstring * json)) :
  keys (Json.set k x props)
  = if bool_decide (k ∈ keys props) then keys props else keys props ++ [k].
Proof.
  unfold keys. induction props as [|[k' x'] props IH]; [reflexivity |].
  cbn [Json.set map fst]. unfold eqb. destruct (decide (k' = k)) as [-> | Hne].
  - rewrite bool_decide_true by reflexivity.
    rewrite bool_decide_true by (left). reflexivity.
  - rewrite (bool_decide_false (k' = k)) by assumption. cbn [map fst]. rewrite IH.
    destruct (decide (k ∈ map fst props)) as [Hin | Hout].
    + rewrite !bool_decide_true; [reflexivity | right; assumption | assumption].
    + rewrite !bool_decide_false; [reflexivity | | assumption].
      intros [E | Hin]%elem_of_cons; [congruence | contradiction].
Qed.

Lemma set_get_id (k : jsstring) (x : json) (props : list (jsstring * json)) :
  Json.get k props = Some x -> Json.set k x props = props.
Proof.
  induction props as [|[k' x'] props IH]; cbn [Json.get Json.set]; [discriminate |].
  destruct (eqb k' k) eqn:E.
  - intros [= ->]. reflexivity.
  - intros H. rewrite IH by assumption. reflexivity.
Qed.

Lemma assign_all_get_other (fields props : list (jsstring * json)) (k : jsstring) :
  ~ In k (map fst fields) -> Json.get k (assign_all fields props) = Json.get k props.
Proof.
  unfold assign_all. revert props. induction fields as [|[k' x] fields IH]; intros props Hk;
    cbn [fold_left fst snd]; [reflexivity |].
  rewrite IH by (cbn in Hk; tauto).
  apply get_set_other. cbn in Hk. tauto.
Qed.

(** After the assignments, each assigned key holds its value. *)
Lemma assign_all_get (fields props : list (jsstring * json)) (k : jsstring) (x : json) :
  NoDup (map fst fields) -> In (k, x) fields ->
  Json.get k (assign_all fields props) = Some x.
Proof.
  unfold assign_all. revert props.
  induction fields as [|[k' x'] fields IH]; intros props Hnd Hin; [destruct Hin |].
  cbn [map fst] in Hnd. apply NoDup_cons in Hnd as [Hnew Hnd].
  cbn [fold_left fst snd]. destruct Hin as [[= -> ->] | Hin].
  - fold (assign_all fields (Json.set k x props)).
    rewrite assign_all_get_other; [apply get_set_same |].
    intros Hin. apply Hnew, list_elem_of_In, Hin.
  - apply IH; assumption.
Qed.

Lemma assign_all_id (fields props : list (jsstring * json)) :
  (forall k x, In (k, x) fields -> Json.get k props = Some x) ->
  assign_all fields props = props.
Proof.
  unfold assign_all. induction fields as [|[k x] fields IH]; intros H; [reflexivity |].
  cbn [fold_left fst snd]. rewrite set_get_id by (apply H; left; reflexivity).
  apply IH. intros k' x' Hin. apply H. right. exact Hin.
Qed.

Lemma assign_all_twice (fields props : list (jsstring * json)) :
  NoDup (map fst fields) ->
  assign_all fields (assign_all fields props) = assign_all fields props.
Proof. intros Hnd. apply assign_all_id. intros k x Hin. apply assign_all_get; assumption. Qed.

Lemma assign_all_keys (fields props : list (jsstring * json)) :
  NoDup (map fst fields) ->
  keys (assign_all fields props)
  = keys props
    ++ List.filter (fun k => negb (bool_decide (k ∈ keys props))) (map fst fields).
Proof.
  unfold assign_all. revert props.
  induction fields as [|[k x] fields IH]; intros props Hnd; cbn [fold_left map fst snd].
  - cbn [List.filter]. rewrite app_nil_r. reflexivity.
  - apply NoDup_cons in Hnd as [Hnew Hnd]. rewrite IH by assumption.
    rewrite set_keys. cbn [List.filter].
    destruct (decide (k ∈ keys props)) as [Hin | Hout].
    + rewrite !bool_decide_true by assumption. reflexivity.
    + rewrite !bool_decide_false by assumption. cbn [negb].
      rewrite <- app_assoc. cbn [app]. do 2 f_equal.
      apply filter_ext_in. intros k' Hk'. f_equal.
      apply bool_decide_ext. rewrite elem_of_app, list_elem_of_singleton.
      split; [| tauto]. intros [? | ->]; [assumption |].
      exfalso. apply Hnew, list_elem_of_In, Hk'.
Qed.

(** The rewrite of a variant, as the list of its assignments. *)
Lemma setManifestFields_assign_all (v : variant) :
  exists fields,
    map fst fields = assigned_keys v /\
    forall props s,
      setManifestFields v (JObject props) s = (Return (JObject (assign_all fields props)), s).
Proof.
  destruct v; cbn [setManifestFields assigned_keys];
    unfold IndexJs.setManifestFields, Part000.setManifestFields.
  - exists [(js "type", JString (js "module")); (js "scripts", IndexJs.scripts);
            (js "description", JString (js "MERN backend server with ESM modules"));
            (js "keywords",
             JArray [JString (js "mern"); JString (js "express"); JString (js "mongodb");
                     JString (js "nodejs"); JString (js "backend")])].
    split; reflexivity.
  - exists [(js "type", JString (js "module")); (js "scripts", Part000.scripts);
            (js "description",
             JString (js "MERN backend server with JWT authentication and CRUD operations"));
            (js "keywords",
             JArray [JString (js "mern"); JString (js "express"); JString (js "mongodb");
                     JString (js "nodejs"); JString (js "backend"); JString (js "jwt");
                     JString (js "auth"); JString (js "api")]);
            (js "author", JString (js "")); (js "license", JString (js "MIT"));
            (js "main", JString (js "server.js"))].
    split; reflexivity.
Qed.

Lemma assigned_keys_distinct (v : variant) : NoDup (assigned_keys v).
Proof. destruct v; apply (by_bool_decide _); vm_compute; reflexivity. Qed.

(** Setting the fields of a manifest whose fields are set changes
    nothing. *)
Lemma setManifestFields_twice (v : variant) (j j' : json) (s s' : state) :
  setManifestFields v j s = (Return j', s') ->
  forall t, setManifestFields v j' t = (Return j', t).
Proof.
  destruct (setManifestFields_assign_all v) as (fields & Hk & Hf).
  destruct j as [| | | |items|props].
  1-4: destruct v; discriminate.
  - intros H t. apply (setManifestFields_state v _ _ _ _ t) in H as H'.
    assert (E : j' = JArray items) by (destruct v; injection H as <- _; reflexivity).
    rewrite E in *. exact H'.
  - rewrite Hf. intros [= <- <-] t. rewrite Hf, assign_all_twice; [reflexivity |].
    rewrite Hk. apply assigned_keys_distinct.
Qed.

(** X11.  The rewrite keeps the keys of the manifest in their order, each
    once, and adds the keys it assigns that the manifest did not have at
    the end, in the order of the assignments. *)
Theorem X11_manifest_key_order (v : variant) (props : list (jsstring * json))
  (j' : json) (s s' : state) :
  setManifestFields v (JObject props) s = (Return j', s') ->
  exists props',
    j' = JObject props' /\
    keys props'
    = keys props
      ++ List.filter (fun k => negb (bool_decide (k ∈ keys props))) (assigned_keys v).
Proof.
  destruct (setManifestFields_assign_all v) as (fields & Hk & Hf).
  rewrite Hf. intros [= <- <-]. eexists. split; [reflexivity |].
  rewrite <- Hk. apply assign_all_keys. rewrite Hk. apply assigned_keys_distinct.
Qed.

Lemma X11_witness :
  exists props',
    fst (setManifestFields index_js sample_manifest (start world_ok)) = Return (JObject props') /\
    keys props'
    = [js "name"; js "version"; js "description"; js "main"; js "scripts"; js "keywords";
       js "author"; js "license"; js "type"].
Proof.
  assert (H : exists j', setManifestFields index_js sample_manifest (start world_ok)
                         = (Return j', start world_ok))
    by (eexists; reflexivity).
  destruct H as (j' & H).
  destruct (X11_manifest_key_order index_js _ _ _ _ H) as (props' & -> & Hk).
  exists props'. split; [rewrite H; reflexivity |].
  rewrite Hk. by_vm.
Defined.

(** ** The manifest rewrite, case by case *)

Lemma setManifestFields_pure (v : variant) (j : json) (s : state) :
  snd (setManifestFields v j s) = s.
Proof. destruct v, j; reflexivity. Qed.

Lemma rewriteManifest_eq (v : variant) (b : jsstring) (s : state) :
  rewriteManifest v b s
  = bind (Console.log (rewrite_message v))
      (fun _ => bind (Fs.readFile (Path.join_args [b; js "package.json"]))
         (fun text => bind (JSON_parse text)
            (fun j => bind (setManifestFields v j)
               (fun j' => Fs.writeFile (Path.join_args [b; js "package.json"])
                            (JSON_stringify j'))))) s.
Proof.
  destruct v; cbn [rewriteManifest rewrite_message];
    unfold IndexJs.rewriteManifest, Part000.rewriteManifest; cbn [setManifestFields];
    reflexivity.
Qed.

Lemma manifest_key_join (c : jsstring) (names : list jsstring) :
  names_only names ->
  Files.key c (Path.join_args [render names; js "package.json"]) = manifest_key names.
Proof. intros Hn. rewrite key_join_args by (assumption || reflexivity). reflexivity. Qed.

Lemma manifest_path_render (names : list jsstring) :
  names_only names ->
  Path.join_args [render names; js "package.json"] = render (manifest_key names).
Proof. intros Hn. rewrite join_args_render by (assumption || reflexivity). reflexivity. Qed.

Lemma manifest_key_cons (names : list jsstring) :
  exists x k, manifest_key names = x :: k.
Proof. unfold manifest_key. destruct names; simpl; eauto. Qed.

Lemma manifest_key_names (names : list jsstring) :
  names_only names -> names_only (manifest_key names).
Proof. intros Hn. apply Forall_app. split; [assumption | repeat constructor]. Qed.

Lemma rewrite_from (v : variant) (names : list jsstring) (s : state) :
  names_only names ->
  bind (Fs.readFile (render (manifest_key names)))
    (fun text => bind (JSON_parse text)
       (fun j => bind (setManifestFields v j)
          (fun j' => Fs.writeFile (render (manifest_key names)) (JSON_stringify j')))) s
  = match files s !! manifest_key names with
    | None => (Throw (ENOENT (render (manifest_key names))), s)
    | Some Dir => (Throw (EISDIR (render (manifest_key names))), s)
    | Some (File (Text _)) => (Throw SyntaxError, s)
    | Some (File (JsonText j)) =>
        match fst (setManifestFields v j s) with
        | Return j' =>
            match Files.write (render (manifest_key names)) (manifest_key names)
                    (JSON_stringify j') (files s) with
            | Ok m => (Return tt, {| files := m; cwd := cwd s; out := out s |})
            | Err e => (Throw e, s)
            end
        | Throw e => (Throw e, s)
        | Exit code => (Exit code, s)
        end
    end.
Proof.
  intros Hn. destruct s as [m c T].
  unfold bind at 1. unfold Fs.readFile, lift_files, Files.read.
  rewrite key_render by (apply manifest_key_names, Hn).
  destruct (manifest_key_cons names) as (x & k & Ek). rewrite Ek. rewrite <- Ek.
  cbn [files cwd out].
  destruct (m !! manifest_key names) as [[|[t|j]]|]; try reflexivity.
  unfold bind at 1. cbn [JSON_parse ret]. unfold bind at 1.
  pose proof (setManifestFields_pure v j {| files := m; cwd := c; out := T |}) as Hp.
  destruct (setManifestFields v j {| files := m; cwd := c; out := T |}) as [[j'|e|x'] s1];
    cbn [fst snd] in *; subst s1; try reflexivity.
  unfold Fs.writeFile, lift_files.
  rewrite key_render by (apply manifest_key_names, Hn).
  cbn [files cwd out]. destruct (Files.write _ _ _ _); reflexivity.
Qed.

Lemma rewriteManifest_cases (v : variant) (names : list jsstring) (s : state) :
  names_only names ->
  rewriteManifest v (render names) s
  = match files s !! manifest_key names with
    | None => (Throw (ENOENT (render (manifest_key names))), announced v s)
    | Some Dir => (Throw (EISDIR (render (manifest_key names))), announced v s)
    | Some (File (Text _)) => (Throw SyntaxError, announced v s)
    | Some (File (JsonText j)) =>
        match fst (setManifestFields v j (announced v s)) with
        | Return j' =>
            match Files.write (render (manifest_key names)) (manifest_key names)
                    (JSON_stringify j') (files s) with
            | Ok m => (Return tt, {| files := m; cwd := cwd s; out := out (announced v s) |})
            | Err e => (Throw e, announced v s)
            end
        | Throw e => (Throw e, announced v s)
        | Exit code => (Exit code, announced v s)
        end
    end.
Proof.
  intros Hn. rewrite rewriteManifest_eq, manifest_path_render by assumption.
  unfold bind at 1. cbn [Console.log emit]. fold (announced v s).
  apply (rewrite_from v names (announced v s) Hn).
Qed.

Lemma write_Ok_dir (p : jsstring) (k : list jsstring) (c : content)
  (m m' : gmap (list jsstring) node) :
  Files.write p k c m = Ok m' -> Files.is_dir m (Files.parent k) = true.
Proof.
  unfold Files.write. destruct k; [discriminate |].
  destruct (Files.is_dir m _); [reflexivity |].
  destruct (m !! _) as [[|]|]; discriminate.
Qed.

Lemma manifest_key_parent (names : list jsstring) :
  Files.parent (manifest_key names) = names /\ manifest_key names <> names.
Proof.
  split; [apply parent_snoc |]. unfold manifest_key. intros E.
  apply (f_equal (@length _)) in E. rewrite length_app in E. simpl in E. lia.
Qed.

(** Writing over a file whose directory exists. *)
Lemma write_over_file (p : jsstring) (k : list jsstring) (c c' : content)
  (m : gmap (list jsstring) node) :
  k <> [] -> Files.is_dir m (Files.parent k) = true -> m !! k = Some (File c) ->
  Files.write p k c' m = Ok (<[k := File c']> m).
Proof.
  intros Hk Hd Hf. unfold Files.write. destruct k; [congruence |].
  rewrite Hd, Hf. reflexivity.
Qed.

(** What is written is written back as it is. *)
Lemma written_twice (j : json) : written (written j) = written j.
Proof.
  revert j. fix IH 1. intros [| | m e | |items|props]; cbn [written]; try reflexivity.
  - destruct (out_of_range m e) eqn:E; cbn [written]; [| rewrite E]; reflexivity.
  - f_equal. induction items as [|x items IHi]; [reflexivity |].
    cbn [map]. rewrite (IH x), IHi. reflexivity.
  - f_equal. induction props as [|[k x] props IHp]; [reflexivity |].
    cbn [map]. rewrite (IH x), IHp. reflexivity.
Qed.

Lemma set_written (k : jsstring) (x : json) (props : list (jsstring * json)) :
  map (fun '(k, x) => (k, written x)) (Json.set k x props)
  = Json.set k (written x) (map (fun '(k, x) => (k, written x)) props).
Proof.
  induction props as [|[k' x'] props IH]; [reflexivity |].
  cbn [Json.set map]. destruct (eqb k' k); [reflexivity |].
  cbn [map]. rewrite IH. reflexivity.
Qed.

(** The values assigned hold no number: setting the fields and writing
    commute. *)
Lemma setManifestFields_written (v : variant) (j j' : json) (s s' : state) :
  setManifestFields v j s = (Return j', s') ->
  forall t, setManifestFields v (written j) t = (Return (written j'), t).
Proof.
  destruct j as [| | | |items|props].
  1-4: destruct v; discriminate.
  - intros H t. assert (E : j' = JArray items) by (destruct v; injection H as <- _; reflexivity).
    rewrite E. destruct v; reflexivity.
  - destruct (setManifestFields_assign_all v) as (fields & Hk & Hf).
    intros H t. destruct v; injection H as <- _; cbn [written];
      rewrite !set_written; reflexivity.
Qed.

(** X10.  Rewriting a manifest that has been rewritten is harmless: when
    [rewriteManifest] has returned, running it again on the state it left
    returns as well and leaves every file as it is. *)
Theorem X10_rewrite_twice (v : variant) (names : list jsstring) (s s1 : state) :
  names_only names ->
  rewriteManifest v (render names) s = (Return tt, s1) ->
  exists s2, rewriteManifest v (render names) s1 = (Return tt, s2) /\ files s2 = files s1.
Proof.
  intros Hn H. rewrite rewriteManifest_cases in H by assumption.
  destruct (files s !! manifest_key names) as [[|[t|j]]|] eqn:Ef; try discriminate H.
  destruct (setManifestFields v j (announced v s)) as [[j'|e|c] s0] eqn:Es;
    cbn [fst] in H; try discriminate H.
  destruct (Files.write _ _ _ (files s)) as [m|e] eqn:Ew; [| discriminate H].
  injection H as <-.
  pose proof (write_Ok_dir _ _ _ _ _ Ew) as Hd. apply write_Ok in Ew. subst m.
  destruct (manifest_key_parent names) as [Hp Hne]. rewrite Hp in Hd.
  destruct (manifest_key_cons names) as (x & k & Ek).
  rewrite rewriteManifest_cases by assumption. cbn [files cwd out].
  rewrite lookup_insert_eq. unfold JSON_stringify at 1.
  rewrite (setManifestFields_written v j' j' (announced v s) (announced v s)
             (setManifestFields_twice v j j' _ _ Es _)).
  cbn [fst]. unfold JSON_stringify. rewrite written_twice.
  rewrite (write_over_file _ _ (JsonText (written j')) (JsonText (written j'))).
  - eexists. split; [reflexivity |]. cbn [files]. apply insert_insert_eq.
  - rewrite Ek. discriminate.
  - rewrite Hp, is_dir_insert_file by assumption. exact Hd.
  - apply lookup_insert_eq.
Qed.

Lemma X10_witness :
  exists s2,
    rewriteManifest part_000 (baseDir world_ok) (state_after_rewrite part_000 world_ok)
    = (Return tt, s2) /\
    files s2 = files (state_after_rewrite part_000 world_ok).
Proof.
  assert (H : fst (createServerSetup part_000 world_ok (start world_ok)) = Return tt) by by_vm.
  pose proof (run_rewrites_manifest part_000 world_ok _ (Return_snd _ _ H)) as Hr.
  rewrite baseDir_render in * by reflexivity.
  exact (X10_rewrite_twice part_000 _ _ _ (baseNames_names world_ok) Hr).
Defined.


(** The array [[1e999]] as a manifest is written back as [[null]]. *)
Lemma rewrite_array_sample :
  JSON_stringify (JArray [JNumber 1 999]) = JsonText (JArray [JNull]).
Proof. reflexivity. Qed.


(** ** The starter files and the trace *)

Lemma starterFiles_relative (v : variant) :
  Forall (fun e => relative_names (fst e) = true) (starterFiles v).
Proof.
  pose proof (generatedFiles_paths v []) as Hp.
  rewrite generatedFiles_split in Hp. apply Forall_app in Hp as [Hp _].
  eapply Forall_impl; [exact Hp |]. intros e He. apply He.
Qed.

Lemma starterFiles_distinct (v : variant) :
  NoDup (map (fun e => Path.split (fst e)) (starterFiles v)).
Proof.
  pose proof (generatedFiles_distinct v []) as Hd.
  rewrite generatedFiles_split, map_app in Hd. apply NoDup_app in Hd as (Hd & _). exact Hd.
Qed.

(** A file-system call keeps every property of the trace. *)
Lemma keeps_on_trace_lift_files (P : list event -> Prop) {A}
  (f : state -> result (A * gmap (list jsstring) node)) :
  keeps (on_trace P) (lift_files f).
Proof.
  intros s r s' H. unfold lift_files. destruct (f s) as [[a m]|e]; intros [= <- <-]; exact H.
Qed.

(** ** What a failed run leaves behind *)

Lemma execs_snoc_error (T : list event) (args : list printed) :
  execs (T ++ [ConsoleError args]) = execs T.
Proof. unfold execs. rewrite omap_app. apply app_nil_r. Qed.

Lemma execs_snoc_log (T : list event) (msg : jsstring) :
  execs (T ++ [ConsoleLog msg]) = execs T.
Proof. unfold execs. rewrite omap_app. apply app_nil_r. Qed.

(** The files and the subprocesses of a run are those of its script: the
    handlers at its end only print. *)
Lemma run_body (v : variant) (w : world) :
  files (snd (run v w))
  = files (snd (body v w (userFolder w) (baseDir w) (prompted w))) /\
  execs (trace v w)
  = execs (out (snd (body v w (userFolder w) (baseDir w) (prompted w)))).
Proof.
  unfold trace. rewrite run_settle, createServerSetup_body.
  destruct v; cbn [guarded]; unfold try_catch;
    destruct (body _ w (userFolder w) (baseDir w) (prompted w)) as [[[]|e|c] s];
    cbn [settle snd files out bind Console.error emit Process.exit];
    split; reflexivity || apply execs_snoc_error.
Qed.

Lemma bind_Exit {A B} (m : proc A) (k : A -> proc B) (s s1 : state) (c : Z) :
  m s = (Exit c, s1) -> bind m k s = (Exit c, s1).
Proof. unfold bind. intros ->. reflexivity. Qed.

Lemma keeps_quiet_log (msg : jsstring) :
  keeps (on_trace (fun T => execs T = [])) (Console.log msg).
Proof.
  intros s r s' H [= <- <-]. unfold on_trace in *. cbn [out].
  rewrite execs_snoc_log. exact H.
Qed.

(** Before [process.chdir], the script starts no subprocess. *)
Lemma createFolders_quiet (v : variant) (folder baseDir : jsstring) :
  keeps (on_trace (fun T => execs T = [])) (createFolders v folder baseDir).
Proof.
  assert (Hsub : forall l : list jsstring,
            keeps (on_trace (fun T => execs T = []))
              (forEach l (fun f => Fs.mkdirSync_recursive (Path.join_args [baseDir; f]))))
    by (intros l; apply keeps_forEach; intros f _; apply keeps_on_trace_lift_files).
  destruct v; cbn [createFolders]; unfold IndexJs.createFolders, Part000.createFolders.
  - apply keeps_bind; [apply keeps_on_trace_lift_files | intros _].
    apply keeps_bind; [apply keeps_quiet_log | intros _].
    apply keeps_bind; [apply keeps_quiet_log | intros _]. apply Hsub.
  - apply keeps_bind; [apply keeps_quiet_log | intros _].
    apply keeps_bind; [apply keeps_on_trace_lift_files | intros _].
    apply keeps_bind; [apply keeps_quiet_log | intros _]. apply Hsub.
Qed.

Lemma writeStarterFiles_quiet (v : variant) (baseDir : jsstring) :
  keeps (on_trace (fun T => execs T = [])) (writeStarterFiles v baseDir).
Proof.
  intros s r s' Hs.
  destruct v; cbn [writeStarterFiles];
    [rewrite IndexJs_writeStarterFiles_table | rewrite Part000_writeStarterFiles_table];
    revert s r s' Hs;
    (apply keeps_bind; [apply keeps_quiet_log | intros _]);
    apply keeps_forEach; intros e _; apply keeps_on_trace_lift_files.
Qed.

(** A run in which a subprocess was started has created the folders and
    written the starter files. *)
Lemma reached_subprocesses (v : variant) (w : world) (cmd : jsstring) :
  attempted cmd (trace v w) = true ->
  exists s1 s2,
    createFolders v (userFolder w) (baseDir w) (prompted w) = (Return tt, s1) /\
    writeStarterFiles v (baseDir w) s1 = (Return tt, s2) /\
    files (snd (run v w))
    = files (snd (bind (initProject v w (baseDir w))
                    (fun _ => bind (rewriteManifest v (baseDir w))
                    (fun _ => bind (installDependencies v w)
                    (fun _ => bind (updatePackages v w)
                    (fun _ => bind (writeReadme v (userFolder w) (baseDir w))
                    (fun _ => startServer v w (userFolder w)))))) s2)).
Proof.
  intros Hatt. destruct (run_body v w) as [Hf He].
  unfold attempted in Hatt. rewrite He in Hatt. rewrite Hf. clear Hf He.
  unfold body in *.
  assert (H0 : on_trace (fun T => execs T = []) (prompted w)) by reflexivity.
  destruct (createFolders v (userFolder w) (baseDir w) (prompted w)) as [r1 s1] eqn:E1.
  pose proof (createFolders_quiet v _ _ _ _ _ H0 E1) as H1. unfold on_trace in H1.
  destruct r1 as [[]|e|c].
  2: { rewrite (bind_Throw _ _ _ _ _ E1) in Hatt. cbn [snd] in Hatt.
       rewrite H1 in Hatt. discriminate Hatt. }
  2: { rewrite (bind_Exit _ _ _ _ _ E1) in Hatt. cbn [snd] in Hatt.
       rewrite H1 in Hatt. discriminate Hatt. }
  rewrite (bind_eq _ _ _ _ _ E1) in *.
  destruct (writeStarterFiles v (baseDir w) s1) as [r2 s2] eqn:E2.
  pose proof (writeStarterFiles_quiet v _ _ _ _ H1 E2) as H2. unfold on_trace in H2.
  destruct r2 as [[]|e|c].
  2: { rewrite (bind_Throw _ _ _ _ _ E2) in Hatt. cbn [snd] in Hatt.
       rewrite H2 in Hatt. discriminate Hatt. }
  2: { rewrite (bind_Exit _ _ _ _ _ E2) in Hatt. cbn [snd] in Hatt.
       rewrite H2 in Hatt. discriminate Hatt. }
  rewrite (bind_eq _ _ _ _ _ E2) in *.
  exists s1, s2. split; [reflexivity |]. split; [exact E2 | reflexivity].
Qed.

Lemma folders_not_files (v : variant) :
  Forall (fun f : jsstring =>
    [f] <> Path.split (js "package.json") /\ [f] <> Path.split (js "README.md") /\
    Forall (fun e : jsstring * jsstring => [f] <> Path.split (fst e)) (starterFiles v))
    (folders v).
Proof. destruct v; apply (by_bool_decide _); vm_compute; reflexivity. Qed.

(** What holds when the script has moved to the target directory holds at
    the end of the run, at a path that is neither the manifest's nor the
    README's and that the subprocesses leave alone. *)
Lemma from_npm_init_keeps (v : variant) (w : world) (k : list jsstring) (n : node)
  (names : list jsstring) (folder : jsstring) :
  untouched w k -> names_only names ->
  k <> names ++ Path.split (js "package.json") ->
  k <> names ++ Path.split (js "README.md") ->
  keeps (holds k n)
    (bind (initProject v w (render names))
       (fun _ => bind (rewriteManifest v (render names))
       (fun _ => bind (installDependencies v w)
       (fun _ => bind (updatePackages v w)
       (fun _ => bind (writeReadme v folder (render names))
       (fun _ => startServer v w folder)))))).
Proof.
  intros Hsub Hn Hm Hr.
  destruct (after_templates_keeps w k n names Hsub Hn Hm Hr v folder)
    as (K3 & K4 & K5 & K6 & K7 & K8).
  repeat (apply keeps_bind; [assumption | intros _]). assumption.
Qed.

(** X14.  Nothing is rolled back.  In every run in which [npm init -y] was
    started, whether it then succeeds or fails at any later step, the six
    folders are directories and every starter file holds the text of its
    template at the end of the run, at each path that no subprocess
    writes. *)
Theorem X14_no_rollback (v : variant) (w : world) :
  Path.isAbsolute (initial_cwd w) = true ->
  attempted npm_init (trace v w) = true ->
  (forall f, In f (folders v) -> untouched w (baseNames w ++ [f]) ->
     files (snd (run v w)) !! (baseNames w ++ [f]) = Some Dir) /\
  (forall rel text, In (rel, text) (starterFiles v) -> untouched w (target w rel) ->
     files (snd (run v w)) !! target w rel = Some (File (Text text))).
Proof.
  intros Habs Hatt. pose proof (baseNames_names w) as Hn.
  destruct (reached_subprocesses v w _ Hatt) as (s1 & s2 & E1 & E2 & ->).
  pose proof (starterFiles_relative v) as Hrel.
  split.
  - intros f Hf Hsub.
    pose proof (folders_not_files v) as Hnf. rewrite List.Forall_forall in Hnf.
    destruct (Hnf f Hf) as (Hm & Hr & Hs). rewrite List.Forall_forall in Hs.
    rewrite baseDir_render in * by assumption.
    destruct (createFolders_spec v _ _ _ _ Hn E1) as (_ & _ & _ & Hfold & _).
    destruct (writeStarterFiles_table v _ _ _ E2) as (s0 & Hf0 & _ & E0).
    destruct (forEach_writeTemplate (baseNames w) Hn _ _ _ Hrel (starterFiles_distinct v) E0)
      as (_ & _ & _ & Hout).
    assert (H2 : holds (baseNames w ++ [f]) Dir s2).
    { unfold holds. rewrite Hout, Hf0; [apply Hfold, Hf |].
      intros rel c Hin E. apply app_inv_head in E. apply (Hs _ Hin E). }
    destruct (bind _ _ s2) as [r s'] eqn:E. cbn [snd].
    refine (from_npm_init_keeps v w _ _ _ _ Hsub Hn _ _ _ _ _ H2 E);
      intros E'; apply app_inv_head in E'; contradiction.
  - intros rel text Hin Hsub.
    rewrite List.Forall_forall in Hrel. pose proof (Hrel _ Hin) as Hr. cbn [fst] in Hr.
    rewrite target_names in * by assumption.
    pose proof (starterFiles_written v w s1 s2 rel text Habs E2 Hin) as H2.
    rewrite baseDir_render in * by assumption.
    pose proof (generatedFiles_paths v []) as Hp. rewrite List.Forall_forall in Hp.
    destruct (Hp (rel, text)) as [_ Hman].
    { rewrite generatedFiles_split, in_app_iff. left. exact Hin. }
    cbn [fst] in Hman.
    destruct (bind _ _ s2) as [r s'] eqn:E. cbn [snd].
    refine (from_npm_init_keeps v w _ _ _ _ Hsub Hn _ _ _ _ _ H2 E);
      intros E'; apply app_inv_head in E'; [contradiction |].
    revert E'. apply (starterFiles_not_readme v _ _ Hin).
Qed.

Lemma X14_witness :
  attempted npm_init (trace part_000 (world_install_fails part_000)) = true /\
  exit_code part_000 (world_install_fails part_000) = 1%Z /\
  files (snd (run part_000 (world_install_fails part_000)))
    !! target (world_install_fails part_000) (js "server.js")
  = Some (File (Text Part000.server_js)).
Proof.
  assert (Ha : attempted npm_init (trace part_000 (world_install_fails part_000)) = true)
    by by_vm.
  destruct (X14_no_rollback part_000 (world_install_fails part_000) eq_refl Ha) as [_ H].
  split; [exact Ha |]. split; [by_vm |].
  apply (H (js "server.js") Part000.server_js).
  - apply list_elem_of_In, (by_bool_decide _). by_vm.
  - apply sample_npm_untouched, ne_by_decide. by_vm.
Defined.

(** ** When the scaffolding fails *)

Lemma write_Ok_not_dir (p : jsstring) (k : list jsstring) (c : content)
  (m m' : gmap (list jsstring) node) :
  Files.write p k c m = Ok m' -> m !! k <> Some Dir.
Proof.
  unfold Files.write. destruct k; [discriminate |].
  destruct (Files.is_dir m _).
  - destruct (m !! _) as [[|c']|]; [discriminate | intros _; discriminate ..].
  - destruct (m !! Files.parent _) as [[|c']|]; discriminate.
Qed.

(** Templates that were written did not find a directory at their path. *)
Lemma forEach_writeTemplate_not_dir (names : list jsstring)
  (table : list (jsstring * jsstring)) (s s' : state) :
  names_only names ->
  Forall (fun e => relative_names (fst e) = true) table ->
  NoDup (map (fun e => Path.split (fst e)) table) ->
  forEach table (writeTemplate (render names)) s = (Return tt, s') ->
  forall e, In e table -> files s !! (names ++ Path.split (fst e)) <> Some Dir.
Proof.
  intros Hn Hrel. revert s. induction Hrel as [|[rel c] table Hr _ IH]; intros s Hnd H e He;
    [destruct He |].
  cbn [forEach] in H. apply bind_Return in H as ([] & s1 & H1 & H2).
  cbn [map fst] in Hnd. apply NoDup_cons in Hnd as [Hnew Hnd].
  unfold writeTemplate, Fs.writeFile, lift_files in H1. cbn [fst snd] in *.
  rewrite key_join_args in H1 by assumption.
  destruct (Files.write _ _ _ (files s)) as [m|err] eqn:Ew; [| discriminate H1].
  injection H1 as <-.
  destruct He as [<- | He]; cbn [fst].
  - apply (write_Ok_not_dir _ _ _ _ _ Ew).
  - specialize (IH _ Hnd H2 e He). cbn [files] in IH.
    apply write_Ok in Ew. subst m. rewrite lookup_insert_ne in IH; [exact IH |].
    intros E. apply app_inv_head in E. apply Hnew. rewrite E.
    apply list_elem_of_In, (in_map (fun e => Path.split (fst e))), He.
Qed.

(** X15.  A run starts a subprocess only where nothing was in the way of
    the scaffolding: if any subprocess was started, no regular file lay at
    the target directory, at a directory above it or at one of the six
    folders, and no directory lay at the path of a starter file.  So a run
    that finds one of them fails before [npm init -y]. *)
Theorem X15_subprocess_only_after_scaffolding (v : variant) (w : world) (cmd : jsstring) :
  Path.isAbsolute (initial_cwd w) = true ->
  attempted cmd (trace v w) = true ->
  (forall d c, In d (directories v (baseNames w)) ->
     initial_files w !! d <> Some (File c)) /\
  (forall rel text, In (rel, text) (starterFiles v) ->
     initial_files w !! target w rel <> Some Dir).
Proof.
  intros Habs Hatt. pose proof (baseNames_names w) as Hn.
  destruct (reached_subprocesses v w _ Hatt) as (s1 & s2 & E1 & E2 & _).
  rewrite baseDir_render in * by assumption.
  destruct (createFolders_spec v _ _ _ _ Hn E1) as (_ & Hkeep & Hchain & Hfold & _).
  cbn [files prompted] in Hkeep.
  split.
  - intros d c Hd Hfile. apply Hkeep in Hfile.
    unfold directories in Hd. apply in_app_or in Hd as [Hd | Hd].
    + rewrite (Hchain d Hd) in Hfile. discriminate Hfile.
    + apply in_map_iff in Hd as (f & <- & Hf).
      rewrite (Hfold f Hf) in Hfile. discriminate Hfile.
  - intros rel text Hin Hdir.
    pose proof (starterFiles_relative v) as Hrel.
    rewrite target_names in Hdir; [| assumption |].
    2: { rewrite List.Forall_forall in Hrel. apply (Hrel _ Hin). }
    apply Hkeep in Hdir.
    destruct (writeStarterFiles_table v _ _ _ E2) as (s0 & Hf0 & _ & E0).
    apply (forEach_writeTemplate_not_dir (baseNames w) _ _ _ Hn Hrel
             (starterFiles_distinct v) E0 (rel, text) Hin).
    rewrite Hf0. exact Hdir.
Qed.

Lemma X15_witness :
  attempted npm_run_dev (trace index_js world_ok) = true /\
  initial_files world_ok !! target world_ok (js "server.js") <> Some Dir.
Proof.
  assert (Ha : attempted npm_run_dev (trace index_js world_ok) = true) by by_vm.
  destruct (X15_subprocess_only_after_scaffolding index_js world_ok _ eq_refl Ha) as [_ H].
  split; [exact Ha |].
  apply (H (js "server.js") IndexJs.server_js).
  apply list_elem_of_In, (by_bool_decide _). by_vm.
Defined.
